(** * Résumé screening: scoring engine and result store

    A shallow embedding of [curriculum_analyzer.py] (class
    [CurriculumAnalyzer]) and of [DatabaseManager.salvar_resultado] from
    [database_manager.py], followed by the properties of the scoring
    pipeline and of the idempotent store.

    Conventions of the embedding.
    - A Python [str] is a list of Unicode code points ([list N]).  String
      literals of the source are written as Rocq strings and decoded from
      UTF-8 by [py], so that the tables below read as they do in the source.
    - Python floats are idealised as exact rationals ([Q]); [round(x, 1)] is
      rounding to one decimal place, ties to even.
    - [unicodedata.normalize('NFD', _)], [unicodedata.category] and
      [str.lower] are modelled on Basic Latin, Latin-1 Supplement and the
      Combining Diacritical Marks block, which cover the keyword tables of
      the source and Portuguese text; other code points pass unchanged.
    - What the analyzer reads from outside (files through the PDF/DOCX/TXT
      readers, the optional AI analyzer, the clock) is a record [Ambiente]
      passed explicitly.

    Besides these, the file embeds the other writers of the database
    ([salvar_vaga], [obter_vagas_ativas], [limpar_resultados],
    [salvar_curriculo_aprovado], [_extrair_nome_candidato]), the search and
    download of [email_client.py] with the mail server as a record
    [Servidor], and [_limpar_nome_pasta] of [curriculum_manager.py]. *)

From Stdlib Require Import String Ascii List Bool NArith ZArith QArith Qround Qminmax Lia Lqa Permutation.
Import ListNotations.

(* ------------------------------------------------------------------ *)
(** ** Python strings *)

Module PyStr.

Local Open Scope N_scope.

Definition str := list N.

Definition bytes_of_string (s : string) : list N :=
  map (fun a => N_of_ascii a) (list_ascii_of_string s).

(** UTF-8 decoding of a source literal; a truncated sequence is dropped. *)
Fixpoint utf8_decode (bs : list N) : str :=
  match bs with
  | [] => []
  | b0 :: r0 =>
    if b0 <? 128 then b0 :: utf8_decode r0
    else
      match r0 with
      | [] => []
      | b1 :: r1 =>
        if b0 <? 224 then ((b0 - 192) * 64 + (b1 - 128)) :: utf8_decode r1
        else
          match r1 with
          | [] => []
          | b2 :: r2 =>
            if b0 <? 240
            then ((b0 - 224) * 4096 + (b1 - 128) * 64 + (b2 - 128)) :: utf8_decode r2
            else
              match r2 with
              | [] => []
              | b3 :: r3 =>
                ((b0 - 240) * 262144 + (b1 - 128) * 4096 + (b2 - 128) * 64 + (b3 - 128))
                  :: utf8_decode r3
              end
          end
      end
  end.

Definition py (s : string) : str := utf8_decode (bytes_of_string s).

Fixpoint str_eqb (a b : str) : bool :=
  match a, b with
  | [], [] => true
  | x :: a', y :: b' => (x =? y) && str_eqb a' b'
  | _, _ => false
  end.

(** [startswith b a]: [a] is a prefix of [b]. *)
Fixpoint startswith (b a : str) : bool :=
  match a, b with
  | [], _ => true
  | x :: a', y :: b' => (x =? y) && startswith b' a'
  | _ :: _, [] => false
  end.

(** [contem b a] is Python's [a in b] on strings. *)
Fixpoint contem (b a : str) : bool :=
  startswith b a ||
  match b with
  | [] => false
  | _ :: b' => contem b' a
  end.

(** [x in l] for a list of strings. *)
Definition pertence (x : str) (l : list str) : bool := existsb (str_eqb x) l.

Fixpoint lista_eqb (l1 l2 : list str) : bool :=
  match l1, l2 with
  | [], [] => true
  | x :: r1, y :: r2 => str_eqb x y && lista_eqb r1 r2
  | _, _ => false
  end.

(** [str.lower] on one code point: A-Z and the capitals of Latin-1
    (U+00C0..U+00DE but the multiplication sign U+00D7). *)
Definition lower_cp (c : N) : N :=
  if ((65 <=? c) && (c <=? 90)) || ((192 <=? c) && (c <=? 222) && negb (c =? 215))
  then c + 32 else c.

Definition lower (s : str) : str := map lower_cp s.

(** Canonical decompositions of the Latin-1 capitals: [(code point, base
    letter, combining mark)].  The small letters decompose alike, 32 above. *)
Definition decomposicoes_maiusculas : list (N * (N * N)) :=
  [ (192, (65, 768)); (193, (65, 769)); (194, (65, 770)); (195, (65, 771));
    (196, (65, 776)); (197, (65, 778)); (199, (67, 807));
    (200, (69, 768)); (201, (69, 769)); (202, (69, 770)); (203, (69, 776));
    (204, (73, 768)); (205, (73, 769)); (206, (73, 770)); (207, (73, 776));
    (209, (78, 771));
    (210, (79, 768)); (211, (79, 769)); (212, (79, 770)); (213, (79, 771));
    (214, (79, 776));
    (217, (85, 768)); (218, (85, 769)); (219, (85, 770)); (220, (85, 776));
    (221, (89, 769)) ].

Definition decomposicoes : list (N * (N * N)) :=
  decomposicoes_maiusculas
  ++ map (fun '(c, (b, m)) => (c + 32, (b + 32, m))) decomposicoes_maiusculas
  ++ [ (255, (121, 776)) ].

Fixpoint procurar {A : Type} (k : N) (t : list (N * A)) : option A :=
  match t with
  | [] => None
  | (k', v) :: r => if k =? k' then Some v else procurar k r
  end.

(** [unicodedata.normalize('NFD', c)] for one code point. *)
Definition nfd_cp (c : N) : str :=
  match procurar c decomposicoes with
  | Some (b, m) => [b; m]
  | None => [c]
  end.

Definition nfd (s : str) : str := flat_map nfd_cp s.

(** [unicodedata.category(c) == 'Mn'] on the Combining Diacritical Marks. *)
Definition categoria_Mn (c : N) : bool := (768 <=? c) && (c <=? 879).

(** [str.isspace] for one code point. *)
Definition isspace_cp (c : N) : bool :=
  ((9 <=? c) && (c <=? 13)) || ((28 <=? c) && (c <=? 32))
  || (c =? 133) || (c =? 160) || (c =? 5760)
  || ((8192 <=? c) && (c <=? 8202))
  || (c =? 8232) || (c =? 8233) || (c =? 8239) || (c =? 8287) || (c =? 12288).

Fixpoint lstrip (s : str) : str :=
  match s with
  | [] => []
  | c :: r => if isspace_cp c then lstrip r else s
  end.

Definition strip (s : str) : str := rev (lstrip (rev (lstrip s))).

(** [sep.join(l)]. *)
Fixpoint join (sep : str) (l : list str) : str :=
  match l with
  | [] => []
  | [x] => x
  | x :: r => x ++ sep ++ join sep r
  end.

End PyStr.

Import PyStr.

(* ------------------------------------------------------------------ *)
(** ** Numbers *)

Module PyNum.

Local Open Scope Q_scope.

Definition Qnat (n : nat) : Q := inject_Z (Z.of_nat n).

(** [a < b] and [a >= b] on floats. *)
Definition Qlt_bool (a b : Q) : bool := negb (Qle_bool b a).
Definition Qge_bool (a b : Q) : bool := Qle_bool b a.

(** [min(a, b)]: the first argument unless the second is smaller. *)
Definition py_min (a b : Q) : Q := if Qlt_bool b a then b else a.

(** Nearest integer, ties to even. *)
Definition arredondar_par (q : Q) : Z :=
  let f := Qfloor q in
  match Qcompare (q - inject_Z f) (1 # 2) with
  | Lt => f
  | Gt => (f + 1)%Z
  | Eq => if Z.even f then f else (f + 1)%Z
  end.

(** [round(q, 1)]. *)
Definition py_round1 (q : Q) : Q := inject_Z (arredondar_par (q * 10)) / 10.

(** [sum] of a list accumulated from the left, as the [+=] loops do. *)
Definition soma (l : list Q) : Q := fold_left Qplus l 0.

End PyNum.

Import PyNum.

(* ------------------------------------------------------------------ *)
(** ** curriculum_analyzer.py *)

Module CurriculumAnalyzer.

Local Open Scope string_scope.
Local Open Scope list_scope.
Local Open Scope Q_scope.

(** *** Static tables of [__init__] *)

Definition palavras_chave_default : list str :=
  map py
    [ "experiência"; "experiencia"; "formação"; "formacao"; "graduação"; "graduacao";
      "curso"; "habilidades"; "conhecimento"; "competências"; "competencias";
      "projetos"; "trabalho"; "técnico"; "tecnico" ].

Definition abreviacoes : list (str * list str) :=
  map (fun '(k, v) => (py k, map py v))
    [ ("tst", [ "técnico em segurança do trabalho"; "tecnico em seguranca do trabalho";
                "segurança do trabalho"; "seguranca do trabalho" ]);
      ("rh", [ "recursos humanos"; "gestão de pessoas"; "gestao de pessoas" ]);
      ("ti", [ "tecnologia da informação"; "tecnologia da informacao"; "informatica";
               "informática" ]);
      ("adm", [ "administração"; "administracao"; "administrativo" ]);
      ("eng", [ "engenharia"; "engenheiro"; "engenheira" ]);
      ("tec", [ "técnico"; "tecnico"; "tecnologia" ]);
      ("sup", [ "superior"; "supervisão"; "supervisao"; "supervisor" ]);
      ("coord", [ "coordenação"; "coordenacao"; "coordenador" ]);
      ("ger", [ "gerência"; "gerencia"; "gerente" ]);
      ("dir", [ "diretoria"; "diretor"; "diretora" ]);
      ("aux", [ "auxiliar"; "assistente" ]);
      ("op", [ "operação"; "operacao"; "operador" ]);
      ("prod", [ "produção"; "producao"; "produto" ]);
      ("qual", [ "qualidade"; "controle de qualidade" ]);
      ("seg", [ "segurança"; "seguranca" ]);
      ("amb", [ "ambiental"; "meio ambiente" ]);
      ("cont", [ "contabilidade"; "contador"; "contábil"; "contabil" ]);
      ("fin", [ "financeiro"; "finanças"; "financas" ]);
      ("com", [ "comercial"; "comércio"; "comercio"; "vendas" ]);
      ("mkt", [ "marketing"; "mercadologia" ]);
      ("log", [ "logística"; "logistica" ]) ].

(** [d[k]] on the abbreviation dict; [None] when [k not in d]. *)
Fixpoint obter (k : str) (d : list (str * list str)) : option (list str) :=
  match d with
  | [] => None
  | (k', v) :: r => if str_eqb k k' then Some v else obter k r
  end.

(** *** Text normalisation *)

Definition _normalizar_texto (texto : str) : str :=
  match texto with
  | [] => []
  | _ =>
    let texto_normalizado := nfd texto in
    let texto_sem_acentos := filter (fun c => negb (categoria_Mn c)) texto_normalizado in
    lower texto_sem_acentos
  end.

(** A well-formed entry of the table: the key is its own normal form and is
    looked up to the terms listed with it. *)
Definition entrada_ok (entrada : str * list str) : bool :=
  let '(abrev, termos) := entrada in
  str_eqb (_normalizar_texto abrev) abrev
  && match obter abrev abreviacoes with
     | Some termos' => lista_eqb termos' termos
     | None => false
     end.

(** Lower-casing one code point first leaves its normal form unchanged. *)
Definition normal_de_minuscula_ok (c : N) : bool :=
  str_eqb (_normalizar_texto [lower_cp c]) (_normalizar_texto [c]).

(** *** Keyword expansion *)

(** The inner double loop of [_expandir_palavras_chave]: each abbreviation one
    of whose full terms normalises to [palavra_norm], in table order. *)
Definition abreviacoes_do_termo (palavra_norm : str) : list str :=
  flat_map
    (fun '(abrev, termos_completos) =>
       if existsb (fun termo => str_eqb palavra_norm (_normalizar_texto termo))
                  termos_completos
       then [abrev] else [])
    abreviacoes.

Definition expansao_da_palavra (palavra : str) : list str :=
  let palavra_norm := _normalizar_texto palavra in
  match obter palavra_norm abreviacoes with
  | Some termos => termos
  | None => []
  end ++ abreviacoes_do_termo palavra_norm.

(** One turn of the loop that removes duplicates keeping the order. *)
Definition passo_unicas (palavras_unicas : list str) (palavra : str) : list str :=
  if pertence palavra palavras_unicas then palavras_unicas
  else palavras_unicas ++ [palavra].

Definition remover_duplicatas (palavras_expandidas : list str) : list str :=
  fold_left passo_unicas palavras_expandidas [].

Definition _expandir_palavras_chave (palavras_chave : list str) : list str :=
  remover_duplicatas (palavras_chave ++ flat_map expansao_da_palavra palavras_chave).

(** *** Category scorer *)

Record ScoreCategoria := {
  sc_pontuacao : Q;
  sc_palavras_encontradas : list str;
  sc_total_palavras_categoria : nat
}.

(** The "relação direta" test between a normalised keyword and a normalised
    expanded word. *)
Definition relacao_direta (keyword_norm palavra_exp_norm : str) : bool :=
  match obter keyword_norm abreviacoes with
  | Some termos => pertence palavra_exp_norm (map _normalizar_texto termos)
  | None => false
  end
  ||
  match obter palavra_exp_norm abreviacoes with
  | Some termos => pertence keyword_norm (map _normalizar_texto termos)
  | None => false
  end.

(** The loop over [palavras_expandidas], left at the first related word found
    in the text. *)
Fixpoint busca_expandida (texto_normalizado keyword_norm : str)
         (palavras_expandidas : list str) : bool :=
  match palavras_expandidas with
  | [] => false
  | palavra_expandida :: resto =>
    if contem texto_normalizado (_normalizar_texto palavra_expandida)
    then
      if relacao_direta keyword_norm (_normalizar_texto palavra_expandida)
      then true
      else busca_expandida texto_normalizado keyword_norm resto
    else busca_expandida texto_normalizado keyword_norm resto
  end.

Definition encontrou (texto_normalizado : str) (palavras_expandidas : list str)
           (keyword : str) : bool :=
  let keyword_normalizado := _normalizar_texto keyword in
  if contem texto_normalizado keyword_normalizado then true
  else busca_expandida texto_normalizado keyword_normalizado palavras_expandidas.

(** One turn of the loop over [keywords]. *)
Definition passo_encontradas (texto_normalizado : str) (palavras_expandidas : list str)
           (palavras_encontradas : list str) (keyword : str) : list str :=
  if encontrou texto_normalizado palavras_expandidas keyword
     && negb (pertence keyword palavras_encontradas)
  then palavras_encontradas ++ [keyword]
  else palavras_encontradas.

Definition coletar_encontradas (texto_normalizado : str) (palavras_expandidas : list str)
           (keywords : list str) : list str :=
  fold_left (passo_encontradas texto_normalizado palavras_expandidas) keywords [].

Definition _calcular_score_categoria (texto : str) (keywords : list str) : ScoreCategoria :=
  let texto_normalizado := _normalizar_texto texto in
  let palavras_expandidas := _expandir_palavras_chave keywords in
  let palavras_encontradas :=
    coletar_encontradas texto_normalizado palavras_expandidas keywords in
  let encontradas := length palavras_encontradas in
  let proporcao :=
    if (0 <? length keywords)%nat then Qnat encontradas / Qnat (length keywords) else 0 in
  let pontuacao := py_min (proporcao * 10) 10 in
  {| sc_pontuacao := pontuacao;
     sc_palavras_encontradas := palavras_encontradas;
     sc_total_palavras_categoria := length keywords |}.

(** *** Relevance gate *)

(** The loop over the related words of one keyword: 0.7 at the first one found
    in the text. *)
Fixpoint peso_relacionadas (texto : str) (palavras_relacionadas : list str) : Q :=
  match palavras_relacionadas with
  | [] => 0
  | palavra_relacionada :: resto =>
    if contem texto (_normalizar_texto palavra_relacionada) then 7 # 10
    else peso_relacionadas texto resto
  end.

(** What one job keyword adds to [correspondencias]. *)
Definition contribuicao (texto : str) (palavra_chave : str) : Q :=
  let palavra_norm := _normalizar_texto (strip palavra_chave) in
  if contem texto palavra_norm then 1
  else
    let palavras_relacionadas :=
      match obter palavra_norm abreviacoes with
      | Some termos => termos
      | None => []
      end in
    peso_relacionadas texto palavras_relacionadas.

Definition _verificar_correspondencia_vaga (texto : str) (palavras_chave_vaga : list str) : Q :=
  match palavras_chave_vaga with
  | [] => 0
  | _ =>
    let correspondencias :=
      fold_left (fun c palavra_chave => c + contribuicao texto palavra_chave)
                palavras_chave_vaga 0 in
    let pontuacao := (correspondencias / Qnat (length palavras_chave_vaga)) * 10 in
    py_min pontuacao 10
  end.

(** *** The analyzer's surroundings *)

(** Outcome of [ai_analyzer.analyze_curriculum]: it raised, it returned a
    falsy value, or it returned a dict with or without [fit_score]. *)
Inductive RespostaIA :=
| IAExcecao
| IASemResultado
| IAResultado (fit_score : option Q).

Record Ambiente := {
  (** the three readers that go through a library or the file system, with
      their own error handling: path to text *)
  _extrair_texto_pdf : str -> str;
  _extrair_texto_docx : str -> str;
  _extrair_texto_txt : str -> str;
  (** [self.ai_analyzer], called on the text and on the keywords the job
      description is built from *)
  ai_analyzer : option (str -> list str -> RespostaIA);
  (** [datetime.now().strftime(...)] *)
  agora : str
}.

(** *** Text extraction *)

Definition _extrair_texto_doc (caminho : str) : str :=
  py "Arquivo DOC antigo - recomenda-se converter para DOCX".

Definition _extrair_texto (amb : Ambiente) (caminho_arquivo tipo : str) : str :=
  if str_eqb tipo (py "pdf") then _extrair_texto_pdf amb caminho_arquivo
  else if str_eqb tipo (py "docx") then _extrair_texto_docx amb caminho_arquivo
  else if str_eqb tipo (py "doc") then _extrair_texto_doc caminho_arquivo
  else if str_eqb tipo (py "txt") then _extrair_texto_txt amb caminho_arquivo
  else [].

(** *** Scoring of one text *)

(** The [detalhes] dict: either the rejection record of the gate or the
    category scores.  [motivo_rejeicao] keeps the number its message prints. *)
Inductive Detalhes :=
| Rejeicao (motivo_rejeicao : Q) (analise_rejeicao : str)
           (palavras_buscadas : list str) (correspondencia_score : Q)
| Categorias (palavras_chave_vaga : option ScoreCategoria)
             (formacao experiencia habilidades : ScoreCategoria)
             (ai_score : option Q).

Record Analise := {
  an_pontuacao : Q;
  an_palavras_encontradas : list str;
  an_detalhes : Detalhes;
  an_ai_analysis : option (option Q)
}.

Definition formacao_keywords : list str :=
  map py [ "graduação"; "bacharelado"; "licenciatura"; "mestrado"; "doutorado";
           "técnico"; "superior"; "universidade"; "faculdade"; "curso" ].

Definition experiencia_keywords : list str :=
  map py [ "experiência"; "trabalho"; "emprego"; "função"; "cargo";
           "atuação"; "atividade"; "responsabilidade"; "ano"; "anos" ].

Definition habilidades_keywords : list str :=
  map py [ "conhecimento"; "habilidade"; "competência"; "domínio";
           "experiência em"; "trabalho com"; "utilização" ].

(** The fit the AI analyzer contributes, already divided by ten: present only
    when there is an analyzer, it returns a result and its [fit_score] is
    positive. *)
Definition ai_score_de (amb : Ambiente) (texto : str) (palavras_chave : list str) : option Q :=
  match ai_analyzer amb with
  | None => None
  | Some analyze_curriculum =>
    match analyze_curriculum texto palavras_chave with
    | IAResultado (Some fit_score) =>
      if Qlt_bool 0 fit_score then Some (fit_score / 10) else None
    | _ => None
    end
  end.

Definition ai_analysis_de (amb : Ambiente) (texto : str) (palavras_chave : list str)
  : option (option Q) :=
  match ai_analyzer amb with
  | None => None
  | Some analyze_curriculum =>
    match analyze_curriculum texto palavras_chave with
    | IAResultado fit_score => Some fit_score
    | _ => None
    end
  end.

(** [_analisar_texto].  [vaga_score] and [correspondencia_minima] are bound
    before the test of the source and used only under it. *)
Definition _analisar_texto (amb : Ambiente) (texto : str)
           (palavras_chave : option (list str)) : Analise :=
  let palavras_chave :=
    match palavras_chave with
    | None => palavras_chave_default
    | Some l => l
    end in
  let texto_lower := lower texto in
  let busca_geral := lista_eqb palavras_chave palavras_chave_default in
  let vaga_score := _calcular_score_categoria texto_lower palavras_chave in
  let correspondencia_minima := _verificar_correspondencia_vaga texto_lower palavras_chave in
  if negb busca_geral && Qlt_bool correspondencia_minima 2 then
    {| an_pontuacao := 0;
       an_palavras_encontradas := [];
       an_detalhes :=
         Rejeicao correspondencia_minima
                  (py "Currículo não possui palavras-chave suficientes para a vaga específica")
                  (firstn 5 palavras_chave)
                  correspondencia_minima;
       an_ai_analysis := None |}
  else
    let formacao_score := _calcular_score_categoria texto_lower formacao_keywords in
    let experiencia_score := _calcular_score_categoria texto_lower experiencia_keywords in
    let habilidades_score := _calcular_score_categoria texto_lower habilidades_keywords in
    let pontuacao_formacao := sc_pontuacao formacao_score in
    let pontuacao_experiencia := sc_pontuacao experiencia_score in
    let pontuacao_habilidades := sc_pontuacao habilidades_score in
    let pontuacao :=
      if busca_geral
      then (pontuacao_formacao + pontuacao_experiencia + pontuacao_habilidades) / 3
      else
        let pontuacao_geral :=
          (pontuacao_formacao + pontuacao_experiencia + pontuacao_habilidades) / 3 in
        let pontuacao_vaga := sc_pontuacao vaga_score in
        (pontuacao_vaga * (7 # 10)) + (pontuacao_geral * (3 # 10)) in
    let palavras_encontradas :=
      (if busca_geral then [] else sc_palavras_encontradas vaga_score)
      ++ sc_palavras_encontradas formacao_score
      ++ sc_palavras_encontradas experiencia_score
      ++ sc_palavras_encontradas habilidades_score in
    let ai := ai_score_de amb texto palavras_chave in
    let pontuacao :=
      match ai with
      | Some ai_score => (pontuacao * (7 # 10)) + (ai_score * (3 # 10))
      | None => pontuacao
      end in
    {| an_pontuacao := py_round1 pontuacao;
       an_palavras_encontradas := palavras_encontradas;
       an_detalhes :=
         Categorias (if busca_geral then None else Some vaga_score)
                    formacao_score experiencia_score habilidades_score ai;
       an_ai_analysis := ai_analysis_de amb texto palavras_chave |}.

(** *** One attachment *)

Record Anexo := {
  nome_original : str;
  caminho_temp : str;
  tipo : str
}.

Record ResultadoAnexo := {
  ra_nome_arquivo : str;
  ra_tipo_arquivo : option str;
  ra_tamanho_texto : option nat;
  ra_texto_extraido : bool;
  ra_pontuacao : Q;
  ra_palavras_encontradas : list str;
  ra_detalhes : option Detalhes;
  ra_erro : option str
}.

(** [_analisar_arquivo]; removing the temporary file afterwards leaves the
    result unchanged and is not modelled. *)
Definition _analisar_arquivo (amb : Ambiente) (anexo : Anexo)
           (palavras_chave_vaga : option (list str)) : ResultadoAnexo :=
  let caminho := caminho_temp anexo in
  let tipo := tipo anexo in
  let nome := nome_original anexo in
  let texto_extraido := _extrair_texto amb caminho tipo in
  match texto_extraido with
  | [] =>
    {| ra_nome_arquivo := nome;
       ra_tipo_arquivo := None;
       ra_tamanho_texto := None;
       ra_texto_extraido := false;
       ra_pontuacao := 0;
       ra_palavras_encontradas := [];
       ra_detalhes := None;
       ra_erro := Some (py "Não foi possível extrair texto") |}
  | _ =>
    let analise := _analisar_texto amb texto_extraido palavras_chave_vaga in
    {| ra_nome_arquivo := nome;
       ra_tipo_arquivo := Some tipo;
       ra_tamanho_texto := Some (length texto_extraido);
       ra_texto_extraido := true;
       ra_pontuacao := an_pontuacao analise;
       ra_palavras_encontradas := an_palavras_encontradas analise;
       ra_detalhes := Some (an_detalhes analise);
       ra_erro := None |}
  end.

(** *** One email *)

Inductive Status := Aprovado | Revisar | Rejeitado | Erro.

Record EmailData := {
  remetente : str;
  assunto : str;
  data : str;
  anexos : list Anexo
}.

Record Resultado := {
  res_data : str;
  res_email_remetente : str;
  res_assunto : str;
  res_data_email : str;
  res_anexos_analisados : list ResultadoAnexo;
  res_pontuacao : Q;
  res_status : Status;
  res_nome_arquivo : str;
  (** [vaga_id] is not set by the analyzer; the store reads it when the caller
      has added it. *)
  res_vaga_id : option Z
}.

(** The status chosen from the message-level score. *)
Definition classificar (pontuacao_media : Q) : Status :=
  if Qge_bool pontuacao_media 3 then Aprovado
  else if Qge_bool pontuacao_media (3 # 2) then Revisar
  else Rejeitado.

(** [analisar_curriculo].  Its [except] branch, the only place that sets status
    [Erro], is entered when an exception escapes the body; [_analisar_arquivo]
    and [_extrair_texto] catch their own, so on an email of the shape
    [EmailData] none does and the branch is left out. *)
Definition analisar_curriculo (amb : Ambiente) (email_data : EmailData)
           (palavras_chave_vaga : option (list str)) : Resultado :=
  let palavras_chave :=
    match palavras_chave_vaga with
    | Some (p :: r) => p :: r
    | _ => palavras_chave_default
    end in
  let resultados_anexos :=
    map (fun anexo => _analisar_arquivo amb anexo (Some palavras_chave)) (anexos email_data) in
  let pontuacao_total := soma (map ra_pontuacao resultados_anexos) in
  let num_anexos := length resultados_anexos in
  let pontuacao_media :=
    if (0 <? num_anexos)%nat then pontuacao_total / Qnat num_anexos else 0 in
  {| res_data := agora amb;
     res_email_remetente := remetente email_data;
     res_assunto := assunto email_data;
     res_data_email := data email_data;
     res_anexos_analisados := resultados_anexos;
     res_pontuacao := pontuacao_media;
     res_status := classificar pontuacao_media;
     res_nome_arquivo := join (py ", ") (map nome_original (anexos email_data));
     res_vaga_id := None |}.

End CurriculumAnalyzer.

Import CurriculumAnalyzer.

(* ------------------------------------------------------------------ *)
(** ** database_manager.py *)

Module DatabaseManager.

Local Open Scope Z_scope.

(** A row of table [resultados]. *)
Record LinhaResultado := {
  id : Z;
  data_analise : str;
  email_remetente : str;
  assunto_email : str;
  data_email : str;
  nome_arquivo : str;
  pontuacao : Q;
  status : Status;
  detalhes_json : list ResultadoAnexo;
  vaga_id : option Z
}.

(** A row of table [anexos]. *)
Record LinhaAnexo := {
  anexo_id : Z;
  resultado_id : Z;
  anexo_nome_arquivo : str;
  tipo_arquivo : str;
  tamanho_texto : nat;
  anexo_pontuacao : Q;
  palavras_encontradas : list str
}.

(** The two tables [salvar_resultado] touches, each with the counter SQLite
    keeps for its [AUTOINCREMENT] key. *)
Record Banco := {
  resultados : list LinhaResultado;
  seq_resultados : Z;
  tabela_anexos : list LinhaAnexo;
  seq_anexos : Z
}.

Definition banco_vazio : Banco :=
  {| resultados := []; seq_resultados := 0; tabela_anexos := []; seq_anexos := 0 |}.

(** [WHERE email_remetente = ? AND assunto = ? AND data_email = ?] *)
Definition mesma_chave (remetente assunto data : str) (linha : LinhaResultado) : bool :=
  str_eqb (email_remetente linha) remetente
  && str_eqb (assunto_email linha) assunto
  && str_eqb (data_email linha) data.

(** The [INSERT INTO anexos] loop. *)
Definition inserir_anexos (resultado_id : Z) (anexos : list ResultadoAnexo)
           (tabela : list LinhaAnexo) (seq : Z) : list LinhaAnexo * Z :=
  fold_left
    (fun '(tabela, seq) anexo =>
       (tabela ++
          [ {| anexo_id := seq + 1;
               resultado_id := resultado_id;
               anexo_nome_arquivo := ra_nome_arquivo anexo;
               tipo_arquivo := match ra_tipo_arquivo anexo with Some t => t | None => [] end;
               tamanho_texto := match ra_tamanho_texto anexo with Some n => n | None => O end;
               anexo_pontuacao := ra_pontuacao anexo;
               palavras_encontradas := ra_palavras_encontradas anexo |} ],
        seq + 1))
    anexos (tabela, seq).

(** [salvar_resultado]: the new state of the database and the returned id.
    [erro_sqlite] stands for any exception raised inside the [try]: the
    transaction is rolled back and [None] is returned.
    [current_timestamp] is the default of column [data_analise]. *)
Definition salvar_resultado (erro_sqlite : bool) (current_timestamp : str)
           (db : Banco) (resultado : Resultado) : Banco * option Z :=
  if erro_sqlite then (db, None)
  else
    let email_remetente := res_email_remetente resultado in
    let assunto := res_assunto resultado in
    let data_email := res_data_email resultado in
    match find (mesma_chave email_remetente assunto data_email) (resultados db) with
    | Some registro_existente => (db, Some (id registro_existente))
    | None =>
      let resultado_id := seq_resultados db + 1 in
      let linha :=
        {| id := resultado_id;
           data_analise := current_timestamp;
           email_remetente := email_remetente;
           assunto_email := assunto;
           data_email := data_email;
           nome_arquivo := res_nome_arquivo resultado;
           pontuacao := res_pontuacao resultado;
           status := res_status resultado;
           detalhes_json := res_anexos_analisados resultado;
           vaga_id := res_vaga_id resultado |} in
      let '(tabela, seq) :=
        inserir_anexos resultado_id (res_anexos_analisados resultado)
                       (tabela_anexos db) (seq_anexos db) in
      ({| resultados := resultados db ++ [linha];
          seq_resultados := resultado_id;
          tabela_anexos := tabela;
          seq_anexos := seq |},
       Some resultado_id)
    end.

(** The rows stored under the identity key of [resultado]. *)
Definition linhas_da_chave (resultado : Resultado) (db : Banco) : list LinhaResultado :=
  filter (mesma_chave (res_email_remetente resultado) (res_assunto resultado)
                      (res_data_email resultado))
         (resultados db).

(** The states the store goes through when it is only written by
    [salvar_resultado], from the empty tables on. *)
Inductive alcancavel : Banco -> Prop :=
| alcancavel_vazio : alcancavel banco_vazio
| alcancavel_salvar erro_sqlite current_timestamp db resultado :
    alcancavel db ->
    alcancavel (fst (salvar_resultado erro_sqlite current_timestamp db resultado)).

End DatabaseManager.

Import DatabaseManager.

(* ------------------------------------------------------------------ *)
(** ** The relevance gate as the specification words it *)

Module Especificacao.

Local Open Scope Q_scope.

(** One contribution per job keyword: 1.0 when the normalised keyword is a
    substring of the normalised text, 0.7 when only a full term of the
    keyword taken as an abbreviation is, 0 otherwise. *)
Definition contribuicao_spec (texto palavra_chave : str) : Q :=
  let texto_norm := _normalizar_texto texto in
  let palavra_norm := _normalizar_texto palavra_chave in
  if contem texto_norm palavra_norm then 1
  else
    match obter palavra_norm abreviacoes with
    | Some termos =>
      if existsb (fun termo => contem texto_norm (_normalizar_texto termo)) termos
      then 7 # 10 else 0
    | None => 0
    end.

Fixpoint soma_contribuicoes (texto : str) (palavras_chave : list str) : Q :=
  match palavras_chave with
  | [] => 0
  | p :: r => contribuicao_spec texto p + soma_contribuicoes texto r
  end.

(** [min(10, 10 × (Σ contributions) / len(jobKeywords))] *)
Definition correspondencia_spec (texto : str) (palavras_chave : list str) : Q :=
  Qmin 10 (10 * soma_contribuicoes texto palavras_chave / Qnat (length palavras_chave)).

(** [genericScore = average(education, experience, skills)] *)
Definition pontuacao_geral (texto : str) : Q :=
  (sc_pontuacao (_calcular_score_categoria texto formacao_keywords)
   + sc_pontuacao (_calcular_score_categoria texto experiencia_keywords)
   + sc_pontuacao (_calcular_score_categoria texto habilidades_keywords)) / 3.

End Especificacao.

Import Especificacao.

(* ------------------------------------------------------------------ *)
(** ** Sample surroundings and inputs *)

Module Exemplos.

Local Open Scope string_scope.
Local Open Scope list_scope.

(** A small file system: path and decoded content. *)
Definition arquivos : list (str * str) :=
  [ (py "/tmp/cv_eng.txt", py "engenharia civil");
    (py "/tmp/cv_bach.txt", py "bacharelado");
    (py "/tmp/cv_form.txt", py "Formação superior");
    (py "/tmp/cv_geral.txt",
     py "bacharelado licenciatura mestrado doutorado universidade faculdade emprego cargo atividade responsabilidade") ].

Fixpoint ler (fs : list (str * str)) (caminho : str) : str :=
  match fs with
  | [] => []
  | (c, conteudo) :: r => if str_eqb caminho c then conteudo else ler r caminho
  end.

(** No PDF or DOCX can be read, text files come from [arquivos], and there is
    no AI analyzer. *)
Definition ambiente : Ambiente :=
  {| _extrair_texto_pdf := fun _ => [];
     _extrair_texto_docx := fun _ => [];
     _extrair_texto_txt := ler arquivos;
     ai_analyzer := None;
     agora := py "04/11/2026 10:00" |}.

Definition anexo_txt (nome caminho : string) : Anexo :=
  {| nome_original := py nome; caminho_temp := py caminho; tipo := py "txt" |}.

Definition email_de (anexos : list Anexo) : EmailData :=
  {| remetente := py "candidata@example.org";
     assunto := py "Curriculo";
     data := py "Wed, 04 Nov 2026 09:00:00 -0300";
     anexos := anexos |}.

Definition email_eng : EmailData := email_de [ anexo_txt "cv.txt" "/tmp/cv_eng.txt" ].
Definition email_bach : EmailData := email_de [ anexo_txt "cv.txt" "/tmp/cv_bach.txt" ].
Definition email_geral : EmailData := email_de [ anexo_txt "cv.txt" "/tmp/cv_geral.txt" ].
Definition email_ilegivel : EmailData := email_de [ anexo_txt "cv.txt" "/tmp/ausente.txt" ].
Definition email_doc : EmailData :=
  email_de [ {| nome_original := py "cv.doc"; caminho_temp := py "/tmp/cv.doc";
                tipo := py "doc" |} ].

Definition vaga_engenharia : list str := [ py "engenharia"; py "python"; py "java" ].
Definition vaga_ti : list str := [ py "ti" ].
Definition vaga_formacao : list str := [ py "formação" ].

End Exemplos.

(* ------------------------------------------------------------------ *)
(** ** More of Python's string methods *)

Module PyStrMais.

Local Open Scope N_scope.

(** [s.endswith(sufixo)] *)
Definition endswith (s sufixo : str) : bool := startswith (rev s) (rev sufixo).

(** [str.upper] on one code point of Latin-1: the sharp s becomes "SS", and
    the micro sign and y with diaeresis leave Latin-1. *)
Definition upper_cp (c : N) : str :=
  if ((97 <=? c) && (c <=? 122)) || ((224 <=? c) && (c <=? 254) && negb (c =? 247))
  then [c - 32]
  else if c =? 223 then [83; 83]
  else if c =? 255 then [376]
  else if c =? 181 then [924]
  else [c].


(** The title-case mapping of one code point: as [upper_cp], but the sharp s
    becomes "Ss". *)
Definition title_cp (c : N) : str :=
  if c =? 223 then [83; 115] else upper_cp c.

(** Cased code points of Latin-1: the letters with a case, and the ordinal
    indicators and the micro sign. *)
Definition cased_cp (c : N) : bool :=
  ((65 <=? c) && (c <=? 90)) || ((97 <=? c) && (c <=? 122))
  || (c =? 170) || (c =? 181) || (c =? 186)
  || ((192 <=? c) && (c <=? 214)) || ((216 <=? c) && (c <=? 246))
  || ((248 <=? c) && (c <=? 255)).

(** [str.title]: a code point after a cased one is lower-cased, any other is
    title-cased. *)
Fixpoint title_aux (previous_is_cased : bool) (s : str) : str :=
  match s with
  | [] => []
  | c :: r =>
    (if previous_is_cased then [lower_cp c] else title_cp c)
      ++ title_aux (cased_cp c) r
  end.

Definition title (s : str) : str := title_aux false s.

(** [s.replace(old, '')], scanning from the left; [pular] counts the code
    points of an occurrence still to drop. *)
Fixpoint remover_aux (old s : str) (pular : nat) : str :=
  match s with
  | [] => []
  | c :: r =>
    match pular with
    | S k => remover_aux old r k
    | O =>
      if startswith s old then remover_aux old r (length old - 1)
      else c :: remover_aux old r O
    end
  end.

Definition remover (s old : str) : str :=
  match old with
  | [] => s
  | _ => remover_aux old s O
  end.

(** [re.sub(r'[_\-\.]', ' ', s)] *)
Definition pontuacao_para_espaco (s : str) : str :=
  map (fun c => if (c =? 95) || (c =? 45) || (c =? 46) then 32 else c) s.

(** [s.split('@')[0]] *)
Fixpoint antes_da_arroba (s : str) : str :=
  match s with
  | [] => []
  | c :: r => if c =? 64 then [] else c :: antes_da_arroba r
  end.




(** Lexicographic [a < b] on strings, as SQLite compares TEXT. *)
Fixpoint str_ltb (a b : str) : bool :=
  match a, b with
  | _, [] => false
  | [], _ :: _ => true
  | x :: a', y :: b' => (x <? y) || ((x =? y) && str_ltb a' b')
  end.

End PyStrMais.

Import PyStrMais.

(* ------------------------------------------------------------------ *)
(** ** email_client.py: attachment names *)

Module EmailClient.

Local Open Scope string_scope.
Local Open Scope list_scope.

Definition extensoes_aceitas : list str := map py [ ".pdf"; ".doc"; ".docx"; ".txt" ].

(** The test [_extrair_anexos] and [buscar_emails_com_anexos] make on an
    attachment name: [any(nome_lower.endswith(ext) for ext in extensoes_aceitas)]. *)
Definition extensao_aceita (filename : str) : bool :=
  let nome_lower := lower filename in
  existsb (fun ext => endswith nome_lower ext) extensoes_aceitas.

Definition _detectar_tipo_arquivo (filename : str) : str :=
  let nome_lower := lower filename in
  if endswith nome_lower (py ".pdf") then py "pdf"
  else if endswith nome_lower (py ".doc") then py "doc"
  else if endswith nome_lower (py ".docx") then py "docx"
  else if endswith nome_lower (py ".txt") then py "txt"
  else py "desconhecido".

End EmailClient.

Import EmailClient.

(* ------------------------------------------------------------------ *)
(** ** curriculum_manager.py: folder names *)

Module CurriculumManager.

Local Open Scope string_scope.
Local Open Scope list_scope.


End CurriculumManager.

Import CurriculumManager.

(* ------------------------------------------------------------------ *)
(** ** database_manager.py: the other tables *)

Module DatabaseManagerVagas.

Local Open Scope string_scope.
Local Open Scope list_scope.
Local Open Scope Z_scope.

(** [limpar_resultados]: every row of [resultados] is deleted and the counter
    of its key is dropped; table [anexos] is not touched.  The number of rows
    deleted is returned; on an exception the transaction is rolled back and
    the exception raised again ([None]). *)
Definition limpar_resultados (erro_sqlite : bool) (db : Banco) : Banco * option nat :=
  if erro_sqlite then (db, None)
  else
    let total_registros := length (resultados db) in
    ({| resultados := [];
        seq_resultados := 0;
        tabela_anexos := tabela_anexos db;
        seq_anexos := seq_anexos db |},
     Some total_registros).

(** A row of table [vagas]. *)
Record LinhaVaga := {
  vaga_id_linha : Z;
  nome_vaga : str;
  palavras_chave_json : list str;
  data_criacao : str;
  ativa : bool
}.

Record TabelaVagas := {
  vagas : list LinhaVaga;
  seq_vagas : Z
}.

Definition vagas_vazia : TabelaVagas := {| vagas := []; seq_vagas := 0 |}.

(** [UPDATE vagas SET ativa = FALSE WHERE nome_vaga = ? AND ativa = TRUE] *)
Definition desativar (nome : str) (linha : LinhaVaga) : LinhaVaga :=
  if str_eqb (nome_vaga linha) nome && ativa linha
  then {| vaga_id_linha := vaga_id_linha linha;
          nome_vaga := nome_vaga linha;
          palavras_chave_json := palavras_chave_json linha;
          data_criacao := data_criacao linha;
          ativa := false |}
  else linha.

(** [salvar_vaga]; the keyword list is stored as it is, its JSON text being
    read back to the same list. *)
Definition salvar_vaga (erro_sqlite : bool) (current_timestamp : str)
           (tb : TabelaVagas) (nome : str) (palavras_chave : list str)
  : TabelaVagas * option Z :=
  if erro_sqlite then (tb, None)
  else
    let vaga_id := seq_vagas tb + 1 in
    ({| vagas :=
          map (desativar nome) (vagas tb)
          ++ [ {| vaga_id_linha := vaga_id;
                  nome_vaga := nome;
                  palavras_chave_json := palavras_chave;
                  data_criacao := current_timestamp;
                  ativa := true |} ];
        seq_vagas := vaga_id |},
     Some vaga_id).

(** A vaga as [obter_vagas_ativas] returns it. *)
Record Vaga := {
  v_id : Z;
  v_nome : str;
  v_palavras_chave : list str;
  v_data_criacao : str
}.

(** [ORDER BY data_criacao DESC], by insertion from the right; rows created at
    the same instant keep the order of the table. *)
Fixpoint inserir_por_data (linha : LinhaVaga) (ordenadas : list LinhaVaga) : list LinhaVaga :=
  match ordenadas with
  | [] => [linha]
  | l :: r =>
    if str_ltb (data_criacao linha) (data_criacao l)
    then l :: inserir_por_data linha r
    else linha :: ordenadas
  end.

Definition ordenar_por_data (linhas : list LinhaVaga) : list LinhaVaga :=
  fold_right inserir_por_data [] linhas.

Definition obter_vagas_ativas (erro_sqlite : bool) (tb : TabelaVagas) : list Vaga :=
  if erro_sqlite then []
  else
    map (fun row =>
           {| v_id := vaga_id_linha row;
              v_nome := nome_vaga row;
              v_palavras_chave := palavras_chave_json row;
              v_data_criacao := data_criacao row |})
        (ordenar_por_data (filter ativa (vagas tb))).

(** The states of table [vagas] written only by [salvar_vaga]. *)
Inductive vagas_alcancavel : TabelaVagas -> Prop :=
| vagas_alcancavel_vazia : vagas_alcancavel vagas_vazia
| vagas_alcancavel_salvar erro_sqlite current_timestamp tb nome palavras_chave :
    vagas_alcancavel tb ->
    vagas_alcancavel (fst (salvar_vaga erro_sqlite current_timestamp tb nome palavras_chave)).

(** The active rows of a name. *)
Definition ativas_de (nome : str) (tb : TabelaVagas) : list LinhaVaga :=
  filter (fun linha => str_eqb (nome_vaga linha) nome && ativa linha) (vagas tb).

End DatabaseManagerVagas.

Import DatabaseManagerVagas.

(* ------------------------------------------------------------------ *)
(** ** database_manager.py: approved résumés per job *)

Module DatabaseManagerAprovados.

Local Open Scope string_scope.
Local Open Scope list_scope.
Local Open Scope Z_scope.

Definition extensoes_comuns : list str := map py [ ".pdf"; ".docx"; ".doc"; ".txt" ].

Definition palavras_remover : list str :=
  map py [ "curriculo"; "curriculum"; "cv"; "resume"; "vitae" ].

(** The name read off the file names: [None] when they are empty or leave two
    code points or fewer. *)
Definition nome_do_arquivo (nome_arquivo : str) : option str :=
  match nome_arquivo with
  | [] => None
  | _ =>
    let nome_limpo := lower nome_arquivo in
    let nome_limpo := fold_left remover extensoes_comuns nome_limpo in
    let nome_limpo := fold_left remover palavras_remover nome_limpo in
    let nome_limpo := strip (pontuacao_para_espaco nome_limpo) in
    if (2 <? length nome_limpo)%nat then Some (title nome_limpo) else None
  end.

(** The name read off the address, when it has an at sign. *)
Definition nome_do_email (email : str) : option str :=
  if existsb (N.eqb 64) email
  then
    let nome_email := antes_da_arroba email in
    let nome_email := strip (pontuacao_para_espaco nome_email) in
    if (2 <? length nome_email)%nat then Some (title nome_email) else None
  else None.

Definition _extrair_nome_candidato (resultado : Resultado) : str :=
  let email := res_email_remetente resultado in
  let nome_arquivo := res_nome_arquivo resultado in
  match nome_do_arquivo nome_arquivo with
  | Some nome => nome
  | None =>
    match nome_do_email email with
    | Some nome => nome
    | None => email
    end
  end.

(** [d[k] = v] on a dict kept in insertion order. *)
Fixpoint atribuir (k : str) (v : Detalhes) (d : list (str * Detalhes)) : list (str * Detalhes) :=
  match d with
  | [] => [(k, v)]
  | (k', v') :: r => if str_eqb k k' then (k', v) :: r else (k', v') :: atribuir k v r
  end.

(** The [detalhes] dict stored as [detalhes_curriculo]. *)
Record DetalhesCurriculo := {
  dc_anexos_analisados : list ResultadoAnexo;
  dc_palavras_encontradas : list str;
  dc_pontuacao_detalhada : list (str * Detalhes)
}.

Definition preparar_detalhes (resultado : Resultado) : DetalhesCurriculo :=
  fold_left
    (fun detalhes anexo =>
       {| dc_anexos_analisados := dc_anexos_analisados detalhes;
          dc_palavras_encontradas :=
            dc_palavras_encontradas detalhes ++ ra_palavras_encontradas anexo;
          dc_pontuacao_detalhada :=
            match ra_detalhes anexo with
            | Some d => atribuir (ra_nome_arquivo anexo) d (dc_pontuacao_detalhada detalhes)
            | None => dc_pontuacao_detalhada detalhes
            end |})
    (res_anexos_analisados resultado)
    {| dc_anexos_analisados := res_anexos_analisados resultado;
       dc_palavras_encontradas := [];
       dc_pontuacao_detalhada := [] |}.

(** A row of table [aprovados_por_vaga]; [observacoes] is never written. *)
Record LinhaAprovado := {
  aprovado_id : Z;
  ap_vaga_id : Z;
  ap_nome_vaga : str;
  ap_email_remetente : str;
  ap_nome_candidato : str;
  ap_assunto_email : str;
  ap_nome_arquivo : str;
  ap_pontuacao : Q;
  ap_data_aprovacao : str;
  ap_data_email : str;
  ap_detalhes_curriculo : DetalhesCurriculo
}.

Record TabelaAprovados := {
  aprovados : list LinhaAprovado;
  seq_aprovados : Z
}.

Definition aprovados_vazia : TabelaAprovados := {| aprovados := []; seq_aprovados := 0 |}.

(** [WHERE email_remetente = ? AND vaga_id = ? AND nome_arquivo = ?] *)
Definition mesmo_aprovado (email : str) (vaga_id : Z) (nome_arquivo : str)
           (linha : LinhaAprovado) : bool :=
  str_eqb (ap_email_remetente linha) email
  && (ap_vaga_id linha =? vaga_id)
  && str_eqb (ap_nome_arquivo linha) nome_arquivo.

Definition salvar_curriculo_aprovado (erro_sqlite : bool) (current_timestamp : str)
           (tb : TabelaAprovados) (resultado : Resultado) (nome_vaga : str) (vaga_id : Z)
  : TabelaAprovados * option Z :=
  if erro_sqlite then (tb, None)
  else
    match find (mesmo_aprovado (res_email_remetente resultado) vaga_id
                               (res_nome_arquivo resultado))
               (aprovados tb) with
    | Some existente => (tb, Some (aprovado_id existente))
    | None =>
      let nome_candidato := _extrair_nome_candidato resultado in
      let detalhes := preparar_detalhes resultado in
      let aprovado_id := seq_aprovados tb + 1 in
      ({| aprovados :=
            aprovados tb
            ++ [ {| aprovado_id := aprovado_id;
                    ap_vaga_id := vaga_id;
                    ap_nome_vaga := nome_vaga;
                    ap_email_remetente := res_email_remetente resultado;
                    ap_nome_candidato := nome_candidato;
                    ap_assunto_email := res_assunto resultado;
                    ap_nome_arquivo := res_nome_arquivo resultado;
                    ap_pontuacao := res_pontuacao resultado;
                    ap_data_aprovacao := current_timestamp;
                    ap_data_email := res_data_email resultado;
                    ap_detalhes_curriculo := detalhes |} ];
          seq_aprovados := aprovado_id |},
       Some aprovado_id)
    end.

(** The states of table [aprovados_por_vaga] written only by
    [salvar_curriculo_aprovado]. *)
Inductive aprovados_alcancavel : TabelaAprovados -> Prop :=
| aprovados_alcancavel_vazia : aprovados_alcancavel aprovados_vazia
| aprovados_alcancavel_salvar erro_sqlite current_timestamp tb resultado nome_vaga vaga_id :
    aprovados_alcancavel tb ->
    aprovados_alcancavel
      (fst (salvar_curriculo_aprovado erro_sqlite current_timestamp tb resultado
                                      nome_vaga vaga_id)).

End DatabaseManagerAprovados.

Import DatabaseManagerAprovados.

(* ------------------------------------------------------------------ *)
(** ** email_client.py: search and download *)

Module EmailClientBusca.

Local Open Scope string_scope.
Local Open Scope list_scope.

(** The criteria [buscar_emails_com_anexos] passes to [imap_server.search]. *)
Inductive Criterio :=
| HAS_ATTACHMENT
| ALL
| SINCE_HAS_ATTACHMENT (data_str : str)
| SINCE (data_str : str).

(** What a search gives: it raised, [message_numbers[0]] is empty, or
    [message_numbers[0].split()]. *)
Inductive ResultadoSearch :=
| SearchErro
| SearchVazio
| SearchNumeros (message_list : list str).

(** What fetching [(BODYSTRUCTURE)] gives: it raised, [header_data[0]] has one
    item or none, or [str(header_data[0][1])]. *)
Inductive Estrutura :=
| EstruturaErro
| EstruturaCurta
| EstruturaTexto (texto : str).

(** A part of a message as [walk()] gives it; [nome_decodificado] is the
    decoded header of the file name, [None] when decoding raises. *)
Record Parte := {
  content_disposition : option str;
  filename : option str;
  nome_decodificado : option str;
  payload : option (list N)
}.

Record Mensagem := {
  From : str;
  Subject : str;
  Date : str;
  walk : list Parte
}.

(** The mail server and the machine as the client sees them. *)
Record Servidor := {
  (** [self.imap_server] is set *)
  imap_server : bool;
  (** [noop()] returns *)
  noop : bool;
  search : Criterio -> ResultadoSearch;
  fetch_bodystructure : str -> Estrutura;
  (** fetching [(RFC822)] and parsing it; [None] when one of them raises *)
  fetch_rfc822 : str -> option Mensagem;
  (** the day [dias_atras] days ago, as [%d-%b-%Y] *)
  data_inicio : Z -> str;
  (** the clock, as [%Y%m%d_%H%M%S] *)
  timestamp : str;
  (** [os.path.join(tempfile.gettempdir(), _)] *)
  juntar_tempdir : str -> str;
  (** writing the temporary file succeeds *)
  gravar : str -> list N -> bool
}.

(** A downloaded attachment. *)
Record AnexoBaixado := {
  ab_nome_original : str;
  ab_caminho_temp : str;
  ab_tamanho : nat;
  ab_tipo : str;
  ab_conteudo_bytes : list N
}.

Record EmailBaixado := {
  eb_numero : str;
  eb_remetente : str;
  eb_assunto : str;
  eb_data : str;
  eb_anexos : list AnexoBaixado
}.

(** The keys of an attachment the analyzer reads. *)
Definition anexo_para_analise (a : AnexoBaixado) : Anexo :=
  {| nome_original := ab_nome_original a;
     caminho_temp := ab_caminho_temp a;
     tipo := ab_tipo a |}.

(** [c.isalnum()] on Latin-1. *)
Definition isalnum_cp (c : N) : bool :=
  (((48 <=? c) && (c <=? 57)) || ((65 <=? c) && (c <=? 90)) || ((97 <=? c) && (c <=? 122))
   || (c =? 170) || (c =? 178) || (c =? 179) || (c =? 181) || (c =? 185) || (c =? 186)
   || ((188 <=? c) && (c <=? 190))
   || ((192 <=? c) && (c <=? 214)) || ((216 <=? c) && (c <=? 246))
   || ((248 <=? c) && (c <=? 255)))%N.

Definition nome_seguro (filename : str) : str :=
  filter (fun c => isalnum_cp c
                   || (c =? 32)%N || (c =? 45)%N || (c =? 95)%N || (c =? 46)%N)
         filename.

(** The name of a part that is an attachment with a file name, decoded when
    that succeeds. *)
Definition nome_do_anexo (part : Parte) : option str :=
  match content_disposition part with
  | Some d =>
    if str_eqb d (py "attachment")
    then
      match filename part with
      | Some [] => None
      | Some nome =>
        match nome_decodificado part with
        | Some decoded_filename => Some decoded_filename
        | None => Some nome
        end
      | None => None
      end
    else None
  | None => None
  end.

(** [_extrair_anexos]; a temporary file that cannot be written ends the loop
    with the attachments gathered so far. *)
Fixpoint _extrair_anexos (srv : Servidor) (partes : list Parte) : list AnexoBaixado :=
  match partes with
  | [] => []
  | part :: resto =>
    match nome_do_anexo part with
    | Some nome =>
      if extensao_aceita nome
      then
        match payload part with
        | Some (b :: bs) =>
          let conteudo := b :: bs in
          let nome_temp := py "curriculo_" ++ timestamp srv ++ py "_" ++ nome_seguro nome in
          let caminho_temp := juntar_tempdir srv nome_temp in
          if gravar srv caminho_temp conteudo
          then {| ab_nome_original := nome;
                  ab_caminho_temp := caminho_temp;
                  ab_tamanho := length conteudo;
                  ab_tipo := _detectar_tipo_arquivo nome;
                  ab_conteudo_bytes := conteudo |} :: _extrair_anexos srv resto
          else []
        | _ => _extrair_anexos srv resto
        end
      else _extrair_anexos srv resto
    | None => _extrair_anexos srv resto
    end
  end.

(** The structural pre-filter on the lower-cased body structure. *)
Definition tem_anexos_provavel (bodystructure : str) : bool :=
  contem bodystructure (py "attachment")
  && (contem bodystructure (py "pdf")
      || contem bodystructure (py "msword")
      || contem bodystructure (py "document")
      || contem bodystructure (py "text/plain")).

Definition passa_pre_filtro (srv : Servidor) (num : str) : bool :=
  match fetch_bodystructure srv num with
  | EstruturaTexto texto => tem_anexos_provavel (lower texto)
  | _ => false
  end.

(** The loop that sets [tem_anexos]. *)
Definition tem_anexos (partes : list Parte) : bool :=
  existsb (fun part =>
             match nome_do_anexo part with
             | Some nome => extensao_aceita nome
             | None => false
             end)
          partes.

(** The body of the loop over the messages: the email it appends, if any. *)
Definition processar_email (srv : Servidor) (num : str) : option EmailBaixado :=
  if passa_pre_filtro srv num
  then
    match fetch_rfc822 srv num with
    | Some email_message =>
      if tem_anexos (walk email_message)
      then
        match _extrair_anexos srv (walk email_message) with
        | [] => None
        | anexos =>
          Some {| eb_numero := num;
                  eb_remetente := From email_message;
                  eb_assunto := Subject email_message;
                  eb_data := Date email_message;
                  eb_anexos := anexos |}
        end
      else None
    | None => None
    end
  else None.

(** The searches with their fallbacks; [SearchErro] when the last one
    raises too. *)
Definition buscar_numeros (srv : Servidor) (todos_emails : bool) (dias_atras : Z)
  : ResultadoSearch :=
  if todos_emails
  then
    match search srv HAS_ATTACHMENT with
    | SearchErro => search srv ALL
    | SearchVazio =>
      match search srv ALL with
      | SearchErro => search srv ALL
      | message_numbers => message_numbers
      end
    | message_numbers => message_numbers
    end
  else
    let data_str := data_inicio srv dias_atras in
    match search srv (SINCE_HAS_ATTACHMENT data_str) with
    | SearchErro => search srv ALL
    | SearchVazio =>
      match search srv (SINCE data_str) with
      | SearchErro => search srv ALL
      | message_numbers => message_numbers
      end
    | message_numbers => message_numbers
    end.

Definition batch_size : nat := 100.

(** [range(0, total_emails, batch_size)] *)
Definition inicios_dos_lotes (total_emails : nat) : list nat :=
  map (fun k => k * batch_size)%nat (seq 0 ((total_emails + (batch_size - 1)) / batch_size)).

(** [message_list[batch_start:batch_end]] *)
Definition lote (message_list : list str) (total_emails batch_start : nat) : list str :=
  let batch_end := Nat.min (batch_start + batch_size) total_emails in
  firstn (batch_end - batch_start) (skipn batch_start message_list).

(** [message_list[-1000:]] when all emails are searched and there are more
    than 1000. *)
Definition limitar (todos_emails : bool) (message_list : list str) : list str :=
  if todos_emails && (1000 <? length message_list)%nat
  then skipn (length message_list - 1000) message_list
  else message_list.

(** [buscar_emails_com_anexos]; [None] is the exception raised when the
    client is not connected. *)
Definition buscar_emails_com_anexos (srv : Servidor) (todos_emails : bool) (dias_atras : Z)
  : option (list EmailBaixado) :=
  if negb (imap_server srv) then None
  else if negb (noop srv) then Some []
  else
    match buscar_numeros srv todos_emails dias_atras with
    | SearchErro => Some []
    | SearchVazio => Some []
    | SearchNumeros message_list =>
      let message_list := limitar todos_emails message_list in
      let total_emails := length message_list in
      let message_list := rev message_list in
      Some (flat_map
              (fun batch_start =>
                 flat_map
                   (fun num =>
                      match processar_email srv num with
                      | Some email_data => [email_data]
                      | None => []
                      end)
                   (lote message_list total_emails batch_start))
              (inicios_dos_lotes total_emails))
    end.

End EmailClientBusca.

Import EmailClientBusca.

(* ------------------------------------------------------------------ *)
(** ** Sample mail server *)

Module ExemplosBusca.

Local Open Scope string_scope.
Local Open Scope list_scope.

(** The server [srv] answering [f] to the full fetches. *)
Definition com_fetch_rfc822 (srv : Servidor) (f : str -> option Mensagem) : Servidor :=
  {| imap_server := imap_server srv;
     noop := noop srv;
     search := search srv;
     fetch_bodystructure := fetch_bodystructure srv;
     fetch_rfc822 := f;
     data_inicio := data_inicio srv;
     timestamp := timestamp srv;
     juntar_tempdir := juntar_tempdir srv;
     gravar := gravar srv |}.

Definition parte_cv : Parte :=
  {| content_disposition := Some (py "attachment");
     filename := Some (py "CV.PDF");
     nome_decodificado := Some (py "CV.PDF");
     payload := Some [37; 80; 68; 70]%N |}.

Definition mensagem_cv : Mensagem :=
  {| From := py "candidata@example.org";
     Subject := py "Curriculo";
     Date := py "Wed, 04 Nov 2026 09:00:00 -0300";
     walk := [ {| content_disposition := None; filename := None;
                  nome_decodificado := None; payload := None |};
               parte_cv ] |}.

(** A mailbox with three messages; the server knows no attachment search,
    message 2 has a PDF attached and message 3 has no attachment part. *)
Definition servidor : Servidor :=
  {| imap_server := true;
     noop := true;
     search := fun criterio =>
                 match criterio with
                 | ALL => SearchNumeros [py "1"; py "2"; py "3"]
                 | _ => SearchErro
                 end;
     fetch_bodystructure :=
       fun num =>
         if str_eqb num (py "2")
         then EstruturaTexto (py "(application PDF (name cv.pdf) attachment)")
         else if str_eqb num (py "3") then EstruturaTexto (py "(text plain)")
         else EstruturaCurta;
     fetch_rfc822 := fun num => if str_eqb num (py "2") then Some mensagem_cv else None;
     data_inicio := fun _ => py "28-Oct-2026";
     timestamp := py "20261104_100000";
     juntar_tempdir := fun nome => py "/tmp/" ++ nome;
     gravar := fun _ _ => true |}.

End ExemplosBusca.

Import ExemplosBusca.

Import Exemplos.

(* ------------------------------------------------------------------ *)
(** ** Basic facts on strings, lists and numbers *)

Section Basicos.

Lemma str_eqb_eq (a b : str) : str_eqb a b = true <-> a = b.
Proof.
  revert b. induction a as [|x a IH]; destruct b as [|y b]; simpl;
    try (split; [discriminate | discriminate]); try tauto.
  rewrite andb_true_iff, N.eqb_eq, IH. split.
  - intros [-> ->]. reflexivity.
  - intros E. injection E as -> ->. auto.
Qed.

Lemma str_eqb_refl (a : str) : str_eqb a a = true.
Proof. apply str_eqb_eq. reflexivity. Qed.

Lemma pertence_In (x : str) (l : list str) : pertence x l = true <-> In x l.
Proof.
  unfold pertence. rewrite existsb_exists. split.
  - intros (y & Hy & E). apply str_eqb_eq in E. subst. exact Hy.
  - intros H. exists x. split; [exact H | apply str_eqb_refl].
Qed.

Lemma pertence_false (x : str) (l : list str) : pertence x l = false <-> ~ In x l.
Proof.
  rewrite <- pertence_In. destruct (pertence x l); split; intros H;
    try discriminate; try reflexivity; try (intros E; discriminate).
  exfalso. apply H. reflexivity.
Qed.

Lemma lista_eqb_eq (l1 l2 : list str) : lista_eqb l1 l2 = true <-> l1 = l2.
Proof.
  revert l2. induction l1 as [|x l1 IH]; destruct l2 as [|y l2]; simpl;
    try (split; [discriminate | discriminate]); try tauto.
  rewrite andb_true_iff, str_eqb_eq, IH. split.
  - intros [-> ->]. reflexivity.
  - intros E. injection E as -> ->. auto.
Qed.

Lemma Qlt_bool_true (a b : Q) : Qlt_bool a b = true <-> (a < b)%Q.
Proof.
  unfold Qlt_bool. rewrite negb_true_iff. split.
  - intros H. apply Qnot_le_lt. intros L. apply Qle_bool_iff in L. congruence.
  - intros H. destruct (Qle_bool b a) eqn:E; [|reflexivity].
    apply Qle_bool_iff in E. exfalso. apply (Qlt_not_le _ _ H E).
Qed.

Lemma Qlt_bool_false (a b : Q) : Qlt_bool a b = false <-> (b <= a)%Q.
Proof.
  unfold Qlt_bool. rewrite negb_false_iff. apply Qle_bool_iff.
Qed.

Lemma Qge_bool_true (a b : Q) : Qge_bool a b = true <-> (b <= a)%Q.
Proof. unfold Qge_bool. apply Qle_bool_iff. Qed.

Lemma Qge_bool_false (a b : Q) : Qge_bool a b = false <-> (a < b)%Q.
Proof.
  unfold Qge_bool. split.
  - intros H. apply Qnot_le_lt. intros L. apply Qle_bool_iff in L. congruence.
  - intros H. destruct (Qle_bool b a) eqn:E; [|reflexivity].
    apply Qle_bool_iff in E. exfalso. apply (Qlt_not_le _ _ H E).
Qed.

Lemma py_min_Qmin (a b : Q) : (py_min a b == Qmin b a)%Q.
Proof.
  unfold py_min. destruct (Qlt_bool b a) eqn:E.
  - apply Qlt_bool_true in E. symmetry. apply Q.min_l. apply Qlt_le_weak. exact E.
  - apply Qlt_bool_false in E. symmetry. apply Q.min_r. exact E.
Qed.

Lemma py_min_le_r (a b : Q) : (py_min a b <= b)%Q.
Proof.
  unfold py_min. destruct (Qlt_bool b a) eqn:E.
  - apply Qle_refl.
  - apply Qlt_bool_false in E. exact E.
Qed.

Lemma py_min_nonneg (a b : Q) : (0 <= a -> 0 <= b -> 0 <= py_min a b)%Q.
Proof. intros Ha Hb. unfold py_min. destruct (Qlt_bool b a); assumption. Qed.

Lemma Qnat_nonneg (n : nat) : (0 <= Qnat n)%Q.
Proof.
  unfold Qnat. change 0%Q with (inject_Z 0). rewrite <- Zle_Qle. lia.
Qed.

Lemma Qnat_pos (n : nat) : (0 < n)%nat -> (0 < Qnat n)%Q.
Proof.
  intros H. unfold Qnat. change 0%Q with (inject_Z 0). rewrite <- Zlt_Qlt. lia.
Qed.

(** The left-to-right accumulation is the sum, whatever it starts from. *)
Lemma fold_left_Qplus_acc (l : list Q) (a : Q) :
  (fold_left Qplus l a == a + fold_left Qplus l 0)%Q.
Proof.
  revert a. induction l as [|x l IH]; intros a; simpl.
  - lra.
  - rewrite (IH (a + x)%Q), (IH (0 + x)%Q). lra.
Qed.

Lemma soma_cons (x : Q) (l : list Q) : (soma (x :: l) == x + soma l)%Q.
Proof.
  unfold soma. simpl. rewrite fold_left_Qplus_acc. lra.
Qed.

Lemma soma_zeros (l : list Q) : (forall x, In x l -> (x == 0)%Q) -> (soma l == 0)%Q.
Proof.
  induction l as [|x l IH]; intros H.
  - reflexivity.
  - rewrite soma_cons, IH, (H x).
    + lra.
    + left. reflexivity.
    + intros y Hy. apply H. right. exact Hy.
Qed.

End Basicos.

(* ------------------------------------------------------------------ *)
(** ** Message-level score and status *)

Section Mensagem.

Variable amb : Ambiente.



Lemma classificar_rejeitado (p : Q) : (p < 3 # 2)%Q -> classificar p = Rejeitado.
Proof.
  intros H. unfold classificar.
  assert (H3 : (p < 3)%Q) by lra.
  apply Qge_bool_false in H. apply Qge_bool_false in H3. rewrite H3, H. reflexivity.
Qed.

(** The analyzer only ever answers with one of the three score-based labels. *)
Lemma classificar_nunca_erro (p : Q) : classificar p <> Erro.
Proof.
  unfold classificar. destruct (Qge_bool p 3); [discriminate|].
  destruct (Qge_bool p (3 # 2)); discriminate.
Qed.

(** The keyword list the attachments are analysed against. *)
Lemma analisar_curriculo_anexos (email_data : EmailData) (palavras_chave_vaga : option (list str)) :
  exists palavras_chave,
    res_anexos_analisados (analisar_curriculo amb email_data palavras_chave_vaga)
    = map (fun anexo => _analisar_arquivo amb anexo (Some palavras_chave)) (anexos email_data).
Proof.
  unfold analisar_curriculo. simpl. eexists. reflexivity.
Qed.


End Mensagem.


(* ------------------------------------------------------------------ *)
(** ** Category scorer *)

Section ScoreCategoria.

Variables (texto_normalizado : str) (palavras_expandidas : list str).

Lemma coletar_In (keywords acc : list str) (k : str) :
  In k (fold_left (passo_encontradas texto_normalizado palavras_expandidas) keywords acc)
  <-> In k acc
      \/ (In k keywords /\ encontrou texto_normalizado palavras_expandidas k = true).
Proof.
  revert acc. induction keywords as [|x keywords IH]; intros acc; simpl.
  - tauto.
  - rewrite IH. unfold passo_encontradas.
    destruct (encontrou texto_normalizado palavras_expandidas x) eqn:Ex; simpl.
    + destruct (pertence x acc) eqn:Px; simpl.
      * apply pertence_In in Px. split.
        -- intros [H | [H1 H2]]; [left; exact H | right; split; [right; exact H1 | exact H2]].
        -- intros [H | [[-> | H1] H2]];
             [left; exact H | left; exact Px | right; split; assumption].
      * rewrite in_app_iff. simpl. split.
        -- intros [[H | [-> | []]] | [H1 H2]];
             [left; exact H | right; split; [left; reflexivity | exact Ex]
              | right; split; [right; exact H1 | exact H2]].
        -- intros [H | [[-> | H1] H2]];
             [left; left; exact H | left; right; left; reflexivity
              | right; split; assumption].
    + split.
      * intros [H | [H1 H2]]; [left; exact H | right; split; [right; exact H1 | exact H2]].
      * intros [H | [[-> | H1] H2]];
          [left; exact H | congruence | right; split; assumption].
Qed.

Lemma coletar_NoDup (keywords acc : list str) :
  NoDup acc ->
  NoDup (fold_left (passo_encontradas texto_normalizado palavras_expandidas) keywords acc).
Proof.
  revert acc. induction keywords as [|x keywords IH]; intros acc Hacc; simpl.
  - exact Hacc.
  - apply IH. unfold passo_encontradas.
    destruct (encontrou texto_normalizado palavras_expandidas x); simpl; [|exact Hacc].
    destruct (pertence x acc) eqn:Px; simpl; [exact Hacc|].
    apply pertence_false in Px.
    apply NoDup_app; [exact Hacc | constructor; [intros [] | constructor] |].
    intros y Hy [<- | []]. exact (Px Hy).
Qed.

End ScoreCategoria.

Section ScoreCategoriaFormula.

Local Open Scope Q_scope.

Lemma coletar_encontradas_In (texto_normalizado : str) (palavras_expandidas keywords : list str)
      (k : str) :
  In k (coletar_encontradas texto_normalizado palavras_expandidas keywords)
  <-> In k keywords /\ encontrou texto_normalizado palavras_expandidas k = true.
Proof.
  unfold coletar_encontradas. rewrite coletar_In. simpl. tauto.
Qed.

Lemma coletar_encontradas_NoDup (texto_normalizado : str)
      (palavras_expandidas keywords : list str) :
  NoDup (coletar_encontradas texto_normalizado palavras_expandidas keywords).
Proof.
  unfold coletar_encontradas. apply coletar_NoDup. constructor.
Qed.

(** C7: the category scorer returns min(10, 10 × matched / total), where
    matched counts the keywords found (each once) and total is the length of
    the keyword list; it returns 0 on the empty list, and its score always
    lies between 0 and 10. *)
Theorem _calcular_score_categoria_formula (texto : str) (keywords : list str) :
  let s := _calcular_score_categoria texto keywords in
  let matchedCount := Qnat (length (sc_palavras_encontradas s)) in
  let totalKeywords := Qnat (length keywords) in
  sc_pontuacao s == Qmin 10 (10 * (matchedCount / totalKeywords))
  /\ sc_pontuacao (_calcular_score_categoria texto []) == 0
  /\ 0 <= sc_pontuacao s /\ sc_pontuacao s <= 10
  /\ NoDup (sc_palavras_encontradas s)
  /\ (forall k, In k (sc_palavras_encontradas s)
                <-> In k keywords
                    /\ encontrou (_normalizar_texto texto)
                                 (_expandir_palavras_chave keywords) k = true).
Proof.
  intros s matchedCount totalKeywords.
  assert (Hprop : sc_pontuacao s == py_min (matchedCount / totalKeywords * 10) 10).
  { unfold s, _calcular_score_categoria, matchedCount, totalKeywords. simpl.
    destruct keywords as [|k0 ks]; simpl Nat.ltb; cbv iota.
    - reflexivity.
    - reflexivity. }
  assert (Hnn : 0 <= matchedCount / totalKeywords * 10).
  { apply Qmult_le_0_compat; [|lra].
    unfold Qdiv. apply Qmult_le_0_compat; [apply Qnat_nonneg|].
    apply Qinv_le_0_compat. apply Qnat_nonneg. }
  split.
  { rewrite Hprop, py_min_Qmin.
    assert (E : 10 * (matchedCount / totalKeywords) == matchedCount / totalKeywords * 10)
      by ring.
    rewrite E. reflexivity. }
  split; [reflexivity|].
  split.
  { rewrite Hprop. apply py_min_nonneg; [exact Hnn | lra]. }
  split.
  { rewrite Hprop. apply py_min_le_r. }
  split.
  { apply coletar_encontradas_NoDup. }
  intros k. apply coletar_encontradas_In.
Qed.

End ScoreCategoriaFormula.

(* ------------------------------------------------------------------ *)
(** ** Substrings and normalisation *)

Section Substrings.

Lemma startswith_app (a s : str) : startswith (a ++ s) a = true.
Proof.
  induction a as [|x a IH]; simpl.
  - destruct s; reflexivity.
  - rewrite N.eqb_refl. exact IH.
Qed.

Lemma startswith_split (b a : str) : startswith b a = true -> exists s, b = a ++ s.
Proof.
  revert b. induction a as [|x a IH]; intros b H.
  - exists b. reflexivity.
  - destruct b as [|y b]; [discriminate|]. simpl in H.
    apply andb_true_iff in H. destruct H as [E H]. apply N.eqb_eq in E. subst y.
    destruct (IH b H) as [s ->]. exists s. reflexivity.
Qed.

Lemma contem_startswith (b a : str) : startswith b a = true -> contem b a = true.
Proof.
  intros H. destruct b as [|y b]; cbn [contem]; rewrite H; reflexivity.
Qed.

Lemma contem_app (p a s : str) : contem (p ++ a ++ s) a = true.
Proof.
  induction p as [|x p IH].
  - cbn [app]. apply contem_startswith. apply startswith_app.
  - cbn [app contem]. rewrite IH. apply orb_true_r.
Qed.

Lemma contem_split (b a : str) : contem b a = true -> exists p s, b = p ++ a ++ s.
Proof.
  induction b as [|y b IH]; cbn [contem]; intros H.
  - rewrite orb_false_r in H. destruct (startswith_split _ _ H) as [s E].
    exists [], s. exact E.
  - apply orb_true_iff in H. destruct H as [H | H].
    + destruct (startswith_split _ _ H) as [s E]. exists [], s. exact E.
    + destruct (IH H) as (p & s & ->). exists (y :: p), s. reflexivity.
Qed.

Lemma _normalizar_texto_eq (texto : str) :
  _normalizar_texto texto
  = lower (filter (fun c => negb (categoria_Mn c)) (nfd texto)).
Proof. destruct texto; reflexivity. Qed.

Lemma _normalizar_texto_app (a b : str) :
  _normalizar_texto (a ++ b) = _normalizar_texto a ++ _normalizar_texto b.
Proof.
  rewrite !_normalizar_texto_eq. unfold nfd, lower.
  rewrite flat_map_app, filter_app, map_app. reflexivity.
Qed.

(** Containment survives normalisation. *)
Lemma contem_normalizar (texto s : str) :
  contem texto s = true -> contem (_normalizar_texto texto) (_normalizar_texto s) = true.
Proof.
  intros H. destruct (contem_split _ _ H) as (p & q & ->).
  rewrite !_normalizar_texto_app. apply contem_app.
Qed.

End Substrings.

(* ------------------------------------------------------------------ *)
(** ** Keyword expansion and the abbreviation table *)

Section Abreviacoes.

Lemma abreviacoes_ok : forallb entrada_ok abreviacoes = true.
Proof. vm_compute. reflexivity. Qed.

Lemma abreviacoes_entrada (abrev : str) (termos : list str) :
  In (abrev, termos) abreviacoes ->
  _normalizar_texto abrev = abrev /\ obter abrev abreviacoes = Some termos.
Proof.
  intros H. pose proof abreviacoes_ok as Hok.
  rewrite forallb_forall in Hok. specialize (Hok _ H). unfold entrada_ok in Hok.
  apply andb_true_iff in Hok. destruct Hok as [H1 H2].
  apply str_eqb_eq in H1. split; [exact H1|].
  destruct (obter abrev abreviacoes) as [termos'|]; [|discriminate].
  apply lista_eqb_eq in H2. subst. reflexivity.
Qed.

Lemma remover_duplicatas_acc (l acc : list str) (x : str) :
  In x (fold_left passo_unicas l acc) <-> In x acc \/ In x l.
Proof.
  revert acc. induction l as [|y l IH]; intros acc; simpl.
  - tauto.
  - rewrite IH. unfold passo_unicas. destruct (pertence y acc) eqn:Py.
    + apply pertence_In in Py. split.
      * intros [H | H]; [left; exact H | right; right; exact H].
      * intros [H | [<- | H]]; [left; exact H | left; exact Py | right; exact H].
    + rewrite in_app_iff. simpl. tauto.
Qed.

Lemma remover_duplicatas_In (l : list str) (x : str) :
  In x (remover_duplicatas l) <-> In x l.
Proof.
  unfold remover_duplicatas. rewrite remover_duplicatas_acc. simpl. tauto.
Qed.

Lemma _expandir_palavras_chave_In (palavras_chave : list str) (x : str) :
  In x (_expandir_palavras_chave palavras_chave)
  <-> In x palavras_chave
      \/ exists palavra, In palavra palavras_chave /\ In x (expansao_da_palavra palavra).
Proof.
  unfold _expandir_palavras_chave.
  rewrite remover_duplicatas_In, in_app_iff, in_flat_map. tauto.
Qed.

(** The abbreviation is among the expansions of each of its full terms. *)
Lemma abreviacoes_do_termo_In (abrev : str) (termos : list str) (termo : str) :
  In (abrev, termos) abreviacoes -> In termo termos ->
  In abrev (abreviacoes_do_termo (_normalizar_texto termo)).
Proof.
  intros Hin Ht. unfold abreviacoes_do_termo. apply in_flat_map.
  exists (abrev, termos). split; [exact Hin|].
  assert (E : existsb (fun t => str_eqb (_normalizar_texto termo) (_normalizar_texto t))
                      termos = true).
  { apply existsb_exists. exists termo. split; [exact Ht | apply str_eqb_refl]. }
  rewrite E. left. reflexivity.
Qed.

Lemma busca_expandida_true (texto_normalizado keyword_norm : str)
      (palavras_expandidas : list str) (palavra : str) :
  In palavra palavras_expandidas ->
  contem texto_normalizado (_normalizar_texto palavra) = true ->
  relacao_direta keyword_norm (_normalizar_texto palavra) = true ->
  busca_expandida texto_normalizado keyword_norm palavras_expandidas = true.
Proof.
  intros Hin Hc Hr. induction palavras_expandidas as [|y l IH]; [destruct Hin|].
  simpl. destruct Hin as [-> | Hin].
  - rewrite Hc, Hr. reflexivity.
  - destruct (contem texto_normalizado (_normalizar_texto y));
      [destruct (relacao_direta keyword_norm (_normalizar_texto y))|];
      auto.
Qed.

Lemma encontrou_por_expansao (texto_normalizado : str) (palavras_expandidas : list str)
      (keyword palavra : str) :
  In palavra palavras_expandidas ->
  contem texto_normalizado (_normalizar_texto palavra) = true ->
  relacao_direta (_normalizar_texto keyword) (_normalizar_texto palavra) = true ->
  encontrou texto_normalizado palavras_expandidas keyword = true.
Proof.
  intros Hin Hc Hr. unfold encontrou.
  destruct (contem texto_normalizado (_normalizar_texto keyword)); [reflexivity|].
  eapply busca_expandida_true; eassumption.
Qed.

(** Abbreviation as keyword, one of its full terms in the text. *)
Lemma encontrou_abreviacao (texto_normalizado : str) (keywords : list str)
      (abrev : str) (termos : list str) (termo : str) :
  In (abrev, termos) abreviacoes -> In termo termos -> In abrev keywords ->
  contem texto_normalizado (_normalizar_texto termo) = true ->
  encontrou texto_normalizado (_expandir_palavras_chave keywords) abrev = true.
Proof.
  intros Hin Ht Hk Hc.
  destruct (abreviacoes_entrada _ _ Hin) as [Hn Ho].
  apply encontrou_por_expansao with (palavra := termo).
  - apply _expandir_palavras_chave_In. right. exists abrev. split; [exact Hk|].
    unfold expansao_da_palavra. rewrite Hn, Ho. apply in_or_app. left. exact Ht.
  - exact Hc.
  - unfold relacao_direta. rewrite Hn, Ho.
    assert (P : pertence (_normalizar_texto termo) (map _normalizar_texto termos) = true).
    { apply pertence_In. apply in_map. exact Ht. }
    rewrite P. reflexivity.
Qed.

(** Full term as keyword, its abbreviation in the text. *)
Lemma encontrou_termo_completo (texto_normalizado : str) (keywords : list str)
      (abrev : str) (termos : list str) (termo : str) :
  In (abrev, termos) abreviacoes -> In termo termos -> In termo keywords ->
  contem texto_normalizado (_normalizar_texto abrev) = true ->
  encontrou texto_normalizado (_expandir_palavras_chave keywords) termo = true.
Proof.
  intros Hin Ht Hk Hc.
  destruct (abreviacoes_entrada _ _ Hin) as [Hn Ho].
  apply encontrou_por_expansao with (palavra := abrev).
  - apply _expandir_palavras_chave_In. right. exists termo. split; [exact Hk|].
    unfold expansao_da_palavra. apply in_or_app. right.
    eapply abreviacoes_do_termo_In; eassumption.
  - exact Hc.
  - unfold relacao_direta. rewrite Hn, Ho.
    assert (P : pertence (_normalizar_texto termo) (map _normalizar_texto termos) = true).
    { apply pertence_In. apply in_map. exact Ht. }
    rewrite P. apply orb_true_r.
Qed.

Lemma entrada_ti :
  In (py "ti",
      map py [ "tecnologia da informação"; "tecnologia da informacao"; "informatica";
               "informática" ]%string)
     abreviacoes.
Proof. right. right. left. reflexivity. Qed.

End Abreviacoes.

Section Bidirecional.

Local Open Scope string_scope.

(** C9: abbreviation matching in the category scorer works both ways.  The
    keyword "ti" is matched by a text containing "tecnologia da informação",
    and the keyword "tecnologia da informação" by a text containing "ti"; and
    for every entry of the abbreviation table and every full term of it, a
    keyword equal to the abbreviation is matched when the normalised text
    contains the (normalised) full term, and a keyword equal to the full term
    is matched when the normalised text contains the abbreviation. *)
Theorem abreviacoes_bidirecionais :
  (forall texto keywords,
      In (py "ti") keywords ->
      contem texto (py "tecnologia da informação") = true ->
      In (py "ti") (sc_palavras_encontradas (_calcular_score_categoria texto keywords)))
  /\ (forall texto keywords,
      In (py "tecnologia da informação") keywords ->
      contem texto (py "ti") = true ->
      In (py "tecnologia da informação")
         (sc_palavras_encontradas (_calcular_score_categoria texto keywords)))
  /\ (forall texto keywords abrev termos termo,
      In (abrev, termos) abreviacoes -> In termo termos ->
      (In abrev keywords ->
       contem (_normalizar_texto texto) (_normalizar_texto termo) = true ->
       In abrev (sc_palavras_encontradas (_calcular_score_categoria texto keywords)))
      /\ (In termo keywords ->
          contem (_normalizar_texto texto) abrev = true ->
          In termo (sc_palavras_encontradas (_calcular_score_categoria texto keywords)))).
Proof.
  assert (G : forall texto keywords abrev termos termo,
      In (abrev, termos) abreviacoes -> In termo termos ->
      (In abrev keywords ->
       contem (_normalizar_texto texto) (_normalizar_texto termo) = true ->
       In abrev (sc_palavras_encontradas (_calcular_score_categoria texto keywords)))
      /\ (In termo keywords ->
          contem (_normalizar_texto texto) abrev = true ->
          In termo (sc_palavras_encontradas (_calcular_score_categoria texto keywords)))).
  { intros texto keywords abrev termos termo Hin Ht. split; intros Hk Hc.
    - apply coletar_encontradas_In. split; [exact Hk|].
      eapply encontrou_abreviacao; eassumption.
    - apply coletar_encontradas_In. split; [exact Hk|].
      eapply encontrou_termo_completo; try eassumption.
      destruct (abreviacoes_entrada _ _ Hin) as [-> _]. exact Hc. }
  split; [|split; [|exact G]].
  - intros texto keywords Hk Hc.
    apply (proj1 (G texto keywords _ _ (py "tecnologia da informação") entrada_ti
                    (or_introl eq_refl)) Hk).
    apply contem_normalizar. exact Hc.
  - intros texto keywords Hk Hc.
    apply (proj2 (G texto keywords _ _ (py "tecnologia da informação") entrada_ti
                    (or_introl eq_refl)) Hk).
    apply (contem_normalizar texto (py "ti")). exact Hc.
Qed.

End Bidirecional.

Lemma abreviacoes_bidirecionais_witness :
  In (py "ti")
     (sc_palavras_encontradas
        (_calcular_score_categoria (py "atuo com tecnologia da informação") [py "ti"]))
  /\ In (py "tecnologia da informação")
        (sc_palavras_encontradas
           (_calcular_score_categoria (py "suporte de ti") [py "tecnologia da informação"])).
Proof.
  split.
  - apply (proj1 abreviacoes_bidirecionais).
    + left. reflexivity.
    + vm_compute. reflexivity.
  - apply (proj1 (proj2 abreviacoes_bidirecionais)).
    + left. reflexivity.
    + vm_compute. reflexivity.
Defined.

(* ------------------------------------------------------------------ *)
(** ** Lower-casing and normalisation *)

Section MinusculasNormalizacao.

Local Open Scope N_scope.

Lemma normal_de_minuscula_latin1 :
  forallb normal_de_minuscula_ok (map N.of_nat (seq 0 256)) = true.
Proof. vm_compute. reflexivity. Qed.

Lemma _normalizar_texto_lower_cp (c : N) :
  _normalizar_texto [lower_cp c] = _normalizar_texto [c].
Proof.
  destruct (N.ltb_spec c 256) as [Hlt | Hge].
  - pose proof normal_de_minuscula_latin1 as H. rewrite forallb_forall in H.
    apply str_eqb_eq. apply (H c).
    rewrite <- (N2Nat.id c). apply in_map. apply in_seq. lia.
  - unfold lower_cp.
    assert (E1 : (c <=? 90) = false) by (apply N.leb_gt; lia).
    assert (E2 : (c <=? 222) = false) by (apply N.leb_gt; lia).
    rewrite E1, E2, !andb_false_r. reflexivity.
Qed.

Lemma _normalizar_texto_lower (texto : str) :
  _normalizar_texto (lower texto) = _normalizar_texto texto.
Proof.
  induction texto as [|c texto IH]; [reflexivity|].
  change (lower (c :: texto)) with ([lower_cp c] ++ lower texto).
  change (c :: texto) with ([c] ++ texto).
  rewrite !_normalizar_texto_app, IH, _normalizar_texto_lower_cp. reflexivity.
Qed.

(** The scorer is given the lower-cased text; it scores it as the text itself. *)
Lemma _calcular_score_categoria_lower (texto : str) (keywords : list str) :
  _calcular_score_categoria (lower texto) keywords = _calcular_score_categoria texto keywords.
Proof.
  unfold _calcular_score_categoria. rewrite _normalizar_texto_lower. reflexivity.
Qed.

End MinusculasNormalizacao.

(* ------------------------------------------------------------------ *)
(** ** Scoring of one text *)

Section AnalisarTexto.

Local Open Scope Q_scope.



Lemma lista_eqb_false (l1 l2 : list str) : l1 <> l2 -> lista_eqb l1 l2 = false.
Proof.
  intros H. destruct (lista_eqb l1 l2) eqn:E; [|reflexivity].
  apply lista_eqb_eq in E. contradiction.
Qed.

Variable amb : Ambiente.

(** Without a keyword list the built-in one is used. *)
Lemma _analisar_texto_sem_vaga (texto : str) :
  _analisar_texto amb texto None = _analisar_texto amb texto (Some palavras_chave_default).
Proof. reflexivity. Qed.

(** What the gate leaves of a text it rejects. *)
Lemma _analisar_texto_rejeitado (texto : str) (palavras_chave : list str) :
  palavras_chave <> palavras_chave_default ->
  _verificar_correspondencia_vaga (lower texto) palavras_chave < 2 ->
  _analisar_texto amb texto (Some palavras_chave)
  = {| an_pontuacao := 0;
       an_palavras_encontradas := [];
       an_detalhes :=
         Rejeicao (_verificar_correspondencia_vaga (lower texto) palavras_chave)
                  (py "Currículo não possui palavras-chave suficientes para a vaga específica")
                  (firstn 5 palavras_chave)
                  (_verificar_correspondencia_vaga (lower texto) palavras_chave);
       an_ai_analysis := None |}.
Proof.
  intros Hne Hlt. unfold _analisar_texto.
  rewrite (lista_eqb_false _ _ Hne). apply Qlt_bool_true in Hlt. rewrite Hlt.
  reflexivity.
Qed.

(** The score of a text that passes the gate of a job. *)
Lemma _analisar_texto_aprovado_no_filtro (texto : str) (palavras_chave : list str) :
  palavras_chave <> palavras_chave_default ->
  2 <= _verificar_correspondencia_vaga (lower texto) palavras_chave ->
  an_pontuacao (_analisar_texto amb texto (Some palavras_chave))
  = py_round1
      (match ai_score_de amb texto palavras_chave with
       | Some ai_score =>
         (sc_pontuacao (_calcular_score_categoria texto palavras_chave) * (7 # 10)
          + pontuacao_geral texto * (3 # 10)) * (7 # 10) + ai_score * (3 # 10)
       | None =>
         sc_pontuacao (_calcular_score_categoria texto palavras_chave) * (7 # 10)
         + pontuacao_geral texto * (3 # 10)
       end).
Proof.
  intros Hne Hge. unfold _analisar_texto, pontuacao_geral.
  rewrite (lista_eqb_false _ _ Hne). apply Qlt_bool_false in Hge. rewrite Hge.
  cbn [negb andb an_pontuacao]. rewrite !_calcular_score_categoria_lower.
  destruct (ai_score_de amb texto palavras_chave); reflexivity.
Qed.

(** The analysis of a text against the built-in list. *)
Lemma _analisar_texto_geral (texto : str) :
  an_pontuacao (_analisar_texto amb texto (Some palavras_chave_default))
  = py_round1
      (match ai_score_de amb texto palavras_chave_default with
       | Some ai_score => pontuacao_geral texto * (7 # 10) + ai_score * (3 # 10)
       | None => pontuacao_geral texto
       end)
  /\ an_detalhes (_analisar_texto amb texto (Some palavras_chave_default))
     = Categorias None
                  (_calcular_score_categoria texto formacao_keywords)
                  (_calcular_score_categoria texto experiencia_keywords)
                  (_calcular_score_categoria texto habilidades_keywords)
                  (ai_score_de amb texto palavras_chave_default).
Proof.
  unfold _analisar_texto, pontuacao_geral.
  assert (E : lista_eqb palavras_chave_default palavras_chave_default = true)
    by (apply lista_eqb_eq; reflexivity).
  rewrite E. cbn [negb andb an_pontuacao an_detalhes].
  rewrite !_calcular_score_categoria_lower.
  split; [|reflexivity].
  destruct (ai_score_de amb texto palavras_chave_default); reflexivity.
Qed.

End AnalisarTexto.

(* ------------------------------------------------------------------ *)
(** ** The gate, the job weighting and the general search *)

Section FiltroDaVaga.

Local Open Scope Q_scope.

Variable amb : Ambiente.

Lemma _analisar_arquivo_sem_texto (anexo : Anexo) (palavras_chave : option (list str)) :
  _extrair_texto amb (caminho_temp anexo) (tipo anexo) = [] ->
  _analisar_arquivo amb anexo palavras_chave
  = {| ra_nome_arquivo := nome_original anexo;
       ra_tipo_arquivo := None;
       ra_tamanho_texto := None;
       ra_texto_extraido := false;
       ra_pontuacao := 0;
       ra_palavras_encontradas := [];
       ra_detalhes := None;
       ra_erro := Some (py "Não foi possível extrair texto") |}.
Proof.
  intros H. unfold _analisar_arquivo. rewrite H. reflexivity.
Qed.

Lemma _analisar_arquivo_com_texto (anexo : Anexo) (palavras_chave : option (list str)) :
  _extrair_texto amb (caminho_temp anexo) (tipo anexo) <> [] ->
  let texto := _extrair_texto amb (caminho_temp anexo) (tipo anexo) in
  _analisar_arquivo amb anexo palavras_chave
  = {| ra_nome_arquivo := nome_original anexo;
       ra_tipo_arquivo := Some (tipo anexo);
       ra_tamanho_texto := Some (length texto);
       ra_texto_extraido := true;
       ra_pontuacao := an_pontuacao (_analisar_texto amb texto palavras_chave);
       ra_palavras_encontradas := an_palavras_encontradas (_analisar_texto amb texto palavras_chave);
       ra_detalhes := Some (an_detalhes (_analisar_texto amb texto palavras_chave));
       ra_erro := None |}.
Proof.
  intros H texto. unfold _analisar_arquivo. fold texto.
  destruct texto eqn:E; [contradiction | reflexivity].
Qed.

(** An email all of whose attachments score zero is rejected with score 0. *)
Lemma analisar_curriculo_zeros (email_data : EmailData) (palavras_chave_vaga : option (list str)) :
  (forall ra, In ra (res_anexos_analisados (analisar_curriculo amb email_data palavras_chave_vaga)) ->
              ra_pontuacao ra == 0) ->
  res_pontuacao (analisar_curriculo amb email_data palavras_chave_vaga) == 0
  /\ res_status (analisar_curriculo amb email_data palavras_chave_vaga) = Rejeitado.
Proof.
  intros H.
  assert (Hp : res_pontuacao (analisar_curriculo amb email_data palavras_chave_vaga) == 0).
  { unfold analisar_curriculo in *. cbn [res_pontuacao res_anexos_analisados] in *.
    set (rs := map _ (anexos email_data)) in *.
    destruct (0 <? length rs)%nat; [|reflexivity].
    rewrite soma_zeros.
    - unfold Qdiv. ring.
    - intros x Hx. apply in_map_iff in Hx. destruct Hx as (ra & <- & Hra).
      apply H. exact Hra. }
  split; [exact Hp|].
  change (res_status (analisar_curriculo amb email_data palavras_chave_vaga))
    with (classificar (res_pontuacao (analisar_curriculo amb email_data palavras_chave_vaga))).
  apply classificar_rejeitado. rewrite Hp. reflexivity.
Qed.

(** C2 (amended): against a job keyword list other than the built-in default
    list, a text whose correspondence score is below 2.0 gets score 0, no
    matched words, and a breakdown that holds only the rejection messages, the
    first five keywords searched and the correspondence score, with no
    category score; and (the list being non-empty) an email whose attachments
    are all rejected this way ends with score 0 and status Rejeitado. *)
Theorem filtro_da_vaga_rejeita (palavras_chave : list str) :
  palavras_chave <> palavras_chave_default ->
  (forall texto,
      _verificar_correspondencia_vaga (lower texto) palavras_chave < 2 ->
      _analisar_texto amb texto (Some palavras_chave)
      = {| an_pontuacao := 0;
           an_palavras_encontradas := [];
           an_detalhes :=
             Rejeicao (_verificar_correspondencia_vaga (lower texto) palavras_chave)
                      (py "Currículo não possui palavras-chave suficientes para a vaga específica")
                      (firstn 5 palavras_chave)
                      (_verificar_correspondencia_vaga (lower texto) palavras_chave);
           an_ai_analysis := None |})
  /\ (forall email_data,
         palavras_chave <> [] ->
         (forall anexo, In anexo (anexos email_data) ->
            _extrair_texto amb (caminho_temp anexo) (tipo anexo) <> []
            /\ _verificar_correspondencia_vaga
                 (lower (_extrair_texto amb (caminho_temp anexo) (tipo anexo)))
                 palavras_chave < 2) ->
         res_pontuacao (analisar_curriculo amb email_data (Some palavras_chave)) == 0
         /\ res_status (analisar_curriculo amb email_data (Some palavras_chave)) = Rejeitado).
Proof.
  intros Hne. split.
  - intros texto Hlt. apply _analisar_texto_rejeitado; assumption.
  - intros email_data Hnil Hall. apply analisar_curriculo_zeros.
    intros ra Hra. unfold analisar_curriculo in Hra. cbn [res_anexos_analisados] in Hra.
    destruct palavras_chave as [|p r]; [congruence|].
    apply in_map_iff in Hra. destruct Hra as (anexo & <- & Hin).
    destruct (Hall anexo Hin) as [Ht Hg].
    rewrite (_analisar_arquivo_com_texto anexo (Some (p :: r)) Ht).
    cbn [ra_pontuacao]. rewrite (_analisar_texto_rejeitado amb _ (p :: r) Hne Hg).
    reflexivity.
Qed.

End FiltroDaVaga.

Lemma filtro_da_vaga_rejeita_witness :
  vaga_engenharia <> palavras_chave_default
  /\ an_pontuacao (_analisar_texto ambiente (py "bacharelado") (Some vaga_engenharia)) = 0%Q.
Proof.
  split.
  - discriminate.
  - rewrite (proj1 (filtro_da_vaga_rejeita ambiente vaga_engenharia ltac:(discriminate))
                   (py "bacharelado")).
    + reflexivity.
    + vm_compute. reflexivity.
Defined.

(** The claim C2 read on every supplied list fails on the built-in default
    list: the gate would give 0, yet the text is scored on the generic
    categories and the email is approved. *)
Lemma filtro_da_vaga_lista_default_contraexemplo :
  (_verificar_correspondencia_vaga (lower (ler arquivos (py "/tmp/cv_geral.txt")))
                                   palavras_chave_default < 2)%Q
  /\ ~ (an_pontuacao (_analisar_texto ambiente (ler arquivos (py "/tmp/cv_geral.txt"))
                                      (Some palavras_chave_default)) == 0)%Q
  /\ res_status (analisar_curriculo ambiente email_geral (Some palavras_chave_default))
     = Aprovado.
Proof.
  split; [|split].
  - vm_compute. reflexivity.
  - vm_compute. discriminate.
  - vm_compute. reflexivity.
Qed.

Section PesoDaVaga.

Local Open Scope Q_scope.

Variable amb : Ambiente.


(** C10 (amended): a job keyword list that is empty or equal to the built-in
    default list is treated exactly as no job profile; the analysis of each
    text then carries no job category and no rejection record, and, when the
    external analyzer makes no adjustment, the attachment score is the
    unweighted mean of the education, experience and skills category scores
    rounded to one decimal place. *)
Theorem lista_vazia_ou_default_e_busca_geral (palavras_chave : list str) :
  palavras_chave = [] \/ lista_eqb palavras_chave palavras_chave_default = true ->
  (forall email_data,
      analisar_curriculo amb email_data (Some palavras_chave)
      = analisar_curriculo amb email_data None)
  /\ (forall email_data,
         res_anexos_analisados (analisar_curriculo amb email_data (Some palavras_chave))
         = map (fun anexo => _analisar_arquivo amb anexo (Some palavras_chave_default))
               (anexos email_data))
  /\ (forall texto,
         _analisar_texto amb texto (Some palavras_chave_default)
         = _analisar_texto amb texto None
         /\ an_detalhes (_analisar_texto amb texto (Some palavras_chave_default))
            = Categorias None
                         (_calcular_score_categoria texto formacao_keywords)
                         (_calcular_score_categoria texto experiencia_keywords)
                         (_calcular_score_categoria texto habilidades_keywords)
                         (ai_score_de amb texto palavras_chave_default)
         /\ (ai_score_de amb texto palavras_chave_default = None ->
             an_pontuacao (_analisar_texto amb texto (Some palavras_chave_default))
             = py_round1
                 ((sc_pontuacao (_calcular_score_categoria texto formacao_keywords)
                   + sc_pontuacao (_calcular_score_categoria texto experiencia_keywords)
                   + sc_pontuacao (_calcular_score_categoria texto habilidades_keywords)) / 3))).
Proof.
  intros H.
  assert (E : forall email_data,
             analisar_curriculo amb email_data (Some palavras_chave)
             = analisar_curriculo amb email_data None).
  { intros email_data. destruct H as [-> | H]; [reflexivity|].
    apply lista_eqb_eq in H. subst. reflexivity. }
  split; [exact E|]. split.
  - intros email_data. rewrite E. reflexivity.
  - intros texto. split; [reflexivity|].
    destruct (_analisar_texto_geral amb texto) as [Hp Hd].
    split; [exact Hd|].
    intros Hai. rewrite Hp, Hai. reflexivity.
Qed.

End PesoDaVaga.



Lemma lista_vazia_ou_default_e_busca_geral_witness :
  (([] : list str) = [] \/ lista_eqb [] palavras_chave_default = true)
  /\ analisar_curriculo ambiente email_bach (Some []) = analisar_curriculo ambiente email_bach None.
Proof.
  split.
  - left. reflexivity.
  - apply (proj1 (lista_vazia_ou_default_e_busca_geral ambiente [] (or_introl eq_refl))).
Defined.

(** With the default list supplied, the score of a text with one education
    keyword is 0.3, while the mean of its three category scores is 1/3. *)
Lemma busca_geral_sem_arredondar_contraexemplo :
  lista_eqb palavras_chave_default palavras_chave_default = true
  /\ ~ (an_pontuacao (_analisar_texto ambiente (py "bacharelado") (Some palavras_chave_default))
        == pontuacao_geral (py "bacharelado"))%Q.
Proof.
  split.
  - vm_compute. reflexivity.
  - vm_compute. discriminate.
Qed.

(* ------------------------------------------------------------------ *)
(** ** Attachments without text *)

Section SemTexto.

Local Open Scope Q_scope.

Variable amb : Ambiente.

(** C4 (amended): when no text can be extracted from any attachment of an
    email, each attachment is recorded with score 0 and the extraction error,
    and classification produces score 0 and status Rejeitado; the analyzer
    chooses its status from the score only and never answers Erro here. *)
Theorem sem_texto_extraido_rejeitado
        (email_data : EmailData) (palavras_chave_vaga : option (list str)) :
  (forall anexo, In anexo (anexos email_data) ->
                 _extrair_texto amb (caminho_temp anexo) (tipo anexo) = []) ->
  let r := analisar_curriculo amb email_data palavras_chave_vaga in
  res_pontuacao r == 0
  /\ res_status r = Rejeitado
  /\ res_status r <> Erro
  /\ (forall ra, In ra (res_anexos_analisados r) ->
                 ra_texto_extraido ra = false
                 /\ ra_pontuacao ra = 0
                 /\ ra_erro ra = Some (py "Não foi possível extrair texto")).
Proof.
  intros Hall r.
  assert (Hra : forall ra, In ra (res_anexos_analisados r) ->
                           ra_texto_extraido ra = false
                           /\ ra_pontuacao ra = 0
                           /\ ra_erro ra = Some (py "Não foi possível extrair texto")).
  { intros ra Hin. unfold r, analisar_curriculo in Hin. cbn [res_anexos_analisados] in Hin.
    apply in_map_iff in Hin. destruct Hin as (anexo & <- & Hin).
    rewrite (_analisar_arquivo_sem_texto amb anexo _ (Hall anexo Hin)).
    repeat split. }
  destruct (analisar_curriculo_zeros amb email_data palavras_chave_vaga) as [Hp Hs].
  { intros ra Hin. destruct (Hra ra Hin) as (_ & -> & _). reflexivity. }
  split; [exact Hp|]. split; [exact Hs|]. split; [|exact Hra].
  unfold r. rewrite Hs. discriminate.
Qed.

(** Whatever the email, the status the analyzer computes is not Erro. *)
Lemma analisar_curriculo_nunca_erro
      (email_data : EmailData) (palavras_chave_vaga : option (list str)) :
  res_status (analisar_curriculo amb email_data palavras_chave_vaga) <> Erro.
Proof. apply classificar_nunca_erro. Qed.

End SemTexto.

Lemma sem_texto_extraido_rejeitado_witness :
  (forall anexo, In anexo (anexos email_ilegivel) ->
                 _extrair_texto ambiente (caminho_temp anexo) (tipo anexo) = [])
  /\ res_status (analisar_curriculo ambiente email_ilegivel None) = Rejeitado.
Proof.
  assert (H : forall anexo, In anexo (anexos email_ilegivel) ->
                            _extrair_texto ambiente (caminho_temp anexo) (tipo anexo) = []).
  { intros anexo [<- | []]. reflexivity. }
  split; [exact H|].
  exact (proj1 (proj2 (sem_texto_extraido_rejeitado ambiente email_ilegivel None H))).
Defined.

(** An email whose only attachment cannot be read is not given status Erro. *)
Lemma sem_texto_extraido_contraexemplo :
  (forall anexo, In anexo (anexos email_ilegivel) ->
                 _extrair_texto ambiente (caminho_temp anexo) (tipo anexo) = [])
  /\ res_status (analisar_curriculo ambiente email_ilegivel None) <> Erro.
Proof.
  split.
  - intros anexo [<- | []]. reflexivity.
  - vm_compute. discriminate.
Qed.

(* ------------------------------------------------------------------ *)
(** ** Legacy DOC attachments *)

Section ArquivoDoc.

Local Open Scope Q_scope.
Local Open Scope string_scope.

(** C5 (the code at the failing input): for a [doc] attachment
    [_extrair_texto] returns the non-empty notice "Arquivo DOC antigo -
    recomenda-se converter para DOCX", so the attachment is recorded as
    extracted and the notice itself is scored; with the job keyword "ti"
    (found inside "antigo") the email gets 7.0 and is approved. *)
Theorem doc_devolve_aviso_como_texto (amb : Ambiente) (nome caminho : str) :
  let anexo := {| nome_original := nome; caminho_temp := caminho; tipo := py "doc" |} in
  _extrair_texto amb caminho (py "doc")
  = py "Arquivo DOC antigo - recomenda-se converter para DOCX"
  /\ ra_texto_extraido (_analisar_arquivo amb anexo None) = true
  /\ ra_tamanho_texto (_analisar_arquivo amb anexo None) = Some 53%nat
  /\ ra_erro (_analisar_arquivo amb anexo None) = None
  /\ Qred (res_pontuacao (analisar_curriculo ambiente email_doc (Some vaga_ti))) = 7
  /\ res_status (analisar_curriculo ambiente email_doc (Some vaga_ti)) = Aprovado.
Proof.
  intros anexo. split; [reflexivity|]. split; [reflexivity|].
  split; [reflexivity|]. split; [reflexivity|].
  split; vm_compute; reflexivity.
Qed.

End ArquivoDoc.

(* ------------------------------------------------------------------ *)
(** ** The relevance gate against its specification *)

Section FiltroConforme.

Local Open Scope Q_scope.

Lemma peso_relacionadas_existsb (texto : str) (termos : list str) :
  peso_relacionadas texto termos
  = if existsb (fun termo => contem texto (_normalizar_texto termo)) termos
    then 7 # 10 else 0.
Proof.
  induction termos as [|t termos IH]; simpl; [reflexivity|].
  destruct (contem texto (_normalizar_texto t)); simpl; [reflexivity | exact IH].
Qed.




(** C8 (the code at the failing input): [_analisar_texto] hands the gate the
    lower-cased text with its accents, while the gate strips the accents of
    the keyword only.  For the text "Formação superior" and the job keyword
    "formação" the normalised keyword is a substring of the normalised text,
    so the formula gives 10, but the gate returns 0 and the text is rejected
    with score 0, although the category scorer finds the keyword. *)
Theorem filtro_recebe_texto_com_acentos :
  contem (_normalizar_texto (py "Formação superior")) (_normalizar_texto (py "formação")) = true
  /\ correspondencia_spec (py "Formação superior") vaga_formacao == 10
  /\ _verificar_correspondencia_vaga (lower (py "Formação superior")) vaga_formacao == 0
  /\ sc_pontuacao (_calcular_score_categoria (lower (py "Formação superior")) vaga_formacao) == 10
  /\ an_pontuacao (_analisar_texto ambiente (py "Formação superior") (Some vaga_formacao)) = 0.
Proof.
  split; [vm_compute; reflexivity|].
  split; [vm_compute; reflexivity|].
  split; [vm_compute; reflexivity|].
  split; vm_compute; reflexivity.
Qed.

End FiltroConforme.

(* ------------------------------------------------------------------ *)
(** ** The result store *)

Section Armazenamento.

Lemma find_none_filter {A : Type} (f : A -> bool) (l : list A) :
  find f l = None -> filter f l = [].
Proof.
  induction l as [|x l IH]; simpl; [reflexivity|].
  destruct (f x); [discriminate | exact IH].
Qed.

Lemma find_app_none {A : Type} (f : A -> bool) (l l' : list A) :
  find f l = None -> find f (l ++ l') = find f l'.
Proof.
  induction l as [|x l IH]; simpl; [reflexivity|].
  destruct (f x); [discriminate | exact IH].
Qed.

Lemma find_some_filter {A : Type} (f : A -> bool) (l : list A) (x : A) :
  find f l = Some x -> exists r, filter f l = x :: r.
Proof.
  induction l as [|y l IH]; simpl; [discriminate|].
  destruct (f y) eqn:E.
  - intros H. injection H as ->. eexists. reflexivity.
  - exact IH.
Qed.

Lemma mesma_chave_eq (remetente assunto data : str) (linha : LinhaResultado) :
  mesma_chave remetente assunto data linha = true
  <-> email_remetente linha = remetente
      /\ assunto_email linha = assunto
      /\ data_email linha = data.
Proof.
  unfold mesma_chave. rewrite !andb_true_iff, !str_eqb_eq. tauto.
Qed.

(** A stored row answers to its own key. *)
Lemma mesma_chave_propria (linha : LinhaResultado) :
  mesma_chave (email_remetente linha) (assunto_email linha) (data_email linha) linha = true.
Proof. apply mesma_chave_eq. auto. Qed.

(** The row is already there: its id is returned and nothing is written. *)
Lemma salvar_resultado_existente (current_timestamp : str) (db : Banco)
      (resultado : Resultado) (linha : LinhaResultado) :
  find (mesma_chave (res_email_remetente resultado) (res_assunto resultado)
                    (res_data_email resultado)) (resultados db) = Some linha ->
  salvar_resultado false current_timestamp db resultado = (db, Some (id linha)).
Proof.
  intros H. unfold salvar_resultado. rewrite H. reflexivity.
Qed.

(** The row is not there: one row is appended under the next id. *)
Lemma salvar_resultado_novo (current_timestamp : str) (db : Banco) (resultado : Resultado) :
  find (mesma_chave (res_email_remetente resultado) (res_assunto resultado)
                    (res_data_email resultado)) (resultados db) = None ->
  exists linha,
    resultados (fst (salvar_resultado false current_timestamp db resultado))
    = resultados db ++ [linha]
    /\ snd (salvar_resultado false current_timestamp db resultado) = Some (id linha)
    /\ id linha = (seq_resultados db + 1)%Z
    /\ email_remetente linha = res_email_remetente resultado
    /\ assunto_email linha = res_assunto resultado
    /\ data_email linha = res_data_email resultado.
Proof.
  intros H. unfold salvar_resultado. rewrite H.
  destruct (inserir_anexos _ _ _ _) as [tabela seq]. cbn [fst snd resultados].
  eexists. split; [reflexivity|]. cbn. repeat split.
Qed.

(** Written only by [salvar_resultado], the store never holds two rows with
    one identity key. *)
Lemma alcancavel_chave_unica (db : Banco) :
  alcancavel db ->
  forall remetente assunto data,
    (length (filter (mesma_chave remetente assunto data) (resultados db)) <= 1)%nat.
Proof.
  induction 1 as [|erro_sqlite current_timestamp db resultado Hdb IH];
    intros remetente assunto data.
  - simpl. lia.
  - destruct erro_sqlite; [apply IH|].
    destruct (find (mesma_chave (res_email_remetente resultado) (res_assunto resultado)
                                (res_data_email resultado)) (resultados db))
      as [linha|] eqn:Hf.
    + rewrite (salvar_resultado_existente current_timestamp db resultado linha Hf).
      apply IH.
    + destruct (salvar_resultado_novo current_timestamp db resultado Hf)
        as (linha & -> & _ & _ & He & Ha & Hd).
      rewrite filter_app, length_app. cbn [filter].
      destruct (mesma_chave remetente assunto data linha) eqn:Hk.
      * apply mesma_chave_eq in Hk. destruct Hk as (<- & <- & <-).
        rewrite He, Ha, Hd, (find_none_filter _ _ Hf). simpl. lia.
      * specialize (IH remetente assunto data). simpl. lia.
Qed.

(** C3: in a store written only by [salvar_resultado], storing a result whose
    identity key (email_remetente, assunto, data_email) is already stored
    returns the id of the stored row and leaves both tables as they were; and
    storing a result twice returns the same id both times, the second call
    changes nothing, and exactly one row is stored under that key. *)
Theorem salvar_resultado_idempotente
        (db : Banco) (resultado : Resultado) (t1 t2 : str) :
  alcancavel db ->
  let chave := mesma_chave (res_email_remetente resultado) (res_assunto resultado)
                           (res_data_email resultado) in
  let db1 := fst (salvar_resultado false t1 db resultado) in
  let id1 := snd (salvar_resultado false t1 db resultado) in
  let db2 := fst (salvar_resultado false t2 db1 resultado) in
  let id2 := snd (salvar_resultado false t2 db1 resultado) in
  (forall linha, In linha (resultados db) -> chave linha = true ->
                 salvar_resultado false t1 db resultado = (db, Some (id linha)))
  /\ id2 = id1
  /\ db2 = db1
  /\ exists linha,
      linhas_da_chave resultado db2 = [linha] /\ id1 = Some (id linha).
Proof.
  intros Hdb chave db1 id1 db2 id2.
  pose proof (alcancavel_chave_unica db Hdb (res_email_remetente resultado)
                                     (res_assunto resultado) (res_data_email resultado)) as Hu.
  fold chave in Hu.
  assert (Hex : forall linha, In linha (resultados db) -> chave linha = true ->
                              find chave (resultados db) = Some linha).
  { intros linha Hin Hk.
    destruct (find chave (resultados db)) as [l0|] eqn:Hf.
    - destruct (find_some_filter _ _ _ Hf) as [r Hr].
      assert (Hin' : In linha (filter chave (resultados db)))
        by (apply filter_In; split; assumption).
      rewrite Hr in Hu, Hin'. destruct r; [|simpl in Hu; lia].
      destruct Hin' as [-> | []]. reflexivity.
    - apply find_none_filter in Hf.
      assert (Hin' : In linha (filter chave (resultados db)))
        by (apply filter_In; split; assumption).
      rewrite Hf in Hin'. destruct Hin'. }
  split.
  { intros linha Hin Hk. apply salvar_resultado_existente. apply Hex; assumption. }
  (* after the first call the key is stored in exactly one row *)
  assert (H1 : exists linha,
             find chave (resultados db1) = Some linha
             /\ filter chave (resultados db1) = [linha]
             /\ id1 = Some (id linha)).
  { unfold db1, id1.
    destruct (find chave (resultados db)) as [l0|] eqn:Hf.
    - rewrite (salvar_resultado_existente t1 db resultado l0 Hf). cbn [fst snd].
      exists l0. split; [exact Hf|]. split; [|reflexivity].
      destruct (find_some_filter _ _ _ Hf) as [r Hr]. rewrite Hr in *.
      destruct r; [reflexivity | simpl in Hu; lia].
    - destruct (salvar_resultado_novo t1 db resultado Hf)
        as (linha & -> & -> & _ & He & Ha & Hd).
      assert (Hk : chave linha = true).
      { unfold chave. rewrite <- He, <- Ha, <- Hd. apply mesma_chave_propria. }
      exists linha. split; [|split; [|reflexivity]].
      + rewrite (find_app_none _ _ [linha] Hf). simpl. rewrite Hk. reflexivity.
      + rewrite filter_app, (find_none_filter _ _ Hf). simpl. rewrite Hk. reflexivity. }
  destruct H1 as (linha & Hf1 & Hfl & Hid).
  unfold db2, id2.
  rewrite (salvar_resultado_existente t2 db1 resultado linha Hf1). cbn [fst snd].
  split; [symmetry; exact Hid|]. split; [reflexivity|].
  exists linha. split; [exact Hfl | exact Hid].
Qed.

End Armazenamento.

Lemma salvar_resultado_idempotente_witness :
  alcancavel banco_vazio
  /\ snd (salvar_resultado false (py "2026-11-04 10:00:01")
            (fst (salvar_resultado false (py "2026-11-04 10:00:00") banco_vazio
                    (analisar_curriculo ambiente email_eng None)))
            (analisar_curriculo ambiente email_eng None))
     = snd (salvar_resultado false (py "2026-11-04 10:00:00") banco_vazio
              (analisar_curriculo ambiente email_eng None)).
Proof.
  split.
  - exact alcancavel_vazio.
  - exact (proj1 (proj2 (salvar_resultado_idempotente
                           banco_vazio (analisar_curriculo ambiente email_eng None)
                           (py "2026-11-04 10:00:00") (py "2026-11-04 10:00:01")
                           alcancavel_vazio))).
Defined.

(* ------------------------------------------------------------------ *)
(** ** Further properties of the scoring engine *)

Section NormalizacaoIdempotente.

Local Open Scope N_scope.








End NormalizacaoIdempotente.

Section ScoreMais.

Local Open Scope Q_scope.


Lemma passo_unicas_NoDup (l acc : list str) :
  NoDup acc -> NoDup (fold_left passo_unicas l acc).
Proof.
  revert acc. induction l as [|y l IH]; intros acc Hacc; simpl; [exact Hacc|].
  apply IH. unfold passo_unicas. destruct (pertence y acc) eqn:Py; [exact Hacc|].
  apply pertence_false in Py.
  apply NoDup_app; [exact Hacc | constructor; [intros [] | constructor] |].
  intros z Hz [<- | []]. exact (Py Hz).
Qed.

Lemma obter_In (k : str) (d : list (str * list str)) (v : list str) :
  obter k d = Some v -> In (k, v) d.
Proof.
  induction d as [|[k' v'] d IH]; simpl; [discriminate|].
  destruct (str_eqb k k') eqn:E.
  - intros H. injection H as ->. apply str_eqb_eq in E. subst. left. reflexivity.
  - intros H. right. apply IH. exact H.
Qed.

(** What the expansion of one keyword holds: the full terms listed under its
    normal form, and the abbreviations one of whose full terms has its normal
    form. *)
Lemma expansao_da_palavra_In (palavra x : str) :
  In x (expansao_da_palavra palavra)
  <-> (exists termos, obter (_normalizar_texto palavra) abreviacoes = Some termos
                      /\ In x termos)
      \/ (exists termos termo,
             In (x, termos) abreviacoes /\ In termo termos
             /\ _normalizar_texto palavra = _normalizar_texto termo).
Proof.
  unfold expansao_da_palavra. rewrite in_app_iff. unfold abreviacoes_do_termo.
  rewrite in_flat_map. split.
  - intros [H | ([a ts] & Hin & Hx)].
    + left. destruct (obter (_normalizar_texto palavra) abreviacoes) as [termos|];
        [exists termos; auto | destruct H].
    + right.
      destruct (existsb (fun termo => str_eqb (_normalizar_texto palavra)
                                              (_normalizar_texto termo)) ts) eqn:E;
        [|destruct Hx].
      destruct Hx as [<- | []].
      apply existsb_exists in E. destruct E as (termo & Ht & Ee).
      apply str_eqb_eq in Ee. exists ts, termo. auto.
  - intros [(termos & Ho & Hx) | (termos & termo & Hin & Ht & Ee)].
    + left. rewrite Ho. exact Hx.
    + right. exists (x, termos). split; [exact Hin|].
      assert (E : existsb (fun t => str_eqb (_normalizar_texto palavra)
                                            (_normalizar_texto t)) termos = true).
      { apply existsb_exists. exists termo. split; [exact Ht|].
        apply str_eqb_eq. exact Ee. }
      rewrite E. left. reflexivity.
Qed.

(** X2: the expanded keyword list has no duplicates, keeps every keyword given,
    and everything it adds comes from the abbreviation table: a full term
    listed under a keyword that is an abbreviation, or the abbreviation of a
    keyword that is one of its full terms (both compared in normal form). *)
Theorem _expandir_palavras_chave_conteudo (palavras_chave : list str) :
  NoDup (_expandir_palavras_chave palavras_chave)
  /\ (forall palavra, In palavra palavras_chave ->
                      In palavra (_expandir_palavras_chave palavras_chave))
  /\ (forall x, In x (_expandir_palavras_chave palavras_chave) ->
        In x palavras_chave
        \/ exists palavra abrev termos,
             In palavra palavras_chave /\ In (abrev, termos) abreviacoes
             /\ ((_normalizar_texto palavra = abrev /\ In x termos)
                 \/ (x = abrev /\ exists termo,
                        In termo termos
                        /\ _normalizar_texto palavra = _normalizar_texto termo))).
Proof.
  split; [|split].
  - unfold _expandir_palavras_chave, remover_duplicatas.
    apply passo_unicas_NoDup. constructor.
  - intros palavra H. apply _expandir_palavras_chave_In. left. exact H.
  - intros x H. apply _expandir_palavras_chave_In in H.
    destruct H as [H | (palavra & Hp & Hx)]; [left; exact H|]. right.
    apply expansao_da_palavra_In in Hx.
    destruct Hx as [(termos & Ho & Hx) | (termos & termo & Hin & Ht & Ee)].
    + exists palavra, (_normalizar_texto palavra), termos.
      split; [exact Hp|]. split; [apply obter_In; exact Ho|]. left. auto.
    + exists palavra, x, termos.
      split; [exact Hp|]. split; [exact Hin|]. right. split; [reflexivity|].
      exists termo. auto.
Qed.

Lemma coletar_length (texto_normalizado : str) (palavras_expandidas keywords acc : list str) :
  (length (fold_left (passo_encontradas texto_normalizado palavras_expandidas) keywords acc)
   <= length acc + length keywords)%nat.
Proof.
  revert acc. induction keywords as [|k keywords IH]; intros acc; simpl; [lia|].
  specialize (IH (passo_encontradas texto_normalizado palavras_expandidas acc k)).
  assert (H : (length (passo_encontradas texto_normalizado palavras_expandidas acc k)
               <= S (length acc))%nat).
  { unfold passo_encontradas.
    destruct (encontrou texto_normalizado palavras_expandidas k
              && negb (pertence k acc)); [rewrite length_app; simpl; lia | lia]. }
  lia.
Qed.

(** X3: the scorer never matches more keywords than it was given, so the cap
    at 10 never applies: the score is exactly 10 × matched / total (0 for the
    empty list), and the total it reports is the length of the keyword list. *)
Theorem _calcular_score_categoria_sem_teto (texto : str) (keywords : list str) :
  let s := _calcular_score_categoria texto keywords in
  (length (sc_palavras_encontradas s) <= length keywords)%nat
  /\ sc_total_palavras_categoria s = length keywords
  /\ sc_pontuacao s
     == 10 * (Qnat (length (sc_palavras_encontradas s)) / Qnat (length keywords)).
Proof.
  intros s.
  assert (Hlen : (length (sc_palavras_encontradas s) <= length keywords)%nat).
  { unfold s, _calcular_score_categoria, coletar_encontradas. cbn [sc_palavras_encontradas].
    pose proof (coletar_length (_normalizar_texto texto)
                               (_expandir_palavras_chave keywords) keywords []) as H.
    simpl in H. exact H. }
  split; [exact Hlen|]. split; [reflexivity|].
  set (m := length (sc_palavras_encontradas s)) in *.
  assert (Hs : sc_pontuacao s
               == py_min (Qnat m / Qnat (length keywords) * 10) 10).
  { unfold m, s, _calcular_score_categoria. cbn [sc_pontuacao sc_palavras_encontradas].
    destruct keywords as [|k0 ks]; reflexivity. }
  rewrite Hs. destruct keywords as [|k0 ks].
  - assert (m = 0)%nat by (simpl in Hlen; lia). subst m. rewrite H. reflexivity.
  - set (n := length (k0 :: ks)) in *.
    assert (Hn : 0 < Qnat n) by (apply Qnat_pos; unfold n; simpl; lia).
    assert (Hmn : Qnat m <= Qnat n).
    { unfold Qnat. rewrite <- Zle_Qle. lia. }
    assert (Hle : Qnat m / Qnat n * 10 <= 10).
    { assert (Hd : Qnat m / Qnat n <= 1).
      { apply Qle_shift_div_r; [exact Hn | lra]. }
      lra. }
    unfold py_min. destruct (Qlt_bool 10 (Qnat m / Qnat n * 10)) eqn:E.
    + apply Qlt_bool_true in E. lra.
    + ring.
Qed.

End ScoreMais.

Section FiltroLimites.

Local Open Scope Q_scope.

Lemma peso_relacionadas_valores (texto : str) (termos : list str) :
  peso_relacionadas texto termos = 0 \/ peso_relacionadas texto termos = 7 # 10.
Proof.
  rewrite peso_relacionadas_existsb.
  destruct (existsb _ termos); [right | left]; reflexivity.
Qed.

Lemma contribuicao_valores (texto palavra_chave : str) :
  contribuicao texto palavra_chave = 0
  \/ contribuicao texto palavra_chave = 7 # 10
  \/ contribuicao texto palavra_chave = 1.
Proof.
  unfold contribuicao.
  destruct (contem texto (_normalizar_texto (strip palavra_chave))); [right; right; reflexivity|].
  destruct (peso_relacionadas_valores
              texto
              match obter (_normalizar_texto (strip palavra_chave)) abreviacoes with
              | Some termos => termos
              | None => []
              end) as [H | H]; rewrite H; auto.
Qed.

Lemma correspondencias_limites (texto : str) (palavras_chave : list str) (c : Q) :
  c <= fold_left (fun c palavra_chave => c + contribuicao texto palavra_chave) palavras_chave c
  /\ fold_left (fun c palavra_chave => c + contribuicao texto palavra_chave) palavras_chave c
     <= c + Qnat (length palavras_chave).
Proof.
  revert c. induction palavras_chave as [|p r IH]; intros c.
  - cbn [fold_left length]. change (Qnat 0) with 0. split; lra.
  - cbn [fold_left]. destruct (IH (c + contribuicao texto p)) as [H1 H2].
    assert (E : Qnat (length (p :: r)) == Qnat (length r) + 1).
    { unfold Qnat. cbn [length]. rewrite Nat2Z.inj_succ, <- Z.add_1_r, inject_Z_plus.
      reflexivity. }
    rewrite E.
    destruct (contribuicao_valores texto p) as [H | [H | H]]; rewrite H in *;
      split; lra.
Qed.

(** X4: the correspondence score of the gate always lies between 0 and 10, is
    0 for the empty keyword list, and each keyword adds 0, 0.7 or 1 to the
    count it is computed from. *)
Theorem _verificar_correspondencia_vaga_limites (texto : str) (palavras_chave_vaga : list str) :
  0 <= _verificar_correspondencia_vaga texto palavras_chave_vaga
  /\ _verificar_correspondencia_vaga texto palavras_chave_vaga <= 10
  /\ _verificar_correspondencia_vaga texto [] = 0
  /\ (forall palavra_chave,
         contribuicao texto palavra_chave = 0
         \/ contribuicao texto palavra_chave = 7 # 10
         \/ contribuicao texto palavra_chave = 1).
Proof.
  split; [|split; [|split; [reflexivity | apply contribuicao_valores]]].
  - unfold _verificar_correspondencia_vaga.
    destruct palavras_chave_vaga as [|p r]; [lra|].
    apply py_min_nonneg; [|lra].
    destruct (correspondencias_limites texto (p :: r) 0) as [H1 _].
    apply Qmult_le_0_compat; [|lra].
    unfold Qdiv. apply Qmult_le_0_compat; [exact H1|].
    apply Qinv_le_0_compat. apply Qnat_nonneg.
  - unfold _verificar_correspondencia_vaga.
    destruct palavras_chave_vaga as [|p r]; [lra|]. apply py_min_le_r.
Qed.

End FiltroLimites.


Section PontuacaoLimites.

Local Open Scope Q_scope.

Lemma arredondar_par_limites (q : Q) (a b : Z) :
  inject_Z a <= q -> q <= inject_Z b -> (a <= arredondar_par q <= b)%Z.
Proof.
  intros Ha Hb. unfold arredondar_par.
  pose proof (Qfloor_le q) as Hf. pose proof (Qlt_floor q) as Hf'.
  assert (Hfa : (a <= Qfloor q)%Z).
  { apply Qfloor_resp_le in Ha. rewrite Qfloor_Z in Ha. exact Ha. }
  assert (Hfb : (Qfloor q <= b)%Z).
  { apply Qfloor_resp_le in Hb. rewrite Qfloor_Z in Hb. exact Hb. }
  destruct (Z.eq_dec (Qfloor q) b) as [Eb | Nb].
  - (* the floor is the upper bound: the fraction is 0 *)
    assert (Hlt : Qcompare (q - inject_Z (Qfloor q)) (1 # 2) = Lt).
    { apply (proj1 (Qlt_alt _ _)). rewrite Eb. lra. }
    rewrite Hlt. lia.
  - destruct (Qcompare (q - inject_Z (Qfloor q)) (1 # 2)); [|lia|lia].
    destruct (Z.even (Qfloor q)); lia.
Qed.

Lemma py_round1_limites (q : Q) : 0 <= q -> q <= 10 ->
  exists z, (0 <= z <= 100)%Z /\ py_round1 q = inject_Z z / 10.
Proof.
  intros H0 H10. exists (arredondar_par (q * 10)). split; [|reflexivity].
  apply arredondar_par_limites.
  - change (inject_Z 0) with 0. lra.
  - change (inject_Z 100) with 100. lra.
Qed.

Lemma score_categoria_limites (texto : str) (keywords : list str) :
  0 <= sc_pontuacao (_calcular_score_categoria texto keywords) <= 10.
Proof.
  unfold _calcular_score_categoria. cbn [sc_pontuacao]. split.
  - apply py_min_nonneg; [|lra].
    apply Qmult_le_0_compat; [|lra].
    destruct (0 <? length keywords)%nat; [|lra].
    unfold Qdiv. apply Qmult_le_0_compat; [apply Qnat_nonneg|].
    apply Qinv_le_0_compat. apply Qnat_nonneg.
  - apply py_min_le_r.
Qed.

Lemma pontuacao_geral_limites (texto : str) : 0 <= pontuacao_geral texto <= 10.
Proof.
  unfold pontuacao_geral.
  pose proof (score_categoria_limites texto formacao_keywords).
  pose proof (score_categoria_limites texto experiencia_keywords).
  pose proof (score_categoria_limites texto habilidades_keywords).
  split.
  - apply Qle_shift_div_l; lra.
  - apply Qle_shift_div_r; lra.
Qed.

Lemma ai_score_de_positivo (amb : Ambiente) (texto : str) (palavras_chave : list str) (s : Q) :
  ai_score_de amb texto palavras_chave = Some s -> 0 < s.
Proof.
  unfold ai_score_de. destruct (ai_analyzer amb) as [f|]; [|discriminate].
  destruct (f texto palavras_chave) as [| |[fit|]]; try discriminate.
  destruct (Qlt_bool 0 fit) eqn:E; [|discriminate].
  intros H. injection H as <-. apply Qlt_bool_true in E.
  apply Qlt_shift_div_l; lra.
Qed.

Lemma pontuacao_do_texto_em_decimos
      (amb : Ambiente) (texto : str) (palavras_chave : list str) :
  (forall s, ai_score_de amb texto palavras_chave = Some s -> s <= 10) ->
  exists z, (0 <= z <= 100)%Z
            /\ an_pontuacao (_analisar_texto amb texto (Some palavras_chave))
               == inject_Z z / 10.
Proof.
  intros Hai.
  pose proof (score_categoria_limites texto palavras_chave) as Hv.
  pose proof (pontuacao_geral_limites texto) as Hg.
  assert (Hround : forall q, 0 <= q -> q <= 10 ->
            exists z, (0 <= z <= 100)%Z /\ py_round1 q == inject_Z z / 10).
  { intros q H0 H1. destruct (py_round1_limites q H0 H1) as (z & Hz & E).
    exists z. split; [exact Hz | rewrite E; reflexivity]. }
  destruct (lista_eqb palavras_chave palavras_chave_default) eqn:Ed.
  - apply lista_eqb_eq in Ed. subst palavras_chave.
    destruct (_analisar_texto_geral amb texto) as [-> _].
    destruct (ai_score_de amb texto palavras_chave_default) as [s|] eqn:Es.
    + pose proof (ai_score_de_positivo amb texto palavras_chave_default s Es).
      pose proof (Hai s eq_refl). apply Hround; lra.
    + apply Hround; lra.
  - assert (Hne : palavras_chave <> palavras_chave_default).
    { intros ->. rewrite (proj2 (lista_eqb_eq _ _) eq_refl) in Ed. discriminate. }
    destruct (Qlt_le_dec (_verificar_correspondencia_vaga (lower texto) palavras_chave) 2)
      as [Hlt | Hge].
    + rewrite (_analisar_texto_rejeitado amb texto palavras_chave Hne Hlt).
      exists 0%Z. split; [lia | reflexivity].
    + rewrite (_analisar_texto_aprovado_no_filtro amb texto palavras_chave Hne Hge).
      destruct (ai_score_de amb texto palavras_chave) as [s|] eqn:Es.
      * pose proof (ai_score_de_positivo amb texto palavras_chave s Es).
        pose proof (Hai s eq_refl). apply Hround; lra.
      * apply Hround; lra.
Qed.

Lemma soma_limites (l : list Q) :
  (forall x, In x l -> 0 <= x <= 10) ->
  0 <= soma l /\ soma l <= 10 * Qnat (length l).
Proof.
  induction l as [|x l IH]; intros H.
  - cbn [length]. change (Qnat 0) with 0. change (soma []) with 0. split; lra.
  - rewrite soma_cons.
    assert (E : Qnat (length (x :: l)) == Qnat (length l) + 1).
    { unfold Qnat. cbn [length]. rewrite Nat2Z.inj_succ, <- Z.add_1_r, inject_Z_plus.
      reflexivity. }
    rewrite E.
    destruct IH as [I1 I2]; [intros y Hy; apply H; right; exact Hy|].
    pose proof (H x (or_introl eq_refl)). split; lra.
Qed.

(** X6: when the external analyzer is absent, declines or gives a fit of at
    most 100, the score of a text is a whole number of tenths between 0.0 and
    10.0, whatever the keyword list. *)
Theorem _analisar_texto_pontuacao_limites
        (amb : Ambiente) (texto : str) (palavras_chave : list str) :
  (forall s, ai_score_de amb texto palavras_chave = Some s -> s <= 10) ->
  (exists z, (0 <= z <= 100)%Z
             /\ an_pontuacao (_analisar_texto amb texto (Some palavras_chave))
                == inject_Z z / 10)
  /\ 0 <= an_pontuacao (_analisar_texto amb texto (Some palavras_chave))
  /\ an_pontuacao (_analisar_texto amb texto (Some palavras_chave)) <= 10.
Proof.
  intros Hai.
  destruct (pontuacao_do_texto_em_decimos amb texto palavras_chave Hai) as (z & Hz & E).
  split; [exists z; split; [exact Hz | exact E]|].
  rewrite E.
  assert (H0 : inject_Z 0 <= inject_Z z) by (rewrite <- Zle_Qle; lia).
  assert (H1 : inject_Z z <= inject_Z 100) by (rewrite <- Zle_Qle; lia).
  change (inject_Z 0) with 0 in H0. change (inject_Z 100) with 100 in H1.
  split.
  - apply Qle_shift_div_l; lra.
  - apply Qle_shift_div_r; lra.
Qed.

(** X7: when the external analyzer never gives a fit above 100, the
    message-level score of every email, with or without attachments, lies
    between 0 and 10, and so does the score of each attachment. *)
Theorem analisar_curriculo_pontuacao_limites
        (amb : Ambiente) (email_data : EmailData) (palavras_chave_vaga : option (list str)) :
  (forall texto palavras_chave s,
      ai_score_de amb texto palavras_chave = Some s -> s <= 10) ->
  let r := analisar_curriculo amb email_data palavras_chave_vaga in
  0 <= res_pontuacao r /\ res_pontuacao r <= 10
  /\ (forall ra, In ra (res_anexos_analisados r) -> 0 <= ra_pontuacao ra <= 10).
Proof.
  intros Hai r.
  assert (Hra : forall ra, In ra (res_anexos_analisados r) -> 0 <= ra_pontuacao ra <= 10).
  { intros ra Hin. unfold r, analisar_curriculo in Hin. cbn [res_anexos_analisados] in Hin.
    apply in_map_iff in Hin. destruct Hin as (anexo & <- & _).
    set (kws := match palavras_chave_vaga with
                | Some (p :: r0) => p :: r0
                | _ => palavras_chave_default
                end).
    unfold _analisar_arquivo.
    destruct (_extrair_texto amb (caminho_temp anexo) (tipo anexo)) as [|c t] eqn:Et.
    - cbn [ra_pontuacao]. lra.
    - cbn [ra_pontuacao].
      destruct (pontuacao_do_texto_em_decimos amb (c :: t) kws) as (z & Hz & E).
      { intros s. apply Hai. }
      rewrite E.
      assert (H0 : inject_Z 0 <= inject_Z z) by (rewrite <- Zle_Qle; lia).
      assert (H1 : inject_Z z <= inject_Z 100) by (rewrite <- Zle_Qle; lia).
      change (inject_Z 0) with 0 in H0. change (inject_Z 100) with 100 in H1.
      split.
      + apply Qle_shift_div_l; lra.
      + apply Qle_shift_div_r; lra. }
  assert (Hs : forall x, In x (map ra_pontuacao (res_anexos_analisados r)) -> 0 <= x <= 10).
  { intros x Hx. apply in_map_iff in Hx. destruct Hx as (ra & <- & Hin). apply Hra. exact Hin. }
  destruct (soma_limites _ Hs) as [S0 S1].
  assert (Hp : 0 <= res_pontuacao r /\ res_pontuacao r <= 10).
  { unfold r, analisar_curriculo in *. cbn [res_pontuacao res_anexos_analisados] in *.
    set (rs := map _ (anexos email_data)) in *.
    rewrite length_map in S1.
    destruct (0 <? length rs)%nat eqn:En; [|split; lra].
    apply Nat.ltb_lt in En. pose proof (Qnat_pos _ En) as Hn.
    split.
    - apply Qle_shift_div_l; lra.
    - apply Qle_shift_div_r; lra. }
  destruct Hp as [P0 P1]. split; [exact P0|]. split; [exact P1 | exact Hra].
Qed.

End PontuacaoLimites.

Lemma _analisar_texto_pontuacao_limites_witness :
  (forall s, ai_score_de ambiente (py "engenharia civil") vaga_engenharia = Some s
             -> (s <= 10)%Q)
  /\ exists z, (0 <= z <= 100)%Z
               /\ (an_pontuacao (_analisar_texto ambiente (py "engenharia civil")
                                                 (Some vaga_engenharia))
                   == inject_Z z / 10)%Q.
Proof.
  assert (H : forall s, ai_score_de ambiente (py "engenharia civil") vaga_engenharia = Some s
                        -> (s <= 10)%Q) by (intros s E; discriminate E).
  split; [exact H|].
  exact (proj1 (_analisar_texto_pontuacao_limites ambiente (py "engenharia civil")
                                                  vaga_engenharia H)).
Defined.

Lemma analisar_curriculo_pontuacao_limites_witness :
  (forall texto palavras_chave s,
      ai_score_de ambiente texto palavras_chave = Some s -> (s <= 10)%Q)
  /\ (res_pontuacao (analisar_curriculo ambiente email_geral None) <= 10)%Q.
Proof.
  assert (H : forall texto palavras_chave s,
             ai_score_de ambiente texto palavras_chave = Some s -> (s <= 10)%Q)
    by (intros texto palavras_chave s E; discriminate E).
  split; [exact H|].
  exact (proj1 (proj2 (analisar_curriculo_pontuacao_limites ambiente email_geral None H))).
Defined.

Section StatusMonotono.

Local Open Scope Q_scope.

(** X8: the status never gets worse when the score goes up: above an approved
    score everything is approved, and below a rejected score everything is
    rejected. *)
Theorem classificar_monotono (p q : Q) :
  p <= q ->
  (classificar p = Aprovado -> classificar q = Aprovado)
  /\ (classificar q = Rejeitado -> classificar p = Rejeitado)
  /\ (classificar p = Revisar -> classificar q <> Rejeitado).
Proof.
  intros Hpq. unfold classificar.
  destruct (Qge_bool p 3) eqn:P3; destruct (Qge_bool q 3) eqn:Q3;
    destruct (Qge_bool p (3 # 2)) eqn:P2; destruct (Qge_bool q (3 # 2)) eqn:Q2;
    repeat match goal with
           | H : Qge_bool _ _ = true |- _ => apply Qge_bool_true in H
           | H : Qge_bool _ _ = false |- _ => apply Qge_bool_false in H
           end;
    try (exfalso; lra);
    repeat split; intros; try reflexivity; try discriminate; try assumption.
Qed.

End StatusMonotono.

Lemma classificar_monotono_witness :
  (2 <= 7 # 2)%Q /\ (classificar 2 = Revisar -> classificar (7 # 2) <> Rejeitado).
Proof.
  assert (H : (2 <= 7 # 2)%Q) by (vm_compute; discriminate).
  split; [exact H|].
  exact (proj2 (proj2 (classificar_monotono 2 (7 # 2) H))).
Defined.

Section TipoDesconhecido.

(** X9: an attachment whose type is none of pdf, docx, doc and txt is never
    read: whatever the surroundings and the keywords, it is recorded with
    score 0, no text extracted and the extraction error. *)
Theorem _analisar_arquivo_tipo_desconhecido
        (amb : Ambiente) (anexo : Anexo) (palavras_chave_vaga : option (list str)) :
  tipo anexo <> py "pdf" -> tipo anexo <> py "docx" ->
  tipo anexo <> py "doc" -> tipo anexo <> py "txt" ->
  _extrair_texto amb (caminho_temp anexo) (tipo anexo) = []
  /\ _analisar_arquivo amb anexo palavras_chave_vaga
     = {| ra_nome_arquivo := nome_original anexo;
          ra_tipo_arquivo := None;
          ra_tamanho_texto := None;
          ra_texto_extraido := false;
          ra_pontuacao := 0;
          ra_palavras_encontradas := [];
          ra_detalhes := None;
          ra_erro := Some (py "Não foi possível extrair texto") |}.
Proof.
  intros H1 H2 H3 H4.
  assert (E : _extrair_texto amb (caminho_temp anexo) (tipo anexo) = []).
  { unfold _extrair_texto.
    assert (F : forall s, tipo anexo <> s -> str_eqb (tipo anexo) s = false).
    { intros s Hs. destruct (str_eqb (tipo anexo) s) eqn:Es; [|reflexivity].
      apply str_eqb_eq in Es. contradiction. }
    rewrite (F _ H1), (F _ H2), (F _ H3), (F _ H4). reflexivity. }
  split; [exact E|]. apply _analisar_arquivo_sem_texto. exact E.
Qed.

End TipoDesconhecido.

Lemma _analisar_arquivo_tipo_desconhecido_witness :
  py "desconhecido" <> py "pdf" /\ py "desconhecido" <> py "docx"
  /\ py "desconhecido" <> py "doc" /\ py "desconhecido" <> py "txt"
  /\ ra_texto_extraido
       (_analisar_arquivo ambiente
          {| nome_original := py "cv.odt"; caminho_temp := py "/tmp/cv.odt";
             tipo := py "desconhecido" |} None) = false.
Proof.
  assert (H1 : py "desconhecido" <> py "pdf") by discriminate.
  assert (H2 : py "desconhecido" <> py "docx") by discriminate.
  assert (H3 : py "desconhecido" <> py "doc") by discriminate.
  assert (H4 : py "desconhecido" <> py "txt") by discriminate.
  split; [exact H1|]. split; [exact H2|]. split; [exact H3|]. split; [exact H4|].
  rewrite (proj2 (_analisar_arquivo_tipo_desconhecido
                    ambiente
                    {| nome_original := py "cv.odt"; caminho_temp := py "/tmp/cv.odt";
                       tipo := py "desconhecido" |} None H1 H2 H3 H4)).
  reflexivity.
Defined.

(* ------------------------------------------------------------------ *)
(** ** Further properties of the result store *)

Section ArmazenamentoMais.

Local Open Scope Z_scope.

(** After a call that SQLite lets through, the key of the result is stored
    and the id returned is the one found under it. *)
Lemma salvar_resultado_encontra (current_timestamp : str) (db : Banco) (resultado : Resultado) :
  exists linha,
    find (mesma_chave (res_email_remetente resultado) (res_assunto resultado)
                      (res_data_email resultado))
         (resultados (fst (salvar_resultado false current_timestamp db resultado)))
    = Some linha
    /\ snd (salvar_resultado false current_timestamp db resultado) = Some (id linha).
Proof.
  destruct (find (mesma_chave (res_email_remetente resultado) (res_assunto resultado)
                              (res_data_email resultado)) (resultados db))
    as [l0|] eqn:Hf.
  - rewrite (salvar_resultado_existente current_timestamp db resultado l0 Hf).
    exists l0. split; [exact Hf | reflexivity].
  - destruct (salvar_resultado_novo current_timestamp db resultado Hf)
      as (linha & -> & -> & _ & He & Ha & Hd).
    exists linha. split; [|reflexivity].
    rewrite (find_app_none _ _ [linha] Hf). simpl.
    rewrite <- He, <- Ha, <- Hd, mesma_chave_propria. reflexivity.
Qed.

(** X10: the first classification stored for an email stays: analysing the
    same email again, in other surroundings or against another job, and
    storing the new result returns the id of the first one and writes
    nothing, so the stored score and status are not updated. *)
Theorem reanalise_nao_regrava
        (db : Banco) (amb1 amb2 : Ambiente) (email_data : EmailData)
        (palavras_chave1 palavras_chave2 : option (list str)) (t1 t2 : str) :
  let r1 := analisar_curriculo amb1 email_data palavras_chave1 in
  let r2 := analisar_curriculo amb2 email_data palavras_chave2 in
  let db1 := fst (salvar_resultado false t1 db r1) in
  salvar_resultado false t2 db1 r2 = (db1, snd (salvar_resultado false t1 db r1))
  /\ exists resultado_id, snd (salvar_resultado false t1 db r1) = Some resultado_id.
Proof.
  intros r1 r2 db1.
  destruct (salvar_resultado_encontra t1 db r1) as (linha & Hf & Hid).
  fold db1 in Hf. split; [|exists (id linha); exact Hid].
  rewrite Hid. apply salvar_resultado_existente. exact Hf.
Qed.

(** X11: storing and looking up.  After a call that SQLite lets through, the
    row found under the identity key of the result has the returned id; and
    when the key was not stored before, that row carries the file names,
    score, status, attachment analyses and job id of the result, and the
    time of the call. *)
Theorem salvar_resultado_e_consulta (current_timestamp : str) (db : Banco)
        (resultado : Resultado) :
  let chave := mesma_chave (res_email_remetente resultado) (res_assunto resultado)
                           (res_data_email resultado) in
  exists linha,
    find chave (resultados (fst (salvar_resultado false current_timestamp db resultado)))
    = Some linha
    /\ snd (salvar_resultado false current_timestamp db resultado) = Some (id linha)
    /\ (find chave (resultados db) = None ->
        nome_arquivo linha = res_nome_arquivo resultado
        /\ pontuacao linha = res_pontuacao resultado
        /\ status linha = res_status resultado
        /\ detalhes_json linha = res_anexos_analisados resultado
        /\ vaga_id linha = res_vaga_id resultado
        /\ data_analise linha = current_timestamp
        /\ id linha = seq_resultados db + 1).
Proof.
  intros chave.
  destruct (find chave (resultados db)) as [l0|] eqn:Hf.
  - unfold chave in Hf.
    rewrite (salvar_resultado_existente current_timestamp db resultado l0 Hf).
    exists l0. split; [exact Hf|]. split; [reflexivity | discriminate].
  - unfold salvar_resultado. unfold chave in Hf. rewrite Hf.
    destruct (inserir_anexos _ _ _ _) as [tabela seq]. cbn [fst snd resultados].
    eexists. split.
    + unfold chave. rewrite (find_app_none _ _ _ Hf). cbn [find].
      unfold mesma_chave. cbn [email_remetente assunto_email data_email].
      rewrite !str_eqb_refl. reflexivity.
    + split; [reflexivity|]. intros _. cbn. repeat split.
Qed.

Lemma inserir_anexos_acrescenta (rid : Z) (anexos : list ResultadoAnexo)
      (tabela : list LinhaAnexo) (seq : Z) :
  exists novas,
    inserir_anexos rid anexos tabela seq = (tabela ++ novas, seq + Z.of_nat (length anexos))
    /\ length novas = length anexos
    /\ (forall a, In a novas -> resultado_id a = rid /\ seq < anexo_id a).
Proof.
  unfold inserir_anexos. revert tabela seq.
  induction anexos as [|x anexos IH]; intros tabela seq.
  - exists []. cbn [fold_left length Z.of_nat]. rewrite app_nil_r, Z.add_0_r.
    split; [reflexivity|]. split; [reflexivity|]. intros a [].
  - cbn [fold_left].
    destruct (IH (tabela ++
                  [ {| anexo_id := seq + 1;
                       resultado_id := rid;
                       anexo_nome_arquivo := ra_nome_arquivo x;
                       tipo_arquivo := match ra_tipo_arquivo x with Some t => t | None => [] end;
                       tamanho_texto := match ra_tamanho_texto x with Some n => n | None => O end;
                       anexo_pontuacao := ra_pontuacao x;
                       palavras_encontradas := ra_palavras_encontradas x |} ])
                 (seq + 1)) as (novas & E & Hl & Hn).
    eexists (_ :: novas). rewrite E, <- app_assoc. cbn [app]. split.
    + f_equal. cbn [length]. lia.
    + split; [cbn [length]; lia|].
      intros a [<- | Ha]; [cbn; split; [reflexivity | lia]|].
      destruct (Hn a Ha). split; [assumption | lia].
Qed.

(** X12: [salvar_resultado] only ever appends: the rows of both tables that
    were there are still there, unchanged and in place, at most one result
    row is added, and the counters of the keys do not go back. *)
Theorem salvar_resultado_so_acrescenta (erro_sqlite : bool) (current_timestamp : str)
        (db : Banco) (resultado : Resultado) :
  let db' := fst (salvar_resultado erro_sqlite current_timestamp db resultado) in
  (exists novas, resultados db' = resultados db ++ novas /\ (length novas <= 1)%nat)
  /\ (exists novos, tabela_anexos db' = tabela_anexos db ++ novos
                    /\ (length novos <= length (res_anexos_analisados resultado))%nat)
  /\ seq_resultados db <= seq_resultados db'
  /\ seq_anexos db <= seq_anexos db'.
Proof.
  intros db'. unfold db', salvar_resultado.
  destruct erro_sqlite.
  { cbn [fst]. split; [exists []; rewrite app_nil_r; split; [reflexivity | simpl; lia]|].
    split; [exists []; rewrite app_nil_r; split; [reflexivity | simpl; lia]|]. lia. }
  destruct (find _ (resultados db)) as [l0|].
  { cbn [fst]. split; [exists []; rewrite app_nil_r; split; [reflexivity | simpl; lia]|].
    split; [exists []; rewrite app_nil_r; split; [reflexivity | simpl; lia]|]. lia. }
  destruct (inserir_anexos_acrescenta (seq_resultados db + 1)
                                      (res_anexos_analisados resultado)
                                      (tabela_anexos db) (seq_anexos db))
    as (novas & E & Hl & _).
  rewrite E. cbn [fst resultados tabela_anexos seq_resultados seq_anexos].
  split; [eexists; split; [reflexivity | simpl; lia]|].
  split; [exists novas; split; [reflexivity | lia]|]. lia.
Qed.

(** What holds of every store written only by [salvar_resultado]. *)
Lemma alcancavel_invariante (db : Banco) :
  alcancavel db ->
  0 <= seq_resultados db
  /\ (forall linha, In linha (resultados db) -> 0 < id linha <= seq_resultados db)
  /\ NoDup (map id (resultados db))
  /\ (forall a, In a (tabela_anexos db) ->
                exists linha, In linha (resultados db) /\ id linha = resultado_id a)
  /\ (forall linha, In linha (resultados db) ->
        length (filter (fun a => resultado_id a =? id linha) (tabela_anexos db))
        = length (detalhes_json linha)).
Proof.
  induction 1 as [|erro_sqlite current_timestamp db resultado Hdb IH].
  - cbn. repeat split; try lia; try (intros ? []); constructor.
  - destruct IH as (I0 & I1 & I2 & I3 & I4).
    destruct erro_sqlite; [cbn [salvar_resultado fst]; auto 10|].
    destruct (find (mesma_chave (res_email_remetente resultado) (res_assunto resultado)
                                (res_data_email resultado)) (resultados db))
      as [l0|] eqn:Hf.
    { rewrite (salvar_resultado_existente current_timestamp db resultado l0 Hf).
      cbn [fst]. auto 10. }
    unfold salvar_resultado. rewrite Hf.
    destruct (inserir_anexos_acrescenta (seq_resultados db + 1)
                                        (res_anexos_analisados resultado)
                                        (tabela_anexos db) (seq_anexos db))
      as (novas & E & Hl & Hn).
    rewrite E. cbn [fst resultados tabela_anexos seq_resultados seq_anexos].
    set (nova := {| id := seq_resultados db + 1;
                    data_analise := current_timestamp;
                    email_remetente := res_email_remetente resultado;
                    assunto_email := res_assunto resultado;
                    data_email := res_data_email resultado;
                    nome_arquivo := res_nome_arquivo resultado;
                    pontuacao := res_pontuacao resultado;
                    status := res_status resultado;
                    detalhes_json := res_anexos_analisados resultado;
                    vaga_id := res_vaga_id resultado |}).
    assert (Hantigos : forall a, In a (tabela_anexos db) ->
                                 (resultado_id a =? seq_resultados db + 1) = false).
    { intros a Ha. destruct (I3 a Ha) as (l & Hl1 & Hl2).
      pose proof (I1 l Hl1). apply Z.eqb_neq. lia. }
    assert (Hfiltro_novas : forall i,
               filter (fun a => resultado_id a =? i) novas
               = if i =? seq_resultados db + 1 then novas else []).
    { intros i. destruct (i =? seq_resultados db + 1) eqn:Ei.
      - apply Z.eqb_eq in Ei. subst i.
        apply forallb_filter_id. apply forallb_forall. intros a Ha.
        destruct (Hn a Ha) as [-> _]. apply Z.eqb_refl.
      - apply Z.eqb_neq in Ei.
        assert (F : forall l, (forall a, In a l -> resultado_id a = seq_resultados db + 1) ->
                              filter (fun a => resultado_id a =? i) l = []).
        { induction l as [|a l IHl]; intros Hall; [reflexivity|]. cbn [filter].
          rewrite (Hall a (or_introl eq_refl)).
          assert (Q : (seq_resultados db + 1 =? i) = false) by (apply Z.eqb_neq; lia).
          rewrite Q. apply IHl. intros b Hb. apply Hall. right. exact Hb. }
        apply F. intros a Ha. apply (Hn a Ha). }
    split; [lia|]. split; [|split; [|split]].
    + intros l Hl'. apply in_app_or in Hl'. destruct Hl' as [Hl' | [<- | []]].
      * pose proof (I1 l Hl'). lia.
      * cbn. lia.
    + rewrite map_app. cbn [map]. apply NoDup_app; [exact I2 | constructor; [intros [] | constructor] |].
      intros i Hi [<- | []]. apply in_map_iff in Hi. destruct Hi as (l & El & Hl').
      pose proof (I1 l Hl'). cbn in El. lia.
    + intros a Ha. apply in_app_or in Ha. destruct Ha as [Ha | Ha].
      * destruct (I3 a Ha) as (l & Hl1 & Hl2). exists l. split; [apply in_or_app; left; exact Hl1 | exact Hl2].
      * exists nova. split; [apply in_or_app; right; left; reflexivity|].
        destruct (Hn a Ha) as [-> _]. reflexivity.
    + intros l Hl'. rewrite filter_app, length_app, Hfiltro_novas.
      apply in_app_or in Hl'. destruct Hl' as [Hl' | [<- | []]].
      * pose proof (I1 l Hl') as Hid.
        assert (Q : (id l =? seq_resultados db + 1) = false) by (apply Z.eqb_neq; lia).
        rewrite Q, (I4 l Hl'). simpl. lia.
      * cbn [id detalhes_json nova]. rewrite Z.eqb_refl, Hl.
        assert (Z0 : filter (fun a => resultado_id a =? seq_resultados db + 1)
                            (tabela_anexos db) = []).
        { clear - Hantigos. induction (tabela_anexos db) as [|a l IHl]; [reflexivity|].
          cbn [filter]. rewrite (Hantigos a (or_introl eq_refl)).
          apply IHl. intros b Hb. apply Hantigos. right. exact Hb. }
        rewrite Z0. reflexivity.
Qed.

(** X13: in a store written only by [salvar_resultado], the ids of the
    results are positive, pairwise distinct and at most the counter, so a new
    row always gets an id no stored row has. *)
Theorem alcancavel_ids_distintos (db : Banco) :
  alcancavel db ->
  NoDup (map id (resultados db))
  /\ (forall linha, In linha (resultados db) -> 0 < id linha <= seq_resultados db)
  /\ (forall linha, In linha (resultados db) -> id linha <> seq_resultados db + 1).
Proof.
  intros H. destruct (alcancavel_invariante db H) as (_ & I1 & I2 & _).
  split; [exact I2|]. split; [exact I1|].
  intros linha Hl. pose proof (I1 linha Hl). lia.
Qed.

(** X14: in a store written only by [salvar_resultado], every row of table
    [anexos] belongs to a stored result, and each stored result has exactly
    as many attachment rows as attachments were analysed for it. *)
Theorem alcancavel_anexos_integros (db : Banco) :
  alcancavel db ->
  (forall a, In a (tabela_anexos db) ->
             exists linha, In linha (resultados db) /\ id linha = resultado_id a)
  /\ (forall linha, In linha (resultados db) ->
        length (filter (fun a => resultado_id a =? id linha) (tabela_anexos db))
        = length (detalhes_json linha)).
Proof.
  intros H. destruct (alcancavel_invariante db H) as (_ & _ & _ & I3 & I4).
  split; assumption.
Qed.

End ArmazenamentoMais.

Lemma alcancavel_ids_distintos_witness :
  alcancavel (fst (salvar_resultado false (py "2026-11-04 10:00:00") banco_vazio
                                    (analisar_curriculo ambiente email_eng None)))
  /\ NoDup (map id (resultados
                      (fst (salvar_resultado false (py "2026-11-04 10:00:00") banco_vazio
                                             (analisar_curriculo ambiente email_eng None))))).
Proof.
  assert (H : alcancavel
                (fst (salvar_resultado false (py "2026-11-04 10:00:00") banco_vazio
                                       (analisar_curriculo ambiente email_eng None))))
    by (apply alcancavel_salvar; apply alcancavel_vazio).
  split; [exact H|].
  exact (proj1 (alcancavel_ids_distintos _ H)).
Defined.

Lemma alcancavel_anexos_integros_witness :
  alcancavel (fst (salvar_resultado false (py "2026-11-04 10:00:00") banco_vazio
                                    (analisar_curriculo ambiente email_eng None)))
  /\ (forall a,
         In a (tabela_anexos
                 (fst (salvar_resultado false (py "2026-11-04 10:00:00") banco_vazio
                                        (analisar_curriculo ambiente email_eng None)))) ->
         exists linha,
           In linha (resultados
                       (fst (salvar_resultado false (py "2026-11-04 10:00:00") banco_vazio
                                              (analisar_curriculo ambiente email_eng None))))
           /\ id linha = resultado_id a).
Proof.
  assert (H : alcancavel
                (fst (salvar_resultado false (py "2026-11-04 10:00:00") banco_vazio
                                       (analisar_curriculo ambiente email_eng None))))
    by (apply alcancavel_salvar; apply alcancavel_vazio).
  split; [exact H|].
  exact (proj1 (alcancavel_anexos_integros _ H)).
Defined.

Section LimparResultados.

Local Open Scope Z_scope.

(** X15: [limpar_resultados] returns the number of results it deletes and
    restarts the ids, but leaves table [anexos] as it was; the next result
    stored gets id 1 again, and the attachment rows left behind under id 1
    are then counted with its own. *)
Theorem limpar_resultados_reinicia_ids (db : Banco) (resultado : Resultado)
        (current_timestamp : str) :
  let db' := fst (limpar_resultados false db) in
  let db'' := fst (salvar_resultado false current_timestamp db' resultado) in
  snd (limpar_resultados false db) = Some (length (resultados db))
  /\ resultados db' = []
  /\ tabela_anexos db' = tabela_anexos db
  /\ snd (limpar_resultados false db') = Some O
  /\ snd (salvar_resultado false current_timestamp db' resultado) = Some 1
  /\ length (filter (fun a => resultado_id a =? 1) (tabela_anexos db''))
     = (length (filter (fun a => (resultado_id a =? 1)%Z) (tabela_anexos db))
        + length (res_anexos_analisados resultado))%nat.
Proof.
  intros db' db''. split; [reflexivity|]. split; [reflexivity|].
  split; [reflexivity|]. split; [reflexivity|].
  unfold db'', db', limpar_resultados, salvar_resultado.
  cbn [fst resultados find seq_resultados tabela_anexos seq_anexos].
  destruct (inserir_anexos_acrescenta (0 + 1) (res_anexos_analisados resultado)
                                      (tabela_anexos db) (seq_anexos db))
    as (novas & E & Hl & Hn).
  rewrite E. cbn [fst snd tabela_anexos]. split; [reflexivity|].
  rewrite filter_app, length_app. f_equal.
  rewrite <- Hl. f_equal. apply forallb_filter_id. apply forallb_forall.
  intros a Ha. destruct (Hn a Ha) as [-> _]. reflexivity.
Qed.

End LimparResultados.

(* ------------------------------------------------------------------ *)
(** ** Job profiles *)

Section Vagas.

Local Open Scope Z_scope.

Lemma desativar_nome (nome : str) (linha : LinhaVaga) :
  nome_vaga (desativar nome linha) = nome_vaga linha.
Proof.
  unfold desativar. destruct (str_eqb (nome_vaga linha) nome && ativa linha); reflexivity.
Qed.

Lemma desativar_ativa (nome : str) (linha : LinhaVaga) :
  ativa (desativar nome linha) = ativa linha && negb (str_eqb (nome_vaga linha) nome).
Proof.
  unfold desativar.
  destruct (str_eqb (nome_vaga linha) nome) eqn:E; destruct (ativa linha) eqn:A;
    cbn; rewrite ?A; reflexivity.
Qed.

Lemma desativar_outra (nome : str) (linha : LinhaVaga) :
  ativa (desativar nome linha) = true -> desativar nome linha = linha.
Proof.
  rewrite desativar_ativa. intros H. apply andb_true_iff in H. destruct H as [A N].
  apply negb_true_iff in N. unfold desativar. rewrite N. reflexivity.
Qed.

(** The active rows after the [UPDATE]: those of other names, untouched. *)
Lemma ativas_depois_de_desativar (nome : str) (linhas : list LinhaVaga) :
  filter ativa (map (desativar nome) linhas)
  = filter (fun linha => ativa linha && negb (str_eqb (nome_vaga linha) nome)) linhas.
Proof.
  induction linhas as [|l linhas IH]; [reflexivity|]. cbn [map filter].
  rewrite <- desativar_ativa.
  destruct (ativa (desativar nome l)) eqn:A; [|exact IH].
  rewrite (desativar_outra nome l A), IH. reflexivity.
Qed.

Lemma filter_filter {A : Type} (f g : A -> bool) (l : list A) :
  filter f (filter g l) = filter (fun x => g x && f x) l.
Proof.
  induction l as [|x l IH]; [reflexivity|]. cbn [filter].
  destruct (g x); cbn [filter andb]; [destruct (f x); rewrite IH; reflexivity | exact IH].
Qed.

Lemma filter_ext_in_bool {A : Type} (f g : A -> bool) (l : list A) :
  (forall x, In x l -> f x = g x) -> filter f l = filter g l.
Proof.
  induction l as [|x l IH]; intros H; [reflexivity|]. cbn [filter].
  rewrite (H x (or_introl eq_refl)), IH; [reflexivity|].
  intros y Hy. apply H. right. exact Hy.
Qed.

Lemma ativas_de_filter (nome : str) (tb : TabelaVagas) :
  ativas_de nome tb
  = filter (fun linha => str_eqb (nome_vaga linha) nome) (filter ativa (vagas tb)).
Proof.
  unfold ativas_de. rewrite filter_filter. apply filter_ext_in_bool.
  intros x _. apply andb_comm.
Qed.

Lemma ativas_de_salvar_vaga (current_timestamp : str) (tb : TabelaVagas)
      (nome : str) (palavras_chave : list str) (nome' : str) :
  ativas_de nome' (fst (salvar_vaga false current_timestamp tb nome palavras_chave))
  = if str_eqb nome' nome
    then [ {| vaga_id_linha := seq_vagas tb + 1;
              nome_vaga := nome;
              palavras_chave_json := palavras_chave;
              data_criacao := current_timestamp;
              ativa := true |} ]
    else ativas_de nome' tb.
Proof.
  rewrite !ativas_de_filter. cbn [salvar_vaga fst vagas].
  rewrite filter_app, ativas_depois_de_desativar. cbn [filter ativa].
  rewrite filter_app, filter_filter. cbn [filter nome_vaga].
  destruct (str_eqb nome' nome) eqn:E.
  - apply str_eqb_eq in E. subst nome'. rewrite str_eqb_refl.
    assert (Z0 : filter (fun x => ativa x && negb (str_eqb (nome_vaga x) nome)
                                  && str_eqb (nome_vaga x) nome) (vagas tb) = []).
    { induction (vagas tb) as [|x l IHl]; [reflexivity|]. cbn [filter].
      destruct (str_eqb (nome_vaga x) nome); rewrite ?andb_false_r; cbn; exact IHl. }
    rewrite Z0. reflexivity.
  - assert (N : str_eqb nome nome' = false).
    { destruct (str_eqb nome nome') eqn:E'; [|reflexivity].
      apply str_eqb_eq in E'. subst. rewrite str_eqb_refl in E. discriminate. }
    rewrite N, app_nil_r, filter_filter. apply filter_ext_in_bool.
    intros x _. destruct (str_eqb (nome_vaga x) nome') eqn:Ex.
    + apply str_eqb_eq in Ex. rewrite Ex.
      assert (Q : str_eqb nome' nome = false) by exact E.
      rewrite Q. cbn. rewrite !andb_true_r. reflexivity.
    + rewrite !andb_false_r. reflexivity.
Qed.

Lemma ordenar_por_data_perm (linhas : list LinhaVaga) :
  Permutation (ordenar_por_data linhas) linhas.
Proof.
  assert (I : forall x l, Permutation (inserir_por_data x l) (x :: l)).
  { intros x l. induction l as [|y l IH]; cbn [inserir_por_data]; [reflexivity|].
    destruct (str_ltb (data_criacao x) (data_criacao y)); [|reflexivity].
    rewrite IH. apply perm_swap. }
  induction linhas as [|x l IH]; cbn; [reflexivity|].
  rewrite I. constructor. exact IH.
Qed.

Lemma nomes_ativos_NoDup (linhas : list LinhaVaga) :
  (forall nome,
      (length (filter (fun linha => str_eqb (nome_vaga linha) nome) linhas) <= 1)%nat) ->
  NoDup (map nome_vaga linhas).
Proof.
  induction linhas as [|x l IH]; intros H; [constructor|].
  cbn [map]. constructor.
  - intros Hin. apply in_map_iff in Hin. destruct Hin as (y & Ey & Hy).
    specialize (H (nome_vaga x)). cbn [filter] in H. rewrite str_eqb_refl in H.
    assert (Hy' : In y (filter (fun linha => str_eqb (nome_vaga linha) (nome_vaga x)) l)).
    { apply filter_In. split; [exact Hy | apply str_eqb_eq; exact Ey]. }
    destruct (filter (fun linha => str_eqb (nome_vaga linha) (nome_vaga x)) l);
      [destruct Hy' | simpl in H; lia].
  - apply IH. intros nome. specialize (H nome). cbn [filter] in H.
    destruct (str_eqb (nome_vaga x) nome); simpl in H; lia.
Qed.

Lemma vagas_alcancavel_uma_ativa (tb : TabelaVagas) :
  vagas_alcancavel tb -> forall nome, (length (ativas_de nome tb) <= 1)%nat.
Proof.
  induction 1 as [|erro_sqlite current_timestamp tb nome palavras_chave Htb IH];
    intros nome'.
  - simpl. lia.
  - destruct erro_sqlite; [apply IH|].
    rewrite ativas_de_salvar_vaga. destruct (str_eqb nome' nome); [simpl; lia | apply IH].
Qed.

(** X16: written only by [salvar_vaga], table [vagas] never has two active
    rows with one name, and [obter_vagas_ativas] never lists a name twice. *)
Theorem vagas_uma_ativa_por_nome (tb : TabelaVagas) :
  vagas_alcancavel tb ->
  (forall nome, (length (ativas_de nome tb) <= 1)%nat)
  /\ NoDup (map v_nome (obter_vagas_ativas false tb)).
Proof.
  intros H. pose proof (vagas_alcancavel_uma_ativa tb H) as U.
  split; [exact U|].
  unfold obter_vagas_ativas. rewrite map_map. cbn [v_nome].
  apply (Permutation_NoDup (l := map nome_vaga (filter ativa (vagas tb)))).
  - apply Permutation_map. symmetry. apply ordenar_por_data_perm.
  - apply nomes_ativos_NoDup. intros nome. rewrite <- ativas_de_filter. apply U.
Qed.

Lemma obter_vagas_ativas_In (tb : TabelaVagas) (v : Vaga) :
  In v (obter_vagas_ativas false tb)
  <-> exists linha,
        In linha (vagas tb) /\ ativa linha = true
        /\ v = {| v_id := vaga_id_linha linha;
                  v_nome := nome_vaga linha;
                  v_palavras_chave := palavras_chave_json linha;
                  v_data_criacao := data_criacao linha |}.
Proof.
  unfold obter_vagas_ativas. rewrite in_map_iff. split.
  - intros (linha & E & Hin).
    apply (Permutation_in _ (ordenar_por_data_perm _)) in Hin.
    apply filter_In in Hin. destruct Hin as [Hin A].
    exists linha. split; [exact Hin|]. split; [exact A | symmetry; exact E].
  - intros (linha & Hin & A & E). exists linha. split; [symmetry; exact E|].
    apply (Permutation_in _ (Permutation_sym (ordenar_por_data_perm _))).
    apply filter_In. split; assumption.
Qed.

(** X17: saving a job profile and listing.  A call of [salvar_vaga] that
    SQLite lets through returns a new id; the listing then holds the profile
    with that id, the name, the keywords as given and the time of the call,
    it is the only one listed under that name, and the profiles of other
    names are listed as before. *)
Theorem salvar_vaga_e_listagem (current_timestamp : str) (tb : TabelaVagas)
        (nome : str) (palavras_chave : list str) :
  let tb' := fst (salvar_vaga false current_timestamp tb nome palavras_chave) in
  let nova := {| v_id := seq_vagas tb + 1;
                 v_nome := nome;
                 v_palavras_chave := palavras_chave;
                 v_data_criacao := current_timestamp |} in
  snd (salvar_vaga false current_timestamp tb nome palavras_chave) = Some (seq_vagas tb + 1)
  /\ In nova (obter_vagas_ativas false tb')
  /\ (forall v, In v (obter_vagas_ativas false tb') -> v_nome v = nome -> v = nova)
  /\ (forall v, v_nome v <> nome ->
                (In v (obter_vagas_ativas false tb') <-> In v (obter_vagas_ativas false tb))).
Proof.
  intros tb' nova. split; [reflexivity|].
  assert (Hativas : forall linha,
             (In linha (vagas tb') /\ ativa linha = true)
             <-> (In linha (vagas tb) /\ ativa linha = true
                  /\ str_eqb (nome_vaga linha) nome = false)
                 \/ linha = {| vaga_id_linha := seq_vagas tb + 1;
                               nome_vaga := nome;
                               palavras_chave_json := palavras_chave;
                               data_criacao := current_timestamp;
                               ativa := true |}).
  { intros linha. rewrite <- filter_In. unfold tb'. cbn [salvar_vaga fst vagas].
    rewrite filter_app, ativas_depois_de_desativar, in_app_iff, filter_In.
    cbn [filter ativa]. rewrite andb_true_iff, negb_true_iff. cbn [In].
    split.
    - intros [(Hin & A & N) | [E | []]]; [left; auto | right; symmetry; exact E].
    - intros [(Hin & A & N) | E]; [left; auto | right; left; symmetry; exact E]. }
  split; [|split].
  - apply obter_vagas_ativas_In.
    destruct (proj2 (Hativas _) (or_intror eq_refl)) as [Hin A].
    eexists. split; [exact Hin|]. split; [exact A | reflexivity].
  - intros v Hv En. apply obter_vagas_ativas_In in Hv.
    destruct Hv as (linha & Hin & A & ->). cbn [v_nome] in En.
    destruct (proj1 (Hativas linha) (conj Hin A)) as [(_ & _ & N) | ->].
    + rewrite En, str_eqb_refl in N. discriminate.
    + reflexivity.
  - intros v Hn. rewrite !obter_vagas_ativas_In. split.
    + intros (linha & Hin & A & ->). cbn [v_nome] in Hn.
      destruct (proj1 (Hativas linha) (conj Hin A)) as [(Hin' & _ & _) | ->].
      * exists linha. auto.
      * cbn in Hn. contradiction.
    + intros (linha & Hin & A & ->). cbn [v_nome] in Hn.
      exists linha. split; [|split; [exact A | reflexivity]].
      apply (proj2 (Hativas linha)). left. split; [exact Hin|]. split; [exact A|].
      destruct (str_eqb (nome_vaga linha) nome) eqn:E; [|reflexivity].
      apply str_eqb_eq in E. contradiction.
Qed.

End Vagas.

Lemma vagas_uma_ativa_por_nome_witness :
  vagas_alcancavel
    (fst (salvar_vaga false (py "2026-11-04 10:00:01")
            (fst (salvar_vaga false (py "2026-11-04 10:00:00") vagas_vazia
                              (py "Engenheiro") vaga_engenharia))
            (py "Engenheiro") vaga_ti))
  /\ NoDup (map v_nome
              (obter_vagas_ativas false
                 (fst (salvar_vaga false (py "2026-11-04 10:00:01")
                         (fst (salvar_vaga false (py "2026-11-04 10:00:00") vagas_vazia
                                           (py "Engenheiro") vaga_engenharia))
                         (py "Engenheiro") vaga_ti)))).
Proof.
  assert (H : vagas_alcancavel
                (fst (salvar_vaga false (py "2026-11-04 10:00:01")
                        (fst (salvar_vaga false (py "2026-11-04 10:00:00") vagas_vazia
                                          (py "Engenheiro") vaga_engenharia))
                        (py "Engenheiro") vaga_ti)))
    by (do 2 apply vagas_alcancavel_salvar; apply vagas_alcancavel_vazia).
  split; [exact H|].
  exact (proj2 (vagas_uma_ativa_por_nome _ H)).
Defined.

(* ------------------------------------------------------------------ *)
(** ** Approved résumés *)

Section Aprovados.

Local Open Scope Z_scope.

Lemma mesmo_aprovado_eq (email : str) (vaga : Z) (arquivo : str) (linha : LinhaAprovado) :
  mesmo_aprovado email vaga arquivo linha = true
  <-> ap_email_remetente linha = email /\ ap_vaga_id linha = vaga
      /\ ap_nome_arquivo linha = arquivo.
Proof.
  unfold mesmo_aprovado. rewrite !andb_true_iff, !str_eqb_eq, Z.eqb_eq. tauto.
Qed.

Lemma salvar_curriculo_aprovado_existente (current_timestamp : str) (tb : TabelaAprovados)
      (resultado : Resultado) (nome_vaga : str) (vaga : Z) (linha : LinhaAprovado) :
  find (mesmo_aprovado (res_email_remetente resultado) vaga (res_nome_arquivo resultado))
       (aprovados tb) = Some linha ->
  salvar_curriculo_aprovado false current_timestamp tb resultado nome_vaga vaga
  = (tb, Some (aprovado_id linha)).
Proof.
  intros H. unfold salvar_curriculo_aprovado. rewrite H. reflexivity.
Qed.

Lemma salvar_curriculo_aprovado_novo (current_timestamp : str) (tb : TabelaAprovados)
      (resultado : Resultado) (nome_vaga : str) (vaga : Z) :
  find (mesmo_aprovado (res_email_remetente resultado) vaga (res_nome_arquivo resultado))
       (aprovados tb) = None ->
  exists linha,
    salvar_curriculo_aprovado false current_timestamp tb resultado nome_vaga vaga
    = ({| aprovados := aprovados tb ++ [linha]; seq_aprovados := seq_aprovados tb + 1 |},
       Some (aprovado_id linha))
    /\ aprovado_id linha = seq_aprovados tb + 1
    /\ ap_email_remetente linha = res_email_remetente resultado
    /\ ap_vaga_id linha = vaga
    /\ ap_nome_arquivo linha = res_nome_arquivo resultado
    /\ ap_nome_vaga linha = nome_vaga
    /\ ap_nome_candidato linha = _extrair_nome_candidato resultado
    /\ ap_pontuacao linha = res_pontuacao resultado.
Proof.
  intros H. unfold salvar_curriculo_aprovado. rewrite H.
  exists {| aprovado_id := seq_aprovados tb + 1;
            ap_vaga_id := vaga;
            ap_nome_vaga := nome_vaga;
            ap_email_remetente := res_email_remetente resultado;
            ap_nome_candidato := _extrair_nome_candidato resultado;
            ap_assunto_email := res_assunto resultado;
            ap_nome_arquivo := res_nome_arquivo resultado;
            ap_pontuacao := res_pontuacao resultado;
            ap_data_aprovacao := current_timestamp;
            ap_data_email := res_data_email resultado;
            ap_detalhes_curriculo := preparar_detalhes resultado |}.
  cbn. repeat split.
Qed.

Lemma aprovados_alcancavel_chave_unica (tb : TabelaAprovados) :
  aprovados_alcancavel tb ->
  forall email vaga arquivo,
    (length (filter (mesmo_aprovado email vaga arquivo) (aprovados tb)) <= 1)%nat.
Proof.
  induction 1 as [|erro_sqlite current_timestamp tb resultado nome_vaga vaga0 Htb IH];
    intros email vaga arquivo.
  - simpl. lia.
  - destruct erro_sqlite; [apply IH|].
    destruct (find (mesmo_aprovado (res_email_remetente resultado) vaga0
                                   (res_nome_arquivo resultado)) (aprovados tb))
      as [linha|] eqn:Hf.
    + rewrite (salvar_curriculo_aprovado_existente current_timestamp tb resultado
                                                   nome_vaga vaga0 linha Hf).
      apply IH.
    + destruct (salvar_curriculo_aprovado_novo current_timestamp tb resultado
                                               nome_vaga vaga0 Hf)
        as (linha & -> & _ & He & Hv & Ha & _).
      cbn [fst aprovados]. rewrite filter_app, length_app. cbn [filter].
      destruct (mesmo_aprovado email vaga arquivo linha) eqn:Hk.
      * apply mesmo_aprovado_eq in Hk. destruct Hk as (<- & <- & <-).
        rewrite He, Hv, Ha, (find_none_filter _ _ Hf). simpl. lia.
      * specialize (IH email vaga arquivo). simpl. lia.
Qed.

(** X18: approving is idempotent.  In a table written only by
    [salvar_curriculo_aprovado], saving the same approval (sender, job id and
    file names) twice returns the same id both times, the second call writes
    nothing, and exactly one row is stored for it; whatever the job name,
    score or time of the second call. *)
Theorem salvar_curriculo_aprovado_idempotente
        (tb : TabelaAprovados) (resultado : Resultado) (nome_vaga1 nome_vaga2 : str)
        (vaga : Z) (t1 t2 : str) :
  aprovados_alcancavel tb ->
  let tb1 := fst (salvar_curriculo_aprovado false t1 tb resultado nome_vaga1 vaga) in
  let id1 := snd (salvar_curriculo_aprovado false t1 tb resultado nome_vaga1 vaga) in
  salvar_curriculo_aprovado false t2 tb1 resultado nome_vaga2 vaga = (tb1, id1)
  /\ exists linha,
      filter (mesmo_aprovado (res_email_remetente resultado) vaga
                             (res_nome_arquivo resultado)) (aprovados tb1) = [linha]
      /\ id1 = Some (aprovado_id linha).
Proof.
  intros Htb tb1 id1.
  set (chave := mesmo_aprovado (res_email_remetente resultado) vaga
                               (res_nome_arquivo resultado)).
  pose proof (aprovados_alcancavel_chave_unica tb Htb (res_email_remetente resultado)
                                               vaga (res_nome_arquivo resultado)) as Hu.
  fold chave in Hu.
  assert (H1 : exists linha,
             find chave (aprovados tb1) = Some linha
             /\ filter chave (aprovados tb1) = [linha]
             /\ id1 = Some (aprovado_id linha)).
  { unfold tb1, id1.
    destruct (find chave (aprovados tb)) as [l0|] eqn:Hf.
    - unfold chave in Hf.
      rewrite (salvar_curriculo_aprovado_existente t1 tb resultado nome_vaga1 vaga l0 Hf).
      cbn [fst snd]. exists l0. split; [exact Hf|]. split; [|reflexivity].
      destruct (find_some_filter _ _ _ Hf) as [r Hr]. fold chave in Hr. rewrite Hr in *.
      destruct r; [reflexivity | simpl in Hu; lia].
    - unfold chave in Hf.
      destruct (salvar_curriculo_aprovado_novo t1 tb resultado nome_vaga1 vaga Hf)
        as (linha & -> & _ & He & Hv & Ha & _).
      cbn [fst snd aprovados].
      assert (Hk : chave linha = true).
      { unfold chave. apply mesmo_aprovado_eq. auto. }
      exists linha. split; [|split; [|reflexivity]].
      + fold chave in Hf. rewrite (find_app_none _ _ [linha] Hf). simpl. rewrite Hk. reflexivity.
      + fold chave in Hf. rewrite filter_app, (find_none_filter _ _ Hf). simpl.
        rewrite Hk. reflexivity. }
  destruct H1 as (linha & Hf1 & Hfl & Hid).
  split.
  - rewrite Hid. apply salvar_curriculo_aprovado_existente. exact Hf1.
  - exists linha. split; [exact Hfl | exact Hid].
Qed.

Lemma pontuacao_para_espaco_sem_pontuacao (s : str) :
  Forall (fun c => c <> 95 /\ c <> 45 /\ c <> 46)%N (pontuacao_para_espaco s).
Proof.
  unfold pontuacao_para_espaco. apply Forall_forall. intros c Hc.
  apply in_map_iff in Hc. destruct Hc as (x & <- & _).
  destruct (x =? 95)%N eqn:E1; [cbn; repeat split; discriminate|].
  destruct (x =? 45)%N eqn:E2; [cbn; repeat split; discriminate|].
  destruct (x =? 46)%N eqn:E3; [cbn; repeat split; discriminate|].
  cbn. apply N.eqb_neq in E1, E2, E3. auto.
Qed.

Lemma lstrip_Forall (P : N -> Prop) (s : str) : Forall P s -> Forall P (lstrip s).
Proof.
  induction 1 as [|c r Hc Hr IH]; [constructor|]. cbn [lstrip].
  destruct (isspace_cp c); [exact IH | constructor; assumption].
Qed.

Lemma strip_Forall (P : N -> Prop) (s : str) : Forall P s -> Forall P (strip s).
Proof.
  intros H. unfold strip. apply Forall_rev. apply lstrip_Forall.
  apply Forall_rev. apply lstrip_Forall. exact H.
Qed.

Lemma title_cp_sem_pontuacao (c : N) :
  (c <> 95 /\ c <> 45 /\ c <> 46)%N ->
  Forall (fun c => c <> 95 /\ c <> 45 /\ c <> 46)%N (title_cp c)
  /\ (lower_cp c <> 95 /\ lower_cp c <> 45 /\ lower_cp c <> 46)%N.
Proof.
  intros (H1 & H2 & H3). split.
  - unfold title_cp, upper_cp.
    destruct (c =? 223)%N; [repeat constructor; discriminate|].
    destruct (((97 <=? c) && (c <=? 122) || (224 <=? c) && (c <=? 254) && negb (c =? 247))%N)
      eqn:E.
    + constructor; [|constructor].
      apply orb_true_iff in E. destruct E as [E | E].
      * apply andb_true_iff in E. destruct E as [Ea Eb].
        apply N.leb_le in Ea, Eb. lia.
      * apply andb_true_iff in E. destruct E as [E _].
        apply andb_true_iff in E. destruct E as [Ea Eb].
        apply N.leb_le in Ea, Eb. lia.
    + destruct (c =? 255)%N; [repeat constructor; discriminate|].
      destruct (c =? 181)%N; [repeat constructor; discriminate|].
      repeat constructor; assumption.
  - unfold lower_cp.
    destruct (((65 <=? c) && (c <=? 90) || (192 <=? c) && (c <=? 222) && negb (c =? 215))%N)
      eqn:E; [|auto].
    apply orb_true_iff in E. destruct E as [E | E].
    + apply andb_true_iff in E. destruct E as [Ea Eb].
      apply N.leb_le in Ea, Eb. lia.
    + apply andb_true_iff in E. destruct E as [E _].
      apply andb_true_iff in E. destruct E as [Ea Eb].
      apply N.leb_le in Ea, Eb. lia.
Qed.

Lemma title_aux_sem_pontuacao (b : bool) (s : str) :
  Forall (fun c => c <> 95 /\ c <> 45 /\ c <> 46)%N s ->
  Forall (fun c => c <> 95 /\ c <> 45 /\ c <> 46)%N (title_aux b s)
  /\ (length s <= length (title_aux b s))%nat.
Proof.
  intros H. revert b. induction H as [|c r Hc Hr IH]; intros b.
  - split; [constructor | simpl; lia].
  - cbn [title_aux]. destruct (IH (cased_cp c)) as [I1 I2].
    destruct (title_cp_sem_pontuacao c Hc) as [T L]. split.
    + apply Forall_app. split; [|exact I1].
      destruct b; [constructor; [exact L | constructor] | exact T].
    + rewrite length_app. cbn [length].
      assert (1 <= length (if b then [lower_cp c] else title_cp c))%nat.
      { destruct b; [simpl; lia|]. unfold title_cp, upper_cp.
        repeat match goal with |- context [if ?x then _ else _] => destruct x end;
          simpl; lia. }
      lia.
Qed.

(** X19: the candidate name is the sender address itself or a title-cased
    name of more than two code points with no underscore, hyphen or dot; it is
    the sender address whenever the file names are empty and the address has
    no at sign. *)
Theorem _extrair_nome_candidato_forma (resultado : Resultado) :
  (_extrair_nome_candidato resultado = res_email_remetente resultado
   \/ ((2 < length (_extrair_nome_candidato resultado))%nat
       /\ Forall (fun c => c <> 95 /\ c <> 45 /\ c <> 46)%N
                 (_extrair_nome_candidato resultado)))
  /\ (res_nome_arquivo resultado = [] ->
      existsb (N.eqb 64) (res_email_remetente resultado) = false ->
      _extrair_nome_candidato resultado = res_email_remetente resultado).
Proof.
  assert (T : forall s, (2 <? length (strip (pontuacao_para_espaco s)))%nat = true ->
                        (2 < length (title (strip (pontuacao_para_espaco s))))%nat
                        /\ Forall (fun c => c <> 95 /\ c <> 45 /\ c <> 46)%N
                                  (title (strip (pontuacao_para_espaco s)))).
  { intros s Hs. apply Nat.ltb_lt in Hs.
    destruct (title_aux_sem_pontuacao false (strip (pontuacao_para_espaco s))) as [F L].
    { apply strip_Forall. apply pontuacao_para_espaco_sem_pontuacao. }
    unfold title. split; [lia | exact F]. }
  split.
  - unfold _extrair_nome_candidato, nome_do_arquivo, nome_do_email.
    destruct (res_nome_arquivo resultado) as [|c r] eqn:En.
    + destruct (existsb (N.eqb 64) (res_email_remetente resultado)); [|left; reflexivity].
      destruct (2 <? length (strip (pontuacao_para_espaco
                                     (antes_da_arroba (res_email_remetente resultado)))))%nat
        eqn:El; [right; apply T; exact El | left; reflexivity].
    + destruct (2 <? length (strip (pontuacao_para_espaco
                                     (fold_left remover palavras_remover
                                        (fold_left remover extensoes_comuns
                                                   (lower (c :: r)))))))%nat eqn:Ea;
        [right; apply T; exact Ea|].
      destruct (existsb (N.eqb 64) (res_email_remetente resultado)); [|left; reflexivity].
      destruct (2 <? length (strip (pontuacao_para_espaco
                                     (antes_da_arroba (res_email_remetente resultado)))))%nat
        eqn:El; [right; apply T; exact El | left; reflexivity].
  - intros En Ea. unfold _extrair_nome_candidato, nome_do_arquivo, nome_do_email.
    rewrite En, Ea. reflexivity.
Qed.

End Aprovados.

Lemma salvar_curriculo_aprovado_idempotente_witness :
  aprovados_alcancavel aprovados_vazia
  /\ salvar_curriculo_aprovado false (py "2026-11-04 10:00:01")
       (fst (salvar_curriculo_aprovado false (py "2026-11-04 10:00:00") aprovados_vazia
               (analisar_curriculo ambiente email_doc (Some vaga_ti)) (py "Suporte") 1))
       (analisar_curriculo ambiente email_doc (Some vaga_ti)) (py "Suporte de TI") 1
     = (fst (salvar_curriculo_aprovado false (py "2026-11-04 10:00:00") aprovados_vazia
               (analisar_curriculo ambiente email_doc (Some vaga_ti)) (py "Suporte") 1),
        snd (salvar_curriculo_aprovado false (py "2026-11-04 10:00:00") aprovados_vazia
               (analisar_curriculo ambiente email_doc (Some vaga_ti)) (py "Suporte") 1)).
Proof.
  split.
  - exact aprovados_alcancavel_vazia.
  - exact (proj1 (salvar_curriculo_aprovado_idempotente
                    aprovados_vazia (analisar_curriculo ambiente email_doc (Some vaga_ti))
                    (py "Suporte") (py "Suporte de TI") 1
                    (py "2026-11-04 10:00:00") (py "2026-11-04 10:00:01")
                    aprovados_alcancavel_vazia)).
Defined.

(* ------------------------------------------------------------------ *)
(** ** Attachment names and folder names *)

Section NomesDeArquivo.

Local Open Scope N_scope.

Lemma endswith_rev (s sufixo : str) :
  endswith s sufixo = true <-> exists p, s = p ++ sufixo.
Proof.
  unfold endswith. split.
  - intros H. apply startswith_split in H. destruct H as [q E].
    exists (rev q). rewrite <- (rev_involutive s), E, rev_app_distr, rev_involutive.
    reflexivity.
  - intros [p ->]. rewrite rev_app_distr. apply startswith_app.
Qed.

Lemma endswith_ultimo (s sufixo : str) (a b : N) :
  a <> b -> endswith s (sufixo ++ [a]) = true -> forall t, endswith s (t ++ [b]) = false.
Proof.
  intros Hab H t. destruct (endswith s (t ++ [b])) eqn:E; [|reflexivity].
  apply endswith_rev in H. apply endswith_rev in E.
  destruct H as [p ->]. destruct E as [q E].
  rewrite !app_assoc in E. apply app_inj_tail in E. destruct E as [_ E]. contradiction.
Qed.

(** X20: the type of an attachment follows its extension whatever the case
    of the letters: names ending in .pdf, .doc, .docx and .txt get pdf, doc,
    docx and txt, every other name gets "desconhecido"; so the names the mail
    client accepts are exactly those whose type is known. *)
Theorem _detectar_tipo_arquivo_por_extensao (filename : str) :
  (endswith (lower filename) (py ".pdf") = true -> _detectar_tipo_arquivo filename = py "pdf")
  /\ (endswith (lower filename) (py ".doc") = true -> _detectar_tipo_arquivo filename = py "doc")
  /\ (endswith (lower filename) (py ".docx") = true -> _detectar_tipo_arquivo filename = py "docx")
  /\ (endswith (lower filename) (py ".txt") = true -> _detectar_tipo_arquivo filename = py "txt")
  /\ (extensao_aceita filename = false <-> _detectar_tipo_arquivo filename = py "desconhecido")
  /\ _detectar_tipo_arquivo (lower filename) = _detectar_tipo_arquivo filename.
Proof.
  assert (Pd : forall s, endswith s (py ".pdf") = true ->
                         endswith s (py ".doc") = false /\ endswith s (py ".docx") = false
                         /\ endswith s (py ".txt") = false).
  { intros s H. change (py ".pdf") with ([46; 112; 100] ++ [102]) in H.
    split; [|split].
    - apply (endswith_ultimo s [46; 112; 100] 102 99 ltac:(discriminate) H [46; 100; 111]).
    - apply (endswith_ultimo s [46; 112; 100] 102 120 ltac:(discriminate) H [46; 100; 111; 99]).
    - apply (endswith_ultimo s [46; 112; 100] 102 116 ltac:(discriminate) H [46; 116; 120]). }
  assert (Dc : forall s, endswith s (py ".doc") = true ->
                         endswith s (py ".pdf") = false).
  { intros s H. change (py ".doc") with ([46; 100; 111] ++ [99]) in H.
    apply (endswith_ultimo s [46; 100; 111] 99 102 ltac:(discriminate) H [46; 112; 100]). }
  assert (Dx : forall s, endswith s (py ".docx") = true ->
                         endswith s (py ".pdf") = false /\ endswith s (py ".doc") = false).
  { intros s H. change (py ".docx") with ([46; 100; 111; 99] ++ [120]) in H. split.
    - apply (endswith_ultimo s [46; 100; 111; 99] 120 102 ltac:(discriminate) H [46; 112; 100]).
    - apply (endswith_ultimo s [46; 100; 111; 99] 120 99 ltac:(discriminate) H [46; 100; 111]). }
  assert (Tx : forall s, endswith s (py ".txt") = true ->
                         endswith s (py ".pdf") = false /\ endswith s (py ".doc") = false
                         /\ endswith s (py ".docx") = false).
  { intros s H. change (py ".txt") with ([46; 116; 120] ++ [116]) in H.
    split; [|split].
    - apply (endswith_ultimo s [46; 116; 120] 116 102 ltac:(discriminate) H [46; 112; 100]).
    - apply (endswith_ultimo s [46; 116; 120] 116 99 ltac:(discriminate) H [46; 100; 111]).
    - apply (endswith_ultimo s [46; 116; 120] 116 120 ltac:(discriminate) H [46; 100; 111; 99]). }
  assert (Ll : lower (lower filename) = lower filename).
  { unfold lower. rewrite map_map. apply map_ext. intros c. unfold lower_cp.
    destruct ((65 <=? c) && (c <=? 90) || (192 <=? c) && (c <=? 222) && negb (c =? 215))
      eqn:E; [|rewrite E; reflexivity].
    assert (R : (65 <=? c + 32) && (c + 32 <=? 90)
                || (192 <=? c + 32) && (c + 32 <=? 222) && negb (c + 32 =? 215) = false).
    { apply orb_true_iff in E. destruct E as [E | E].
      - apply andb_true_iff in E. destruct E as [Ea Eb]. apply N.leb_le in Ea, Eb.
        assert (Q1 : (c + 32 <=? 90) = false) by (apply N.leb_gt; lia).
        assert (Q2 : (192 <=? c + 32) = false) by (apply N.leb_gt; lia).
        rewrite Q1, Q2, andb_false_r. reflexivity.
      - apply andb_true_iff in E. destruct E as [E _].
        apply andb_true_iff in E. destruct E as [Ea Eb]. apply N.leb_le in Ea, Eb.
        assert (Q1 : (c + 32 <=? 90) = false) by (apply N.leb_gt; lia).
        assert (Q2 : (c + 32 <=? 222) = false) by (apply N.leb_gt; lia).
        rewrite Q1, Q2, !andb_false_r. reflexivity. }
    rewrite R. reflexivity. }
  unfold _detectar_tipo_arquivo, extensao_aceita.
  split; [intros H; rewrite H; reflexivity|].
  split; [intros H; rewrite (Dc _ H), H; reflexivity|].
  split; [intros H; destruct (Dx _ H) as [-> ->]; rewrite H; reflexivity|].
  split; [intros H; destruct (Tx _ H) as (-> & -> & ->); rewrite H; reflexivity|].
  split; [|rewrite Ll; reflexivity].
  cbn [extensoes_aceitas map existsb].
  change (py ".pdf") with [46; 112; 100; 102].
  change (py ".doc") with [46; 100; 111; 99].
  change (py ".docx") with [46; 100; 111; 99; 120].
  change (py ".txt") with [46; 116; 120; 116].
  destruct (endswith (lower filename) [46; 112; 100; 102]);
    destruct (endswith (lower filename) [46; 100; 111; 99]);
    destruct (endswith (lower filename) [46; 100; 111; 99; 120]);
    destruct (endswith (lower filename) [46; 116; 120; 116]);
    cbn; split; intros H; try reflexivity; try discriminate H.
Qed.





End NomesDeArquivo.

(* ------------------------------------------------------------------ *)
(** ** Search and download of emails *)

Section BuscaDeEmails.

Lemma firstn_soma {A : Type} (a b : nat) (l : list A) :
  firstn (a + b) l = firstn a l ++ firstn b (skipn a l).
Proof.
  revert l. induction a as [|a IH]; intros l; [reflexivity|].
  destruct l as [|x l]; cbn [Nat.add firstn skipn app].
  - rewrite firstn_nil. reflexivity.
  - rewrite IH. reflexivity.
Qed.

Lemma lotes_prefixo (message_list : list str) (m : nat) :
  flat_map (lote message_list (length message_list))
           (map (fun k => k * batch_size)%nat (seq 0 m))
  = firstn (Nat.min (m * batch_size) (length message_list)) message_list.
Proof.
  induction m as [|m IH].
  - reflexivity.
  - rewrite seq_S, map_app, flat_map_app, IH. cbn [Nat.add map flat_map].
    rewrite app_nil_r. unfold lote.
    destruct (Nat.le_gt_cases (m * batch_size) (length message_list)) as [Hle | Hgt].
    + rewrite (Nat.min_l _ _ Hle), <- firstn_soma. f_equal.
      unfold batch_size in *. lia.
    + rewrite (Nat.min_r (m * batch_size) (length message_list)) by lia.
      rewrite (skipn_all2 message_list) by lia.
      rewrite firstn_nil, app_nil_r. f_equal. unfold batch_size in *. lia.
Qed.

(** The batches put together are the list they were cut from. *)
Lemma lotes_completos (message_list : list str) :
  flat_map (lote message_list (length message_list))
           (inicios_dos_lotes (length message_list))
  = message_list.
Proof.
  unfold inicios_dos_lotes. rewrite lotes_prefixo.
  assert (H : (length message_list
               <= (length message_list + (batch_size - 1)) / batch_size * batch_size)%nat).
  { unfold batch_size.
    pose proof (Nat.div_mod_eq (length message_list + (100 - 1)) 100) as E.
    pose proof (Nat.mod_upper_bound (length message_list + (100 - 1)) 100) as U.
    lia. }
  rewrite Nat.min_r by exact H. apply firstn_all.
Qed.

Lemma flat_map_flat_map {A B C : Type} (f : B -> list C) (g : A -> list B) (l : list A) :
  flat_map (fun x => flat_map f (g x)) l = flat_map f (flat_map g l).
Proof.
  induction l as [|x l IH]; [reflexivity|]. cbn [flat_map].
  rewrite flat_map_app, IH. reflexivity.
Qed.

Lemma limitar_sufixo (todos_emails : bool) (message_list : list str) :
  (exists antigos, message_list = antigos ++ limitar todos_emails message_list)
  /\ (todos_emails = true -> (length (limitar todos_emails message_list) <= 1000)%nat)
  /\ ((length message_list <= 1000)%nat -> limitar todos_emails message_list = message_list).
Proof.
  unfold limitar.
  destruct (todos_emails && (1000 <? length message_list)%nat) eqn:E.
  - apply andb_true_iff in E. destruct E as [_ E]. apply Nat.ltb_lt in E.
    split; [|split].
    + exists (firstn (length message_list - 1000) message_list).
      symmetry. apply firstn_skipn.
    + intros _. rewrite length_skipn. lia.
    + intros H. lia.
  - split; [exists []; reflexivity|]. split; [|reflexivity].
    intros ->. cbn [andb] in E. apply Nat.ltb_ge in E. exact E.
Qed.

(** X22: a connected client whose search answers with message numbers goes
    through every one of them exactly once, the most recent first, however
    they fall into batches of 100; when all emails are searched only the last
    1000 numbers are kept.  Every email returned passed the pre-filter on its
    body structure, has at least one attachment, and stands in the result in
    the order of the reversed list. *)
Theorem buscar_emails_percorre_todos
        (srv : Servidor) (todos_emails : bool) (dias_atras : Z) (message_list : list str) :
  imap_server srv = true -> noop srv = true ->
  buscar_numeros srv todos_emails dias_atras = SearchNumeros message_list ->
  let recentes := rev (limitar todos_emails message_list) in
  exists emails,
    buscar_emails_com_anexos srv todos_emails dias_atras = Some emails
    /\ emails = flat_map (fun num => match processar_email srv num with
                                     | Some email_data => [email_data]
                                     | None => []
                                     end) recentes
    /\ map eb_numero emails
       = filter (fun num => match processar_email srv num with
                            | Some _ => true
                            | None => false
                            end) recentes
    /\ (forall e, In e emails ->
                  In (eb_numero e) message_list
                  /\ passa_pre_filtro srv (eb_numero e) = true
                  /\ eb_anexos e <> []).
Proof.
  intros Hc Hn Hs recentes.
  set (proc := fun num => match processar_email srv num with
                          | Some email_data => [email_data]
                          | None => []
                          end).
  assert (E : buscar_emails_com_anexos srv todos_emails dias_atras
              = Some (flat_map proc recentes)).
  { unfold buscar_emails_com_anexos. rewrite Hc, Hn, Hs. cbn [negb]. f_equal.
    fold proc. rewrite (flat_map_flat_map proc).
    rewrite <- (length_rev (limitar todos_emails message_list)).
    rewrite lotes_completos. reflexivity. }
  assert (Hnum : forall num e, processar_email srv num = Some e ->
                               eb_numero e = num /\ passa_pre_filtro srv num = true
                               /\ eb_anexos e <> []).
  { intros num e. unfold processar_email.
    destruct (passa_pre_filtro srv num); [|discriminate].
    destruct (fetch_rfc822 srv num) as [msg|]; [|discriminate].
    destruct (tem_anexos (walk msg)); [|discriminate].
    destruct (_extrair_anexos srv (walk msg)) as [|a r]; [discriminate|].
    intros H. injection H as <-. cbn. repeat split. discriminate. }
  exists (flat_map proc recentes). split; [exact E|]. split; [reflexivity|]. split.
  - generalize recentes. intros l. induction l as [|num l IH]; [reflexivity|].
    cbn [flat_map filter]. rewrite map_app, IH. unfold proc at 1.
    destruct (processar_email srv num) as [e|] eqn:Ep; [|reflexivity].
    cbn [map app]. destruct (Hnum num e Ep) as [En _]. rewrite En. reflexivity.
  - intros e He. apply in_flat_map in He. destruct He as (num & Hin & He).
    unfold proc in He. destruct (processar_email srv num) as [e'|] eqn:Ep; [|destruct He].
    destruct He as [<- | []]. destruct (Hnum num e' Ep) as (En & Hp & Ha).
    rewrite En. split; [|split; assumption].
    unfold recentes in Hin. apply in_rev in Hin.
    destruct (limitar_sufixo todos_emails message_list) as [(antigos & Hl) _].
    rewrite Hl. apply in_or_app. right. exact Hin.
Qed.

Lemma _extrair_anexos_com_fetch (srv : Servidor) (f : str -> option Mensagem)
      (partes : list Parte) :
  _extrair_anexos (com_fetch_rfc822 srv f) partes = _extrair_anexos srv partes.
Proof.
  induction partes as [|part resto IH]; [reflexivity|]. cbn [_extrair_anexos].
  rewrite IH. reflexivity.
Qed.

(** X23: the pre-filter decides before any download: what a full fetch would
    answer for a message whose body structure does not pass the pre-filter
    has no effect on the result of the search. *)
Theorem pre_filtro_antes_do_download
        (srv : Servidor) (f : str -> option Mensagem) (todos_emails : bool) (dias_atras : Z) :
  (forall num, passa_pre_filtro srv num = true -> f num = fetch_rfc822 srv num) ->
  buscar_emails_com_anexos (com_fetch_rfc822 srv f) todos_emails dias_atras
  = buscar_emails_com_anexos srv todos_emails dias_atras.
Proof.
  intros H.
  assert (P : forall num, processar_email (com_fetch_rfc822 srv f) num
                          = processar_email srv num).
  { intros num. unfold processar_email.
    change (passa_pre_filtro (com_fetch_rfc822 srv f) num) with (passa_pre_filtro srv num).
    destruct (passa_pre_filtro srv num) eqn:Ep; [|reflexivity].
    change (fetch_rfc822 (com_fetch_rfc822 srv f) num) with (f num).
    rewrite (H num Ep).
    destruct (fetch_rfc822 srv num) as [msg|]; [|reflexivity].
    rewrite _extrair_anexos_com_fetch. reflexivity. }
  unfold buscar_emails_com_anexos.
  change (imap_server (com_fetch_rfc822 srv f)) with (imap_server srv).
  change (noop (com_fetch_rfc822 srv f)) with (noop srv).
  change (buscar_numeros (com_fetch_rfc822 srv f) todos_emails dias_atras)
    with (buscar_numeros srv todos_emails dias_atras).
  destruct (negb (imap_server srv)); [reflexivity|].
  destruct (negb (noop srv)); [reflexivity|].
  destruct (buscar_numeros srv todos_emails dias_atras) as [| |message_list];
    try reflexivity.
  f_equal. apply flat_map_ext. intros batch_start. apply flat_map_ext. intros num.
  rewrite P. reflexivity.
Qed.

(** X24: the fallbacks of the search.  A server that answers the plain ALL
    search never makes the search step fail; when all emails are searched and
    the attachment search raises or finds nothing, the numbers are those of
    ALL; and in the search by date a combined search that raises is replaced
    by ALL, without the date, while one that finds nothing is replaced by the
    search by date alone. *)
Theorem buscar_numeros_alternativas (srv : Servidor) (dias_atras : Z) :
  (forall todos_emails,
      search srv ALL <> SearchErro ->
      buscar_numeros srv todos_emails dias_atras <> SearchErro)
  /\ (search srv HAS_ATTACHMENT = SearchErro \/ search srv HAS_ATTACHMENT = SearchVazio ->
      buscar_numeros srv true dias_atras = search srv ALL)
  /\ (search srv (SINCE_HAS_ATTACHMENT (data_inicio srv dias_atras)) = SearchErro ->
      buscar_numeros srv false dias_atras = search srv ALL)
  /\ (search srv (SINCE_HAS_ATTACHMENT (data_inicio srv dias_atras)) = SearchVazio ->
      search srv (SINCE (data_inicio srv dias_atras)) <> SearchErro ->
      buscar_numeros srv false dias_atras = search srv (SINCE (data_inicio srv dias_atras))).
Proof.
  split; [|split; [|split]].
  - intros todos_emails H. unfold buscar_numeros. destruct todos_emails.
    + destruct (search srv HAS_ATTACHMENT); [exact H | | discriminate].
      destruct (search srv ALL); [exact H | discriminate | discriminate].
    + destruct (search srv (SINCE_HAS_ATTACHMENT (data_inicio srv dias_atras)));
        [exact H | | discriminate].
      destruct (search srv (SINCE (data_inicio srv dias_atras)));
        [exact H | discriminate | discriminate].
  - intros [H | H]; unfold buscar_numeros; rewrite H; [reflexivity|].
    destruct (search srv ALL); reflexivity.
  - intros H. unfold buscar_numeros. rewrite H. reflexivity.
  - intros H N. unfold buscar_numeros. rewrite H.
    destruct (search srv (SINCE (data_inicio srv dias_atras))); [contradiction | |]; reflexivity.
Qed.

Lemma tipo_desconhecido_recusado (nome : str) :
  _detectar_tipo_arquivo nome = py "desconhecido" -> extensao_aceita nome = false.
Proof.
  unfold _detectar_tipo_arquivo, extensao_aceita.
  cbn [extensoes_aceitas map existsb].
  destruct (endswith (lower nome) (py ".pdf")); [discriminate|].
  destruct (endswith (lower nome) (py ".doc")); [discriminate|].
  destruct (endswith (lower nome) (py ".docx")); [discriminate|].
  destruct (endswith (lower nome) (py ".txt")); [discriminate|].
  reflexivity.
Qed.

(** X25: every attachment [_extrair_anexos] hands over has a name with one of
    the accepted extensions, the type that goes with it (never
    "desconhecido"), a non-empty content whose length is its recorded size,
    and a temporary file that was written; so the analyzer always sends it to
    one of its four readers. *)
Theorem _extrair_anexos_validos (srv : Servidor) (partes : list Parte) (a : AnexoBaixado) :
  In a (_extrair_anexos srv partes) ->
  extensao_aceita (ab_nome_original a) = true
  /\ ab_tipo a = _detectar_tipo_arquivo (ab_nome_original a)
  /\ ab_tipo a <> py "desconhecido"
  /\ ab_conteudo_bytes a <> []
  /\ ab_tamanho a = length (ab_conteudo_bytes a)
  /\ gravar srv (ab_caminho_temp a) (ab_conteudo_bytes a) = true
  /\ (exists part, In part partes /\ nome_do_anexo part = Some (ab_nome_original a)
                   /\ payload part = Some (ab_conteudo_bytes a))
  /\ (forall amb,
         let anexo := anexo_para_analise a in
         _extrair_texto amb (caminho_temp anexo) (tipo anexo)
         = _extrair_texto_pdf amb (caminho_temp anexo)
         \/ _extrair_texto amb (caminho_temp anexo) (tipo anexo)
            = _extrair_texto_docx amb (caminho_temp anexo)
         \/ _extrair_texto amb (caminho_temp anexo) (tipo anexo)
            = _extrair_texto_doc (caminho_temp anexo)
         \/ _extrair_texto amb (caminho_temp anexo) (tipo anexo)
            = _extrair_texto_txt amb (caminho_temp anexo)).
Proof.
  induction partes as [|part resto IH]; [intros []|]. cbn [_extrair_anexos].
  assert (R : In a (_extrair_anexos srv resto) ->
              extensao_aceita (ab_nome_original a) = true
              /\ ab_tipo a = _detectar_tipo_arquivo (ab_nome_original a)
              /\ ab_tipo a <> py "desconhecido"
              /\ ab_conteudo_bytes a <> []
              /\ ab_tamanho a = length (ab_conteudo_bytes a)
              /\ gravar srv (ab_caminho_temp a) (ab_conteudo_bytes a) = true
              /\ (exists part0, In part0 (part :: resto)
                                /\ nome_do_anexo part0 = Some (ab_nome_original a)
                                /\ payload part0 = Some (ab_conteudo_bytes a))
              /\ (forall amb,
                     let anexo := anexo_para_analise a in
                     _extrair_texto amb (caminho_temp anexo) (tipo anexo)
                     = _extrair_texto_pdf amb (caminho_temp anexo)
                     \/ _extrair_texto amb (caminho_temp anexo) (tipo anexo)
                        = _extrair_texto_docx amb (caminho_temp anexo)
                     \/ _extrair_texto amb (caminho_temp anexo) (tipo anexo)
                        = _extrair_texto_doc (caminho_temp anexo)
                     \/ _extrair_texto amb (caminho_temp anexo) (tipo anexo)
                        = _extrair_texto_txt amb (caminho_temp anexo))).
  { intros H. destruct (IH H) as (H1 & H2 & H3 & H4 & H5 & H6 & (p0 & Hp & Hq) & H8).
    repeat (split; [assumption|]). split; [|exact H8].
    exists p0. split; [right; exact Hp | exact Hq]. }
  destruct (nome_do_anexo part) as [nome|] eqn:En; [|exact R].
  destruct (extensao_aceita nome) eqn:Ea; [|exact R].
  destruct (payload part) as [[|b bs]|] eqn:Ep; [exact R | | exact R].
  destruct (gravar srv _ (b :: bs)) eqn:Eg; [|intros []].
  intros [<- | H]; [|exact (R H)].
  cbn [ab_nome_original ab_tipo ab_conteudo_bytes ab_tamanho ab_caminho_temp].
  assert (Hd : _detectar_tipo_arquivo nome <> py "desconhecido").
  { intros Ed. apply tipo_desconhecido_recusado in Ed. congruence. }
  split; [exact Ea|]. split; [reflexivity|]. split; [exact Hd|].
  split; [discriminate|]. split; [reflexivity|]. split; [exact Eg|].
  split; [exists part; split; [left; reflexivity | split; [exact En | exact Ep]]|].
  intros amb. cbv zeta. unfold anexo_para_analise, _extrair_texto.
  cbn [caminho_temp tipo ab_caminho_temp ab_tipo].
  unfold _detectar_tipo_arquivo in *.
  destruct (endswith (lower nome) (py ".pdf")); [left; reflexivity|].
  destruct (endswith (lower nome) (py ".doc")); [right; right; left; reflexivity|].
  destruct (endswith (lower nome) (py ".docx")); [right; left; reflexivity|].
  destruct (endswith (lower nome) (py ".txt")); [right; right; right; reflexivity|].
  exfalso. apply Hd. reflexivity.
Qed.

End BuscaDeEmails.

Lemma buscar_emails_percorre_todos_witness :
  imap_server servidor = true
  /\ noop servidor = true
  /\ buscar_numeros servidor true 7 = SearchNumeros [py "1"; py "2"; py "3"]
  /\ exists emails,
      buscar_emails_com_anexos servidor true 7 = Some emails
      /\ map eb_numero emails
         = filter (fun num => match processar_email servidor num with
                              | Some _ => true
                              | None => false
                              end)
                  (rev (limitar true [py "1"; py "2"; py "3"])).
Proof.
  assert (H1 : imap_server servidor = true) by reflexivity.
  assert (H2 : noop servidor = true) by reflexivity.
  assert (H3 : buscar_numeros servidor true 7 = SearchNumeros [py "1"; py "2"; py "3"])
    by reflexivity.
  split; [exact H1|]. split; [exact H2|]. split; [exact H3|].
  destruct (buscar_emails_percorre_todos servidor true 7 [py "1"; py "2"; py "3"] H1 H2 H3)
    as (emails & E & _ & N & _).
  exists emails. split; [exact E | exact N].
Defined.

Lemma pre_filtro_antes_do_download_witness :
  (forall num,
      passa_pre_filtro servidor num = true ->
      (if str_eqb num (py "3") then Some mensagem_cv else fetch_rfc822 servidor num)
      = fetch_rfc822 servidor num)
  /\ buscar_emails_com_anexos
       (com_fetch_rfc822 servidor
          (fun num => if str_eqb num (py "3") then Some mensagem_cv
                      else fetch_rfc822 servidor num))
       true 7
     = buscar_emails_com_anexos servidor true 7.
Proof.
  assert (H : forall num,
             passa_pre_filtro servidor num = true ->
             (if str_eqb num (py "3") then Some mensagem_cv else fetch_rfc822 servidor num)
             = fetch_rfc822 servidor num).
  { intros num. unfold passa_pre_filtro, servidor. cbn [fetch_bodystructure fetch_rfc822].
    destruct (str_eqb num (py "2")) eqn:E2.
    - apply str_eqb_eq in E2. subst num. intros _. reflexivity.
    - destruct (str_eqb num (py "3")) eqn:E3.
      + intros P. vm_compute in P. discriminate P.
      + intros _. reflexivity. }
  split; [exact H|].
  exact (pre_filtro_antes_do_download
           servidor
           (fun num => if str_eqb num (py "3") then Some mensagem_cv
                       else fetch_rfc822 servidor num)
           true 7 H).
Defined.

Lemma _extrair_anexos_validos_witness :
  In {| ab_nome_original := py "CV.PDF";
        ab_caminho_temp := py "/tmp/curriculo_20261104_100000_CV.PDF";
        ab_tamanho := 4;
        ab_tipo := py "pdf";
        ab_conteudo_bytes := [37; 80; 68; 70]%N |}
     (_extrair_anexos servidor (walk mensagem_cv))
  /\ ab_tipo {| ab_nome_original := py "CV.PDF";
                ab_caminho_temp := py "/tmp/curriculo_20261104_100000_CV.PDF";
                ab_tamanho := 4;
                ab_tipo := py "pdf";
                ab_conteudo_bytes := [37; 80; 68; 70]%N |}
     <> py "desconhecido".
Proof.
  assert (H : In {| ab_nome_original := py "CV.PDF";
                    ab_caminho_temp := py "/tmp/curriculo_20261104_100000_CV.PDF";
                    ab_tamanho := 4;
                    ab_tipo := py "pdf";
                    ab_conteudo_bytes := [37; 80; 68; 70]%N |}
                 (_extrair_anexos servidor (walk mensagem_cv)))
    by (vm_compute; left; reflexivity).
  split; [exact H|].
  exact (proj1 (proj2 (proj2 (_extrair_anexos_validos servidor (walk mensagem_cv) _ H)))).
Defined.
